(** * The article fetcher of coverage-scorer ([utils/article_fetcher.py])

    A shallow embedding of the two-tier fetcher: the [requests] tier with
    one retry, the HTML content extractor over a BeautifulSoup tree, the
    MSN redirect unwrapping and the playwright fallback.

    Python strings are modelled as [string] (characters below 256, ASCII
    case folding, and the white space of [str.isspace] below 256).  The world outside the module (URL
    parsing, the HTML parser, the network and the headless browser) is a
    record of oracles, [Env]; the calls made to it are logged in a trace. *)

From Stdlib Require Import ZArith Lia Ascii DecimalString.
From stdpp Require Import base option list strings gmap.

(** ** Python string operations *)

Module PyStr.

Definition lower_char (c : ascii) : ascii :=
  let n := Ascii.N_of_ascii c in
  if ((65 <=? n) && (n <=? 90))%N then Ascii.ascii_of_N (n + 32) else c.

(** [s.lower()] *)
Fixpoint lower (s : string) : string :=
  match s with
  | EmptyString => EmptyString
  | String c s' => String (lower_char c) (lower s')
  end.

(** [s.startswith(p)] *)
Fixpoint startswith (p s : string) : bool :=
  match p, s with
  | EmptyString, _ => true
  | String _ _, EmptyString => false
  | String a p', String b s' => if decide (a = b) then startswith p' s' else false
  end.

(** [p in s] *)
Fixpoint contains (p s : string) : bool :=
  match s with
  | EmptyString => startswith p EmptyString
  | String _ s' => startswith p s || contains p s'
  end.

(** [s.replace(old, new)] for a non-empty [old]: occurrences are found
    from the left and do not overlap.  [skip] counts the characters of
    a matched occurrence that are still to be dropped. *)
Fixpoint replace_from (old new : string) (skip : nat) (s : string) : string :=
  match s with
  | EmptyString => EmptyString
  | String c s' =>
      match skip with
      | S k => replace_from old new k s'
      | O =>
          if startswith old s
          then new +:+ replace_from old new (String.length old - 1) s'
          else String c (replace_from old new 0 s')
      end
  end.

Definition replace (old new s : string) : string := replace_from old new 0 s.

(** [c.isspace()], which is also what [\s] matches: the ASCII white
    space (tab to carriage return, and the space), the separators
    0x1c to 0x1f, the next-line character 0x85 and the no-break space
    0xa0. *)
Definition is_space (c : ascii) : bool :=
  let n := Ascii.N_of_ascii c in
  ((9 <=? n) && (n <=? 13) || (28 <=? n) && (n <=? 32) || (n =? 133) || (n =? 160))%N.

Fixpoint lstrip (s : string) : string :=
  match s with
  | EmptyString => EmptyString
  | String c s' => if is_space c then lstrip s' else s
  end.

Definition rstrip (s : string) : string := String.rev (lstrip (String.rev s)).

(** [s.strip()] *)
Definition strip (s : string) : string := rstrip (lstrip s).

(** [s.split()]: the maximal runs of characters that are not white
    space; [word] holds the characters of the run being read, last
    first. *)
Fixpoint split_from (word : option string) (s : string) : list string :=
  match s with
  | EmptyString => option_list (String.rev <$> word)
  | String c s' =>
      if is_space c then option_list (String.rev <$> word) ++ split_from None s'
      else split_from (Some (String c (default EmptyString word))) s'
  end.

Definition split (s : string) : list string := split_from None s.

(** [sep.join(l)] *)
Fixpoint join (sep : string) (l : list string) : string :=
  match l with
  | [] => EmptyString
  | [x] => x
  | x :: l' => x +:+ sep +:+ join sep l'
  end.

(** [s[:n]] *)
Definition take (n : nat) (s : string) : string := String.substring 0 n s.

Fixpoint drop (n : nat) (s : string) : string :=
  match n, s with
  | O, _ => s
  | S _, EmptyString => EmptyString
  | S k, String _ s' => drop k s'
  end.

(** [str(n)] for the numbers formatted into messages *)
Definition of_nat (n : nat) : string := NilZero.string_of_uint (Nat.to_uint n).
Definition of_Z (z : Z) : string := NilZero.string_of_int (Z.to_int z).

Definition nonempty (s : string) : bool :=
  match s with EmptyString => false | _ => true end.

(** no character of [s] is [c] *)
Fixpoint free_of (c : ascii) (s : string) : bool :=
  match s with
  | EmptyString => true
  | String d s' => negb (bool_decide (d = c)) && free_of c s'
  end.

End PyStr.

(** ** The BeautifulSoup tree

    The parse tree that [BeautifulSoup(markup, 'html.parser')] builds:
    strings (with the class bs4 gives them) and tags with their
    attributes and children.  A [soup] is the list of children of the
    document object. *)

Module Bs4.

Inductive string_kind :=
| NavigableString | CData | Comment | Script | Stylesheet | OtherString.

(** bs4 stores [class], [rel] and a few other attributes as lists of
    tokens and every other attribute as one string. *)
Inductive attr_value :=
| AttrStr (s : string)
| AttrList (l : list string).

Inductive node :=
| Str (k : string_kind) (s : string)
| Tag (name : string) (attrs : list (string * attr_value)) (children : list node).

Definition soup := list node.

Global Instance string_kind_eq_dec : EqDecision string_kind.
Proof. solve_decision. Defined.

Definition is_named (names : list string) (n : node) : bool :=
  match n with
  | Str _ _ => false
  | Tag nm _ _ => bool_decide (nm ∈ names)
  end.

(** [tag.descendants], in document order *)
Fixpoint descendants (n : node) : list node :=
  match n with
  | Str _ _ => []
  | Tag _ _ cs => flat_map (fun c => c :: descendants c) cs
  end.

Definition soup_descendants (d : soup) : list node :=
  flat_map (fun c => c :: descendants c) d.

(** [soup.find_all(names)] *)
Definition find_all (names : list string) (d : soup) : list node :=
  List.filter (is_named names) (soup_descendants d).

Definition node_find_all (names : list string) (n : node) : list node :=
  List.filter (is_named names) (descendants n).

(** [soup.find(name)] *)
Definition find (name : string) (d : soup) : option node :=
  head (find_all [name] d).

(** The strings [get_text] collects: those of class NavigableString or
    CData (script and style bodies and comments are left out). *)
Definition text_of (n : node) : list string :=
  match n with
  | Str k s => if bool_decide (k = NavigableString ∨ k = CData) then [s] else []
  | Tag _ _ _ => []
  end.

Definition all_strings (ns : list node) : list string := flat_map text_of ns.

(** [tag.get_text()] *)
Definition get_text (n : node) : string :=
  PyStr.join "" (all_strings (descendants n)).

Definition stripped_strings (ns : list node) : list string :=
  List.filter PyStr.nonempty (map PyStr.strip (all_strings ns)).

(** [soup.get_text(separator=' ', strip=True)] *)
Definition soup_get_text_stripped (d : soup) : string :=
  PyStr.join " " (stripped_strings (soup_descendants d)).

(** [for element in soup.find_all(names): element.decompose()] *)
Fixpoint decompose (names : list string) (n : node) : node :=
  match n with
  | Str _ _ => n
  | Tag nm at_ cs =>
      Tag nm at_
        ((fix go (l : list node) : list node :=
            match l with
            | [] => []
            | c :: l' => if is_named names c then go l' else decompose names c :: go l'
            end) cs)
  end.

Fixpoint decompose_all (names : list string) (d : soup) : soup :=
  match d with
  | [] => []
  | c :: d' =>
      if is_named names c then decompose_all names d'
      else decompose names c :: decompose_all names d'
  end.

(** *** CSS selectors (the fragment of soupsieve the module uses):
    compound selectors made of a tag name, classes and attribute tests,
    chained by the descendant combinator. *)

Inductive attr_test :=
| AttrContains (name sub : string)     (* [name*="sub"] *)
| AttrEquals (name val : string).      (* [name="val"]  *)

Record compound := {
  sel_tag : option string;
  sel_classes : list string;
  sel_attrs : list attr_test
}.

(** outermost compound first *)
Definition selector := list compound.

Definition attr_string (v : attr_value) : string :=
  match v with AttrStr s => s | AttrList l => PyStr.join " " l end.

Definition attr_tokens (v : attr_value) : list string :=
  match v with AttrStr s => PyStr.split s | AttrList l => l end.

Fixpoint get_attr (name : string) (attrs : list (string * attr_value)) : option attr_value :=
  match attrs with
  | [] => None
  | (k, v) :: rest => if decide (k = name) then Some v else get_attr name rest
  end.

Definition attr_test_ok (attrs : list (string * attr_value)) (t : attr_test) : bool :=
  match t with
  | AttrContains name sub =>
      match get_attr name attrs with
      | Some v => PyStr.nonempty sub && PyStr.contains sub (attr_string v)
      | None => false
      end
  | AttrEquals name val =>
      match get_attr name attrs with
      | Some v => bool_decide (attr_string v = val)
      | None => false
      end
  end.

Definition classes_of (attrs : list (string * attr_value)) : list string :=
  match get_attr "class" attrs with
  | Some v => attr_tokens v
  | None => []
  end.

Definition matches_compound (c : compound) (n : node) : bool :=
  match n with
  | Str _ _ => false
  | Tag nm attrs _ =>
      match sel_tag c with Some t => bool_decide (t = nm) | None => true end
      && forallb (fun cl => bool_decide (cl ∈ classes_of attrs)) (sel_classes c)
      && forallb (attr_test_ok attrs) (sel_attrs c)
  end.

(** [outer] lists the compounds still to be found among the ancestors,
    innermost first; [ancestors] lists the ancestors, nearest first. *)
Fixpoint ancestors_match (outer : list compound) (ancestors : list node) : bool :=
  match outer with
  | [] => true
  | c :: outer' =>
      match ancestors with
      | [] => false
      | a :: ancestors' =>
          if matches_compound c a then ancestors_match outer' ancestors'
          else ancestors_match outer ancestors'
      end
  end.

Definition matches (sel : selector) (ancestors : list node) (n : node) : bool :=
  match rev sel with
  | [] => false
  | c :: outer => matches_compound c n && ancestors_match outer ancestors
  end.

(** every node below [n] with its chain of ancestors, in document order *)
Fixpoint walk (ancestors : list node) (n : node) : list (list node * node) :=
  match n with
  | Str _ _ => []
  | Tag _ _ cs => flat_map (fun c => (n :: ancestors, c) :: walk (n :: ancestors) c) cs
  end.

Definition soup_walk (d : soup) : list (list node * node) :=
  flat_map (fun c => ([], c) :: walk [] c) d.

(** [soup.select_one(sel)] *)
Definition select_one (sel : selector) (d : soup) : option node :=
  snd <$> head (List.filter (fun '(anc, n) => matches sel anc n) (soup_walk d)).

Definition by_tag (t : string) : compound :=
  {| sel_tag := Some t; sel_classes := []; sel_attrs := [] |}.
Definition by_class (c : string) : compound :=
  {| sel_tag := None; sel_classes := [c]; sel_attrs := [] |}.
Definition tag_class (t c : string) : compound :=
  {| sel_tag := Some t; sel_classes := [c]; sel_attrs := [] |}.
Definition class_has (sub : string) : compound :=
  {| sel_tag := None; sel_classes := []; sel_attrs := [AttrContains "class" sub] |}.
Definition tag_class_has (t sub : string) : compound :=
  {| sel_tag := Some t; sel_classes := []; sel_attrs := [AttrContains "class" sub] |}.
Definition attr_is (a v : string) : compound :=
  {| sel_tag := None; sel_classes := []; sel_attrs := [AttrEquals a v] |}.
Definition tag_attr_is (t a v : string) : compound :=
  {| sel_tag := Some t; sel_classes := []; sel_attrs := [AttrEquals a v] |}.

End Bs4.

(** ** Data of the fetcher *)

(** The [metadata] dictionary: the seven keys every call creates, and the
    two keys [handle_bloomberg_content] may add. *)
Record Metadata := {
  url : string;
  domain : string;
  title : string;
  author : string;
  fetch_errors : list string;
  http_status : option Z;
  fetch_method : string;
  partial_content : option bool;
  partial_content_reason : option string
}.

Definition set_domain (v : string) (m : Metadata) : Metadata :=
  {| url := url m; domain := v; title := title m; author := author m;
     fetch_errors := fetch_errors m; http_status := http_status m;
     fetch_method := fetch_method m; partial_content := partial_content m;
     partial_content_reason := partial_content_reason m |}.
Definition set_title (v : string) (m : Metadata) : Metadata :=
  {| url := url m; domain := domain m; title := v; author := author m;
     fetch_errors := fetch_errors m; http_status := http_status m;
     fetch_method := fetch_method m; partial_content := partial_content m;
     partial_content_reason := partial_content_reason m |}.
Definition set_author (v : string) (m : Metadata) : Metadata :=
  {| url := url m; domain := domain m; title := title m; author := v;
     fetch_errors := fetch_errors m; http_status := http_status m;
     fetch_method := fetch_method m; partial_content := partial_content m;
     partial_content_reason := partial_content_reason m |}.
Definition set_fetch_errors (v : list string) (m : Metadata) : Metadata :=
  {| url := url m; domain := domain m; title := title m; author := author m;
     fetch_errors := v; http_status := http_status m;
     fetch_method := fetch_method m; partial_content := partial_content m;
     partial_content_reason := partial_content_reason m |}.
Definition set_http_status (v : option Z) (m : Metadata) : Metadata :=
  {| url := url m; domain := domain m; title := title m; author := author m;
     fetch_errors := fetch_errors m; http_status := v;
     fetch_method := fetch_method m; partial_content := partial_content m;
     partial_content_reason := partial_content_reason m |}.
Definition set_fetch_method (v : string) (m : Metadata) : Metadata :=
  {| url := url m; domain := domain m; title := title m; author := author m;
     fetch_errors := fetch_errors m; http_status := http_status m;
     fetch_method := v; partial_content := partial_content m;
     partial_content_reason := partial_content_reason m |}.
Definition set_partial_content (flag : bool) (reason : string) (m : Metadata) : Metadata :=
  {| url := url m; domain := domain m; title := title m; author := author m;
     fetch_errors := fetch_errors m; http_status := http_status m;
     fetch_method := fetch_method m; partial_content := Some flag;
     partial_content_reason := Some reason |}.

(** [metadata.update(other)] where [other] holds the seven basic keys *)
Definition update (m other : Metadata) : Metadata :=
  {| url := url other; domain := domain other; title := title other;
     author := author other; fetch_errors := fetch_errors other;
     http_status := http_status other; fetch_method := fetch_method other;
     partial_content := partial_content m;
     partial_content_reason := partial_content_reason m |}.

Definition new_metadata (u method : string) : Metadata :=
  {| url := u; domain := ""; title := ""; author := ""; fetch_errors := [];
     http_status := None; fetch_method := method;
     partial_content := None; partial_content_reason := None |}.

(** [(success, content_or_error, metadata)] *)
Definition Result : Type := bool * string * Metadata.

Definition ok (r : Result) : bool := r.1.1.
Definition text (r : Result) : string := r.1.2.
Definition meta (r : Result) : Metadata := r.2.

(** ** The environment *)

Record PyExn := { exn_type : string; exn_msg : string }.

(** The fields of [urlparse(url)] the module reads. *)
Record ParseResult := { netloc : string; query : string }.

(** What [requests.get] does: a response, or one of the exceptions the
    retry loop tells apart (in the order of its [except] clauses). *)
Inductive HttpOutcome :=
| Response (status_code : Z) (content : string)
| RaiseTimeout
| RaiseSSLError (msg : string)
| RaiseConnectionError (msg : string)
| RaiseOther (e : PyExn).

(** What the browser session of [fetch_with_playwright] does once
    playwright is imported: an exception before [page.goto] returns, or
    a navigation response (absent when [goto] returns [None]) followed by
    the rendered HTML or by a later exception. *)
Inductive PwRest :=
| PwContent (html : string)
| PwRaisesAfter (e : PyExn).

Inductive PwOutcome :=
| PwRaises (e : PyExn)
| PwResponse (status : option Z) (rest : PwRest).

Inductive Event :=
| EvGet (u : string) (timeout : Z)
| EvSleep (seconds : Z)
| EvPlaywright (u : string) (timeout : Z).

Record Env := {
  urlparse : string -> ParseResult + PyExn;
  parse_qs : string -> gmap string (list string);
  html_parser : string -> Bs4.soup;
  soup_str : Bs4.soup -> string;
  playwright_installed : bool;
  requests_get : list Event -> string -> Z -> HttpOutcome;
  playwright_session : list Event -> string -> Z -> PwOutcome
}.

(** The state a call runs in: the calls made to the outside so far and
    the module-level flag [_playwright_available]. *)
Record State := {
  trace : list Event;
  _playwright_available : option bool
}.

Definition M (A : Type) : Type := State -> A * State.

Global Instance M_ret : MRet M := fun A x st => (x, st).
Global Instance M_bind : MBind M :=
  fun A B f m st => let '(x, st') := m st in f x st'.

(** the state after one more call to the outside *)
Definition logged (e : Event) (st : State) : State :=
  {| trace := trace st ++ [e]; _playwright_available := _playwright_available st |}.

Definition log (e : Event) : M unit := fun st => (tt, logged e st).

Definition history : M (list Event) := fun st => (trace st, st).

(** ** Constants *)

Definition DEFAULT_TIMEOUT : Z := 30.
Definition PLAYWRIGHT_TIMEOUT : Z := 45000.
Definition MAX_RETRIES : nat := 2.
Definition RETRY_DELAY : Z := 2.
Definition MIN_CONTENT_CHARS_FOR_SUCCESS : nat := 500.
Definition MIN_PARAGRAPHS_FOR_JS_CHECK : nat := 3.

Definition JS_HEAVY_DOMAINS : list string :=
  ["coindesk.com"; "msn.com"; "bloomberg.com"; "forbes.com"; "businessinsider.com"].

Definition paywall_indicators : list string :=
  ["paywall"; "subscribe-wall"; "subscription-required"; "premium-content"].

Definition headline_selectors : list Bs4.selector :=
  [ [Bs4.tag_class "h1" "headline"]; [Bs4.tag_class "h1" "article-title"];
    [Bs4.tag_class "h1" "post-title"];
    [Bs4.tag_class_has "h1" "headline"]; [Bs4.tag_class_has "h1" "title"];
    [Bs4.by_tag "article"; Bs4.by_tag "h1"];
    [Bs4.by_class "article-header"; Bs4.by_tag "h1"]; [Bs4.by_tag "h1"] ].

Definition author_selectors : list Bs4.selector :=
  [ [Bs4.class_has "author"; Bs4.by_tag "a"]; [Bs4.class_has "byline"];
    [Bs4.tag_attr_is "a" "rel" "author"]; [Bs4.class_has "author-name"];
    [Bs4.tag_class_has "span" "author"]; [Bs4.by_class "author"];
    [Bs4.by_class "byline"] ].

Definition content_selectors : list Bs4.selector :=
  [ [Bs4.by_tag "article"]; [Bs4.class_has "article-body"];
    [Bs4.class_has "article-content"];
    [Bs4.class_has "post-content"]; [Bs4.class_has "entry-content"];
    [Bs4.class_has "story-body"]; [Bs4.class_has "story-content"];
    [Bs4.class_has "main-content"]; [Bs4.class_has "page-content"];
    [Bs4.by_class "content"]; [Bs4.by_tag "main"]; [Bs4.attr_is "role" "main"] ].

Definition unwanted_elements : list string :=
  ["script"; "style"; "nav"; "header"; "footer"; "aside"; "iframe"; "noscript"; "form"].

(** ** The HTML content extractor *)

(** The first selector of the list that selects something, as the
    [for selector in ...: ... break] loops find it. *)
Fixpoint first_selected (sels : list Bs4.selector) (soup : Bs4.soup) : option Bs4.node :=
  match sels with
  | [] => None
  | sel :: rest =>
      match Bs4.select_one sel soup with
      | Some n => Some n
      | None => first_selected rest soup
      end
  end.

(** [re.sub(r'^(By|Written by|Author:)\s*', '', author_text, flags=re.IGNORECASE)] *)
Definition strip_byline_prefix (author_text : string) : string :=
  let low := PyStr.lower author_text in
  if PyStr.startswith "by" low then PyStr.lstrip (PyStr.drop 2 author_text)
  else if PyStr.startswith "written by" low then PyStr.lstrip (PyStr.drop 10 author_text)
  else if PyStr.startswith "author:" low then PyStr.lstrip (PyStr.drop 7 author_text)
  else author_text.

(** ["\n\n".join([p.get_text().strip() for p in ps if p.get_text().strip()])] *)
Definition paragraphs_text (ps : list Bs4.node) : string :=
  PyStr.join (String "010" (String "010" EmptyString))
    (List.filter PyStr.nonempty (map (fun p => PyStr.strip (Bs4.get_text p)) ps)).

Definition count_words (text : string) : nat := length (PyStr.split text).

(** The loop over [content_selectors]; [content] is the text of the last
    container tried so far. *)
Fixpoint content_loop (soup : Bs4.soup) (sels : list Bs4.selector) (content : string) : string :=
  match sels with
  | [] => content
  | sel :: rest =>
      match Bs4.select_one sel soup with
      | Some article_elem =>
          let content := paragraphs_text (Bs4.node_find_all ["p"] article_elem) in
          if (100 <=? count_words content)%nat then content
          else content_loop soup rest content
      | None => content_loop soup rest content
      end
  end.

Definition js_rendered_message (script_count p_count : nat) : string :=
  "JavaScript-rendered page (React/Vue/etc.) - requires browser to access content ("
  +:+ PyStr.of_nat script_count +:+ " scripts, " +:+ PyStr.of_nat p_count +:+ " paragraphs)".

(** The first part of [extract_content_from_html]: the title, the
    headline that overrides it, and the author, written into the
    metadata. *)
Definition find_title_and_author (soup : Bs4.soup) (metadata : Metadata) : Metadata :=
  let metadata :=
    match Bs4.find "title" soup with
    | Some title_tag => set_title (PyStr.strip (Bs4.get_text title_tag)) metadata
    | None => metadata
    end in
  let metadata :=
    match first_selected headline_selectors soup with
    | Some headline => set_title (PyStr.strip (Bs4.get_text headline)) metadata
    | None => metadata
    end in
  match first_selected author_selectors soup with
  | Some author =>
      set_author (strip_byline_prefix (PyStr.strip (Bs4.get_text author))) metadata
  | None => metadata
  end.

(** The rest of it, from the check for JavaScript-rendered pages to the
    validation of the text. *)
Definition find_content (soup : Bs4.soup) : bool * string :=
  let script_count := length (Bs4.find_all ["script"] soup) in
  let p_count := length (Bs4.find_all ["p"] soup) in
  if (20 <? script_count)%nat && (p_count <? 3)%nat
     && (String.length (Bs4.soup_get_text_stripped soup) <? 500)%nat
  then (false, js_rendered_message script_count p_count)
  else
    let soup := Bs4.decompose_all unwanted_elements soup in
    let all_text := Bs4.soup_get_text_stripped soup in
    if (String.length all_text <? 100)%nat
    then (false, "Page has no meaningful content (only "
                 +:+ PyStr.of_nat (String.length all_text) +:+ " chars of text)")
    else
      let content := content_loop soup content_selectors "" in
      let content :=
        if (count_words content <? 100)%nat
        then paragraphs_text (Bs4.find_all ["p"] soup)
        else content in
      let char_count := String.length content in
      let word_count := count_words content in
      if (char_count <? 200)%nat
      then (false, "Content too short (" +:+ PyStr.of_nat char_count
                   +:+ " chars, need 200+)")
      else if (word_count <? 50)%nat
      then (false, "Content too short (" +:+ PyStr.of_nat word_count
                   +:+ " words, need 50+)")
      else (true, content).

(** [extract_content_from_html(soup, metadata)]; the result carries the
    metadata as the call leaves it (title and author are set in place
    whatever the outcome). *)
Definition extract_content_from_html (soup : Bs4.soup) (metadata : Metadata)
  : bool * string * Metadata :=
  let metadata := find_title_and_author soup metadata in
  let '(success, content) := find_content soup in
  (success, content, metadata).

(** ** The fetcher *)

(** The local variables of [fetch_article] that the retry loop updates. *)
Record Locals := {
  metadata : Metadata;
  all_errors : list string;
  should_try_playwright : bool;
  playwright_reason : string
}.

(** One iteration of the retry loop ends in [continue] (or runs off its
    end), in [break], or in [return]. *)
Inductive Flow :=
| Continue (l : Locals)
| Break (l : Locals)
| Return (r : Result).

Definition with_metadata (f : Metadata -> Metadata) (l : Locals) : Locals :=
  {| metadata := f (metadata l); all_errors := all_errors l;
     should_try_playwright := should_try_playwright l;
     playwright_reason := playwright_reason l |}.

(** [all_errors.append(error_msg)] *)
Definition append_error (error_msg : string) (l : Locals) : Locals :=
  {| metadata := metadata l; all_errors := all_errors l ++ [error_msg];
     should_try_playwright := should_try_playwright l;
     playwright_reason := playwright_reason l |}.

(** [should_try_playwright = True; playwright_reason = reason] *)
Definition want_playwright (reason : string) (l : Locals) : Locals :=
  {| metadata := metadata l; all_errors := all_errors l;
     should_try_playwright := true; playwright_reason := reason |}.

(** [return False, error_msg, metadata] after
    [metadata["fetch_errors"] = all_errors] *)
Definition fail_with (error_msg : string) (l : Locals) : Flow :=
  Return (false, error_msg, set_fetch_errors (all_errors l) (metadata l)).

Section Fetcher.

Variable env : Env.

(** [parsed.netloc.replace("www.", "")] *)
Definition strip_www (host : string) : string := PyStr.replace "www." "" host.

Definition extract_domain (url : string) : string :=
  match urlparse env url with
  | inl parsed => strip_www (netloc parsed)
  | inr _ => ""
  end.

Definition is_js_heavy_domain (url : string) : bool :=
  match urlparse env url with
  | inl parsed =>
      let domain := strip_www (PyStr.lower (netloc parsed)) in
      existsb (fun js_domain => PyStr.contains js_domain domain) JS_HEAVY_DOMAINS
  | inr _ => false
  end.

Definition is_bloomberg_url (url : string) : bool :=
  match urlparse env url with
  | inl parsed => PyStr.contains "bloomberg.com" (PyStr.lower (netloc parsed))
  | inr _ => false
  end.

Definition handle_bloomberg_content (content : string) (metadata : Metadata)
  : string * Metadata :=
  let char_count := String.length content in
  let word_count := count_words content in
  if (char_count <? 1000)%nat
  then (content,
        set_partial_content true
          ("Bloomberg content too short (" +:+ PyStr.of_nat char_count +:+ " chars, "
           +:+ PyStr.of_nat word_count +:+ " words) - may need manual review")
          metadata)
  else (content, metadata).

(** An empty value list makes [query_params[...][0]] raise, which the
    function turns into [None]. *)
Definition extract_original_url_from_msn (url : string) : option string :=
  match urlparse env url with
  | inl parsed =>
      if PyStr.contains "msn.com" (PyStr.lower (netloc parsed)) then
        let query_params := parse_qs env (query parsed) in
        match query_params !! "url" with
        | Some values => head values
        | None =>
            match query_params !! "originalUrl" with
            | Some values => head values
            | None => None
            end
        end
      else None
  | inr _ => None
  end.

(** *** Calls to the outside *)

Definition get (url : string) (timeout : Z) : M HttpOutcome :=
  h ← history;
  log (EvGet url timeout);;
  mret (requests_get env h url timeout).

Definition sleep (seconds : Z) : M unit := log (EvSleep seconds).

Definition browse (url : string) (timeout : Z) : M PwOutcome :=
  h ← history;
  log (EvPlaywright url timeout);;
  mret (playwright_session env h url timeout).

Definition check_playwright_available : M bool :=
  fun st =>
    match _playwright_available st with
    | Some b => (b, st)
    | None =>
        (playwright_installed env,
         {| trace := trace st;
            _playwright_available := Some (playwright_installed env) |})
    end.

(** *** The headless tier *)

Definition playwright_error (e : PyExn) (metadata : Metadata) : Result :=
  let error_msg :=
    "Playwright error: " +:+ exn_type e +:+ ": " +:+ PyStr.take 100 (exn_msg e) in
  (false, error_msg, set_fetch_errors (fetch_errors metadata ++ [error_msg]) metadata).

Definition fetch_with_playwright (url : string) (timeout : Z) : M Result :=
  let metadata := new_metadata url "playwright" in
  match urlparse env url with
  | inr e => mret (playwright_error e metadata)
  | inl parsed_url =>
      let metadata := set_domain (strip_www (netloc parsed_url)) metadata in
      if negb (playwright_installed env) then
        let error_msg := "Playwright not installed - cannot use headless browser" in
        mret (false, error_msg,
              set_fetch_errors (fetch_errors metadata ++ [error_msg]) metadata)
      else
        outcome ← browse url timeout;
        match outcome with
        | PwRaises e => mret (playwright_error e metadata)
        | PwResponse response rest =>
            let metadata :=
              match response with
              | Some status => set_http_status (Some status) metadata
              | None => metadata
              end in
            if match response with Some status => (400 <=? status)%Z | None => false end
            then
              let error_msg :=
                "HTTP " +:+ PyStr.of_Z (default 0%Z response)
                +:+ " - Page returned error status" in
              mret (false, error_msg,
                    set_fetch_errors (fetch_errors metadata ++ [error_msg]) metadata)
            else
              match rest with
              | PwRaisesAfter e => mret (playwright_error e metadata)
              | PwContent html_content =>
                  let soup := html_parser env html_content in
                  let '(success, content, metadata) :=
                    extract_content_from_html soup metadata in
                  if success then mret (true, content, metadata)
                  else
                    let error_msg := "Content extraction failed: " +:+ content in
                    mret (false, error_msg,
                          set_fetch_errors (fetch_errors metadata ++ [error_msg]) metadata)
              end
        end
  end.

(** *** The requests tier *)

(** [if attempt < MAX_RETRIES - 1: time.sleep(RETRY_DELAY); continue],
    followed by [otherwise] on the last attempt. *)
Definition retry_or (attempt : nat) (l : Locals) (otherwise : M Flow) : M Flow :=
  if (attempt <? MAX_RETRIES - 1)%nat
  then sleep RETRY_DELAY;; mret (Continue l)
  else otherwise.

(** The first paywall indicator found in the lower-cased markup. *)
Definition detect_paywall (soup : Bs4.soup) : option string :=
  let page_text_lower := PyStr.lower (soup_str env soup) in
  List.find (fun indicator => PyStr.contains indicator page_text_lower) paywall_indicators.

(** [detected_paywall and len(soup.find_all('p')) < 5] *)
Definition paywall_hit (soup : Bs4.soup) : option string :=
  match detect_paywall soup with
  | Some detected_paywall =>
      if (length (Bs4.find_all ["p"] soup) <? 5)%nat then Some detected_paywall else None
  | None => None
  end.

(** The branch [if success:] *)
Definition on_extracted (url : string) (content : string) (l : Locals) : Flow :=
  let word_count := count_words content in
  let char_count := String.length content in
  if (char_count <? MIN_CONTENT_CHARS_FOR_SUCCESS)%nat then
    let l := want_playwright
               ("Content too short (" +:+ PyStr.of_nat char_count +:+ " chars < "
                +:+ PyStr.of_nat MIN_CONTENT_CHARS_FOR_SUCCESS +:+ ")") l in
    Break (append_error
             ("Requests fetch returned insufficient content: "
              +:+ PyStr.of_nat char_count +:+ " chars") l)
  else if is_js_heavy_domain url
          && ((char_count <? 1000)%nat || (word_count <? 200)%nat) then
    let l := want_playwright
               ("JS-heavy domain with thin content (" +:+ PyStr.of_nat char_count
                +:+ " chars, " +:+ PyStr.of_nat word_count +:+ " words)") l in
    Break (append_error "JS-heavy domain returned thin content" l)
  else
    let '(content, metadata) :=
      if is_bloomberg_url url then handle_bloomberg_content content (metadata l)
      else (content, metadata l) in
    Return (true, content, set_fetch_method "requests" metadata).

(** The branch [else:] of [if success:]; [content] is the extractor's
    error message. *)
Definition on_extraction_failed (attempt : nat) (content : string) (l : Locals) : M Flow :=
  let error_msg := "Content extraction failed: " +:+ content in
  let l := append_error error_msg l in
  if PyStr.contains "JavaScript-rendered" content || PyStr.contains "requires browser" content
  then mret (Break (want_playwright "Detected JavaScript-rendered page" l))
  else
    retry_or attempt l
      (let l := with_metadata (set_fetch_errors (all_errors l)) l in
       mret (Break (want_playwright "All request attempts failed" l))).

(** From [content_length = len(response.content)] to the end of the
    [try] block. *)
Definition process_response (url : string) (attempt : nat) (content : string) (l : Locals)
  : M Flow :=
  let content_length := String.length content in
  if (content_length =? 0)%nat then
    let error_msg := "Empty response - No content received" in
    let l := append_error error_msg l in
    retry_or attempt l (mret (fail_with error_msg l))
  else
    let soup := html_parser env content in
    match paywall_hit soup with
    | Some detected_paywall =>
        let error_msg :=
          "Paywall detected (" +:+ detected_paywall
          +:+ ") - Content behind subscription" in
        mret (fail_with error_msg (append_error error_msg l))
    | None =>
        let '(success, content, metadata) :=
          extract_content_from_html soup (metadata l) in
        let l := with_metadata (fun _ => metadata) l in
        if success then mret (on_extracted url content l)
        else on_extraction_failed attempt content l
    end.

Definition connection_error_message (error_str : string) : string :=
  if PyStr.contains "Name or service not known" error_str
     || PyStr.contains "getaddrinfo failed" error_str
  then "DNS Error - Domain not found"
  else if PyStr.contains "Connection refused" error_str
  then "Connection Refused - Server not accepting connections"
  else "Connection Error: " +:+ PyStr.take 80 error_str.

(** The body of [for attempt in range(MAX_RETRIES)]. *)
Definition http_attempt (url : string) (timeout : Z) (attempt : nat) (l : Locals) : M Flow :=
  outcome ← get url timeout;
  match outcome with
  | Response status_code content =>
      let l := with_metadata (set_http_status (Some status_code)) l in
      if bool_decide (status_code = 403%Z) then
        let error_msg := "HTTP 403 Forbidden - Site is blocking access" in
        let l := append_error error_msg l in
        retry_or attempt l (mret (fail_with error_msg l))
      else if bool_decide (status_code = 404%Z) then
        let error_msg := "HTTP 404 Not Found - Article does not exist" in
        let l := append_error error_msg l in
        mret (fail_with error_msg l)
      else if bool_decide (status_code = 429%Z) then
        let error_msg := "HTTP 429 Rate Limited - Too many requests" in
        let l := append_error error_msg l in
        retry_or attempt l (mret (fail_with error_msg l))
      else if (500 <=? status_code)%Z then
        let error_msg := "HTTP " +:+ PyStr.of_Z status_code +:+ " Server Error" in
        let l := append_error error_msg l in
        retry_or attempt l (mret (fail_with error_msg l))
      else if negb (bool_decide (status_code = 200%Z)) then
        let error_msg := "HTTP " +:+ PyStr.of_Z status_code +:+ " - Unexpected status" in
        let l := append_error error_msg l in
        retry_or attempt l (process_response url attempt content l)
      else process_response url attempt content l
  | RaiseTimeout =>
      let error_msg :=
        "Timeout after " +:+ PyStr.of_Z timeout +:+ "s - Site too slow to respond" in
      let l := append_error error_msg l in
      retry_or attempt l (mret (Continue l))
  | RaiseSSLError msg =>
      let error_msg := "SSL/TLS Error - Certificate problem: " +:+ PyStr.take 80 msg in
      let l := append_error error_msg l in
      retry_or attempt l (mret (Continue l))
  | RaiseConnectionError error_str =>
      let l := append_error (connection_error_message error_str) l in
      retry_or attempt l (mret (Continue l))
  | RaiseOther e =>
      let error_msg :=
        "Unexpected Error (" +:+ exn_type e +:+ "): " +:+ PyStr.take 80 (exn_msg e) in
      let l := append_error error_msg l in
      retry_or attempt l (mret (Continue l))
  end.

(** [for attempt in attempts: ...]: the locals the loop is left with
    (by [break] or by running out of attempts), or the value returned
    from inside it. *)
Fixpoint http_loop (url : string) (timeout : Z) (attempts : list nat) (l : Locals)
  : M (Locals + Result) :=
  match attempts with
  | [] => mret (inl l)
  | attempt :: rest =>
      flow ← http_attempt url timeout attempt l;
      match flow with
      | Continue l => http_loop url timeout rest l
      | Break l => mret (inl l)
      | Return r => mret (inr r)
      end
  end.

(** [all_errors[-1] if all_errors else "Unknown error"] *)
Definition final_error (all_errors : list string) : string :=
  default "Unknown error" (last all_errors).

(** The code after the loop: the playwright fallback and the final
    failure. *)
Definition after_loop (url : string) (use_playwright_fallback : bool) (l : Locals)
  : M Result :=
  let all_errors := all_errors l in
  let metadata := set_fetch_errors all_errors (metadata l) in
  available ←
    (if use_playwright_fallback && should_try_playwright l
     then check_playwright_available else mret false);
  if available : bool then
    pw ← fetch_with_playwright url PLAYWRIGHT_TIMEOUT;
    let '(pw_success, pw_content, pw_metadata) := pw in
    if pw_success : bool then
      let metadata := update metadata pw_metadata in
      let metadata := set_fetch_method "playwright" metadata in
      let metadata := set_fetch_errors (all_errors ++ fetch_errors pw_metadata) metadata in
      let '(pw_content, metadata) :=
        if is_bloomberg_url url then handle_bloomberg_content pw_content metadata
        else (pw_content, metadata) in
      mret (true, pw_content, metadata)
    else
      let all_errors := all_errors ++ fetch_errors pw_metadata in
      mret (false, final_error all_errors, set_fetch_errors all_errors metadata)
  else
    mret (false, final_error all_errors, metadata).

Definition initial_locals (metadata : Metadata) : Locals :=
  {| metadata := metadata; all_errors := []; should_try_playwright := false;
     playwright_reason := "" |}.

(** From [all_errors = []] to the end of the outer [try] block. *)
Definition requests_then_playwright (url : string) (timeout : Z)
    (use_playwright_fallback : bool) (metadata : Metadata) : M Result :=
  exit ← http_loop url timeout (seq 0 MAX_RETRIES) (initial_locals metadata);
  match exit with
  | inl l => after_loop url use_playwright_fallback l
  | inr r => mret r
  end.

(** [fetch_article(url, timeout, use_playwright_fallback)].  [depth]
    bounds the nesting of the calls made for MSN redirect URLs; [None]
    is returned when it does not suffice. *)
Fixpoint fetch_article (depth : nat) (url : string) (timeout : Z)
    (use_playwright_fallback : bool) (st : State) : option (Result * State) :=
  match depth with
  | O => None
  | S depth' =>
      let metadata := new_metadata url "requests" in
      match urlparse env url with
      | inr e =>
          let error_msg := "Fatal Error (" +:+ exn_type e +:+ "): " +:+ exn_msg e in
          Some ((false, error_msg, set_fetch_errors [error_msg] metadata), st)
      | inl parsed_url =>
          let metadata := set_domain (strip_www (netloc parsed_url)) metadata in
          let domain_lower := PyStr.lower (netloc parsed_url) in
          let direct st :=
            Some (requests_then_playwright url timeout use_playwright_fallback metadata st) in
          if PyStr.contains "msn.com" domain_lower then
            match extract_original_url_from_msn url with
            | Some original_url =>
                if PyStr.nonempty original_url then
                  match fetch_article depth' original_url timeout true st with
                  | Some (result, st') =>
                      if ok result then Some (result, st') else direct st'
                  | None => None
                  end
                else direct st
            | None => direct st
            end
          else direct st
      end
  end.

End Fetcher.

(** ** The tiers as a state machine

    The control points of one call of [fetch_article] once it has
    reached its retry loop: about to make attempt number [attempt], out
    of the loop and before the fallback, or returned. *)

Inductive Config :=
| Looping (attempt : nat) (l : Locals)
| Exited (l : Locals)
| Finished (r : Result).

Section Machine.

Variable env : Env.
Variables (url : string) (timeout : Z) (use_playwright_fallback : bool).

Definition tier_step (c : Config) : M Config :=
  match c with
  | Looping attempt l =>
      if (attempt <? MAX_RETRIES)%nat then
        flow ← http_attempt env url timeout attempt l;
        mret (match flow with
              | Continue l' => Looping (S attempt) l'
              | Break l' => Exited l'
              | Return r => Finished r
              end)
      else mret (Exited l)
  | Exited l =>
      r ← after_loop env url use_playwright_fallback l;
      mret (Finished r)
  | Finished r => mret (Finished r)
  end.

Definition is_finished (c : Config) : bool :=
  match c with Finished _ => true | _ => false end.

(** One transition of a call that has not returned yet. *)
Definition steps_to (x y : Config * State) : Prop :=
  is_finished x.1 = false ∧ tier_step x.1 x.2 = y.

(** The call, started with [metadata] in state [st0], comes to control
    point [c] in state [st]. *)
Definition reaches (metadata : Metadata) (st0 : State) (c : Config) (st : State) : Prop :=
  rtc steps_to (Looping 0 (initial_locals metadata), st0) (c, st).

(** What the call returns when it is resumed at a control point. *)
Definition resume (c : Config) : M Result :=
  match c with
  | Looping attempt l =>
      exit ← http_loop env url timeout (seq attempt (MAX_RETRIES - attempt)) l;
      match exit with
      | inl l => after_loop env url use_playwright_fallback l
      | inr r => mret r
      end
  | Exited l => after_loop env url use_playwright_fallback l
  | Finished r => mret r
  end.

(** [metadata["fetch_errors"]] at a control point *)
Definition recorded_errors (c : Config) : list string :=
  match c with
  | Looping _ l | Exited l => fetch_errors (metadata l)
  | Finished r => fetch_errors (meta r)
  end.

(** the local accumulator [all_errors], while the call is running *)
Definition accumulated_errors (c : Config) : option (list string) :=
  match c with
  | Looping _ l | Exited l => Some (all_errors l)
  | Finished _ => None
  end.

End Machine.

(** How [fetch_article (S depth) url timeout upf st] comes to its retry
    loop: with the metadata [md] and in the state [st0] that the attempt
    on an unwrapped MSN original, if any, has left. *)
Inductive enters_requests_tier (env : Env) (depth : nat) (url : string) (timeout : Z)
    (st : State) : Metadata -> State -> Prop :=
| enters_not_msn parsed :
    urlparse env url = inl parsed ->
    PyStr.contains "msn.com" (PyStr.lower (netloc parsed)) = false ->
    enters_requests_tier env depth url timeout st
      (set_domain (strip_www (netloc parsed)) (new_metadata url "requests")) st
| enters_no_original parsed :
    urlparse env url = inl parsed ->
    PyStr.contains "msn.com" (PyStr.lower (netloc parsed)) = true ->
    from_option PyStr.nonempty false (extract_original_url_from_msn env url) = false ->
    enters_requests_tier env depth url timeout st
      (set_domain (strip_www (netloc parsed)) (new_metadata url "requests")) st
| enters_original_failed parsed original_url result st0 :
    urlparse env url = inl parsed ->
    PyStr.contains "msn.com" (PyStr.lower (netloc parsed)) = true ->
    extract_original_url_from_msn env url = Some original_url ->
    PyStr.nonempty original_url = true ->
    fetch_article env depth original_url timeout true st = Some (result, st0) ->
    ok result = false ->
    enters_requests_tier env depth url timeout st
      (set_domain (strip_www (netloc parsed)) (new_metadata url "requests")) st0.

(** ** Notions used to state the properties *)

(** [l] is [l0] with errors appended and the title, author or status
    of the metadata rewritten. *)
Definition extends (l0 l : Locals) : Prop :=
  url (metadata l) = url (metadata l0)
  /\ domain (metadata l) = domain (metadata l0)
  /\ fetch_errors (metadata l) = fetch_errors (metadata l0)
  /\ should_try_playwright l = should_try_playwright l0
  /\ exists es, all_errors l = all_errors l0 ++ es.

(** What one iteration may change: it appends to [all_errors], and
    it touches [metadata["fetch_errors"]] only to copy [all_errors]
    into it. *)
Definition attempt_effect (l : Locals) (flow : Flow) : Prop :=
  match flow with
  | Continue l' => extends l l'
  | Break l' =>
      should_try_playwright l' = true
      /\ (fetch_errors (metadata l') = fetch_errors (metadata l)
          \/ fetch_errors (metadata l') = all_errors l')
      /\ url (metadata l') = url (metadata l)
      /\ domain (metadata l') = domain (metadata l)
      /\ exists es, all_errors l' = all_errors l ++ es
  | Return r =>
      url (meta r) = url (metadata l)
      /\ domain (meta r) = domain (metadata l)
      /\ if ok r
         then fetch_errors (meta r) = fetch_errors (metadata l)
              /\ fetch_method (meta r) = "requests"
         else exists es, fetch_errors (meta r) = all_errors l ++ es
  end.

(** What holds at every control point of a call started with [md]. *)
Definition tier_invariant (md : Metadata) (c : Config) : Prop :=
  match c with
  | Looping _ l => extends (initial_locals md) l
  | Exited l =>
      url (metadata l) = url md /\ domain (metadata l) = domain md
      /\ (fetch_errors (metadata l) = fetch_errors md
          \/ fetch_errors (metadata l) = all_errors l)
  | Finished _ => True
  end.

(** The failures of the requests tier other than a 404 and a detected
    paywall that the retry loop handles without looking at the page: the
    message the loop records for each. *)
Definition http_failure_message (timeout : Z) (outcome : HttpOutcome) : option string :=
  match outcome with
  | Response status_code content =>
      if bool_decide (status_code = 403%Z)
      then Some "HTTP 403 Forbidden - Site is blocking access"
      else if bool_decide (status_code = 404%Z) then None
      else if bool_decide (status_code = 429%Z)
      then Some "HTTP 429 Rate Limited - Too many requests"
      else if (500 <=? status_code)%Z
      then Some ("HTTP " +:+ PyStr.of_Z status_code +:+ " Server Error")
      else if bool_decide (status_code = 200%Z) && negb (PyStr.nonempty content)
      then Some "Empty response - No content received"
      else None
  | RaiseTimeout =>
      Some ("Timeout after " +:+ PyStr.of_Z timeout +:+ "s - Site too slow to respond")
  | RaiseSSLError msg =>
      Some ("SSL/TLS Error - Certificate problem: " +:+ PyStr.take 80 msg)
  | RaiseConnectionError error_str => Some (connection_error_message error_str)
  | RaiseOther e =>
      Some ("Unexpected Error (" +:+ exn_type e +:+ "): " +:+ PyStr.take 80 (exn_msg e))
  end.

(** What [check_playwright_available()] answers in a state. *)
Definition playwright_ready (env : Env) (st : State) : bool :=
  default (playwright_installed env) (_playwright_available st).

(** ** A small world to run the fetcher in

    Simple instances of the oracles, for the examples: URLs are split as
    [urllib.parse.urlsplit] splits absolute URLs, query strings as
    [parse_qs] does, and the pages of the world are given as trees
    together with their markup. *)

Module Sim.

Fixpoint span (stop : ascii -> bool) (s : string) : string * string :=
  match s with
  | EmptyString => (EmptyString, EmptyString)
  | String c s' =>
      if stop c then (EmptyString, s)
      else let '(a, b) := span stop s' in (String c a, b)
  end.

Definition is_char (c d : ascii) : bool := bool_decide (c = d).

Definition is_alpha (c : ascii) : bool :=
  let n := Ascii.N_of_ascii (PyStr.lower_char c) in ((97 <=? n) && (n <=? 122))%N.

Definition is_scheme_char (c : ascii) : bool :=
  let n := Ascii.N_of_ascii c in
  is_alpha c || ((48 <=? n) && (n <=? 57))%N
  || is_char "+" c || is_char "-" c || is_char "." c.

Fixpoint all_chars (p : ascii -> bool) (s : string) : bool :=
  match s with
  | EmptyString => true
  | String c s' => p c && all_chars p s'
  end.

Definition split_scheme (url : string) : string * string :=
  match span (is_char ":") url with
  | (String c0 rest0 as scheme, String _ rest) =>
      if is_alpha c0 && all_chars is_scheme_char scheme
      then (PyStr.lower scheme, rest) else (EmptyString, url)
  | _ => (EmptyString, url)
  end.

Definition is_delim (c : ascii) : bool := is_char "/" c || is_char "?" c || is_char "#" c.

Definition tail (s : string) : string :=
  match s with EmptyString => EmptyString | String _ s' => s' end.

Definition parse_url (url : string) : ParseResult + PyExn :=
  let '(_, rest) := split_scheme url in
  let '(host, rest) :=
    if PyStr.startswith "//" rest then span is_delim (PyStr.drop 2 rest)
    else (EmptyString, rest) in
  if xorb (PyStr.contains "[" host) (PyStr.contains "]" host)
  then inr {| exn_type := "ValueError"; exn_msg := "Invalid IPv6 URL" |}
  else
    let '(rest, _) := span (is_char "#") rest in
    let '(_, q) := span (is_char "?") rest in
    inl {| netloc := host; query := tail q |}.

Definition hex_digit (c : ascii) : option N :=
  let n := Ascii.N_of_ascii (PyStr.lower_char c) in
  if ((48 <=? n) && (n <=? 57))%N then Some (n - 48)%N
  else if ((97 <=? n) && (n <=? 102))%N then Some (n - 87)%N
  else None.

(** [unquote(s.replace('+', ' '))] on single-byte escapes *)
Fixpoint unquote_plus (s : string) : string :=
  match s with
  | EmptyString => EmptyString
  | String c s' =>
      if is_char "+" c then String " " (unquote_plus s')
      else
        match s' with
        | String h (String l s'') =>
            match is_char "%" c, hex_digit h, hex_digit l with
            | true, Some a, Some b =>
                String (Ascii.ascii_of_N (16 * a + b)) (unquote_plus s'')
            | _, _, _ => String c (unquote_plus s')
            end
        | _ => String c (unquote_plus s')
        end
  end.

Fixpoint split_on (sep : ascii) (n : nat) (s : string) : list string :=
  match n with
  | O => [s]
  | S n' =>
      match span (is_char sep) s with
      | (a, String _ b) => a :: split_on sep n' b
      | (a, EmptyString) => [a]
      end
  end.

Definition add_value (m : gmap string (list string)) (name_value : string)
  : gmap string (list string) :=
  match span (is_char "=") name_value with
  | (name, String _ value) =>
      if PyStr.nonempty value then
        let name := unquote_plus name in
        <[name := default [] (m !! name) ++ [unquote_plus value]]> m
      else m
  | (_, EmptyString) => m
  end.

Definition parse_query (qs : string) : gmap string (list string) :=
  foldl add_value ∅ (split_on "&" (String.length qs) qs).

(** The markup of a tree, as [str(soup)] writes simple documents. *)
Definition render_attr (a : string * Bs4.attr_value) : string :=
  " " +:+ a.1 +:+ "=" +:+ String "034" (Bs4.attr_string a.2 +:+ String "034" EmptyString).

Fixpoint render (n : Bs4.node) : string :=
  match n with
  | Bs4.Str Bs4.Comment s => "<!--" +:+ s +:+ "-->"
  | Bs4.Str _ s => s
  | Bs4.Tag nm attrs cs =>
      "<" +:+ nm +:+ PyStr.join "" (map render_attr attrs) +:+ ">"
      +:+ PyStr.join "" (map render cs) +:+ "</" +:+ nm +:+ ">"
  end.

Definition render_soup (d : Bs4.soup) : string := PyStr.join "" (map render d).

(** A world: its pages, what each URL answers to successive requests,
    what the headless browser does with each URL, and whether
    playwright is installed. *)
Record World := {
  pages : list Bs4.soup;
  site : string -> list HttpOutcome;
  browser : string -> PwOutcome;
  installed : bool
}.

Definition parse (w : World) (content : string) : Bs4.soup :=
  default [Bs4.Str Bs4.NavigableString content]
    (List.find (fun d => bool_decide (render_soup d = content)) (pages w)).

Definition requests_before (u : string) (h : list Event) : nat :=
  length (List.filter
            (fun e => match e with EvGet u' _ => bool_decide (u' = u) | _ => false end) h).

Definition env_of (w : World) : Env :=
  {| urlparse := parse_url;
     parse_qs := parse_query;
     html_parser := parse w;
     soup_str := render_soup;
     playwright_installed := installed w;
     requests_get h u _ :=
       default (RaiseConnectionError "Connection refused")
               (site w u !! requests_before u h);
     playwright_session _ u _ := browser w u |}.

Definition fresh : State := {| trace := []; _playwright_available := None |}.

(** Pages for the examples. *)
Definition lorem (n : nat) : string := PyStr.join " " (replicate n "lorem").

Definition text_node (s : string) : Bs4.node := Bs4.Str Bs4.NavigableString s.

Definition article_page (page_title : string) (n : nat) : Bs4.soup :=
  [Bs4.Tag "html" []
     [Bs4.Tag "head" [] [Bs4.Tag "title" [] [text_node page_title]];
      Bs4.Tag "body" [] [Bs4.Tag "p" [] [text_node (lorem n)]]]].

Definition script_page (scripts : nat) (n : nat) : Bs4.soup :=
  [Bs4.Tag "html" []
     [Bs4.Tag "head" []
        (replicate scripts (Bs4.Tag "script" [] [Bs4.Str Bs4.Script "init()"]));
      Bs4.Tag "body" [] [Bs4.Tag "p" [] [text_node (lorem n)]]]].

Definition paywall_page : Bs4.soup :=
  [Bs4.Tag "html" []
     [Bs4.Tag "body" []
        [Bs4.Tag "div" [("class", Bs4.AttrList ["paywall"])]
           [Bs4.Tag "p" [] [text_node "Subscribe to continue reading."];
            Bs4.Tag "p" [] [text_node (lorem 120)]]]]].

(** The world of the examples. *)
Definition long_markup : string := render_soup (article_page "Story" 120).
Definition thin_markup : string := render_soup (article_page "Brief" 60).

Definition timeout_error : PyExn :=
  {| exn_type := "TimeoutError"; exn_msg := "Timeout 45000ms exceeded." |}.

Definition wrapper_url : string :=
  "https://www.msn.com/en-us/news/story?url=https://example.com/story".

Definition demo_site (u : string) : list HttpOutcome :=
  if bool_decide (u = "https://example.com/story") then [Response 200 long_markup]
  else if bool_decide (u = "https://example.com/thin") then [Response 200 thin_markup]
  else if bool_decide (u = "https://example.com/flaky")
  then [Response 403 "Forbidden"; Response 200 long_markup]
  else if bool_decide (u = "https://example.com/blocked")
  then [Response 403 "Forbidden"; Response 403 "Forbidden"]
  else if bool_decide (u = "https://example.com/slow") then [RaiseTimeout; RaiseTimeout]
  else if bool_decide (u = "https://example.com/locked")
  then [Response 200 (render_soup paywall_page)]
  else [Response 404 "Not Found"].

Definition demo_browser (u : string) : PwOutcome :=
  if bool_decide (u = "https://example.com/blocked")
  then PwResponse (Some 200%Z) (PwContent long_markup)
  else PwRaises timeout_error.

Definition demo : World :=
  {| pages := [article_page "Story" 120; article_page "Brief" 60; paywall_page];
     site := demo_site;
     browser := demo_browser;
     installed := true |}.

End Sim.

(** ** Notions used to state the further properties *)

(** The statuses with which a response gets as far as the page checks:
    none of the statuses handled on their own, and 200 unless the
    attempt is the last one. *)
Definition page_status (attempt : nat) (status : Z) : Prop :=
  status <> 403%Z /\ status <> 404%Z /\ status <> 429%Z /\ (status < 500)%Z
  /\ ((attempt < MAX_RETRIES - 1)%nat -> status = 200%Z).

(** Where a sub-step of an iteration stands with respect to the locals
    [l0] the iteration began with, once a response with [status] is in. *)
Definition at_page (status : Z) (l0 l : Locals) : Prop :=
  extends l0 l
  /\ partial_content (metadata l) = partial_content (metadata l0)
  /\ http_status (metadata l) = Some status.

(** What a success returned from inside the retry loop is like. *)
Definition success_detail (env : Env) (u : string) (attempt : nat) (status : Z)
    (l0 : Locals) (r : Result) : Prop :=
  page_status attempt status
  /\ (500 <= String.length (text r))%nat
  /\ (50 <= count_words (text r))%nat
  /\ (is_js_heavy_domain env u = true ->
      (1000 <= String.length (text r))%nat /\ (200 <= count_words (text r))%nat)
  /\ fetch_method (meta r) = "requests"
  /\ fetch_errors (meta r) = fetch_errors (metadata l0).

(** A failure returned from inside the retry loop reports the error it
    recorded last. *)
Definition failure_detail (l0 : Locals) (r : Result) : Prop :=
  exists es, fetch_errors (meta r) = all_errors l0 ++ es ++ [text r].

(** What one iteration does, in detail: [stG] is the state after its
    request, [status] the status of the response if there was one. *)
Definition attempt_detail (env : Env) (u : string) (attempt : nat) (status : Z)
    (l0 : Locals) (stG : State) (flow : Flow) (st' : State) : Prop :=
  match flow with
  | Continue l' =>
      (exists es e, all_errors l' = all_errors l0 ++ es ++ [e])
      /\ partial_content (metadata l') = partial_content (metadata l0)
      /\ st' = (if (attempt <? MAX_RETRIES - 1)%nat
                then logged (EvSleep RETRY_DELAY) stG else stG)
  | Break l' =>
      (exists es e, all_errors l' = all_errors l0 ++ es ++ [e])
      /\ partial_content (metadata l') = partial_content (metadata l0)
      /\ should_try_playwright l' = true
      /\ st' = stG
  | Return r =>
      st' = stG
      /\ http_status (meta r) = Some status
      /\ partial_content (meta r) = partial_content (metadata l0)
      /\ if ok r then success_detail env u attempt status l0 r else failure_detail l0 r
  end.

(** What a result of [fetch_article] for [u] is like: a success has the
    text the tier that produced it requires, a failure reports the last
    error of its list.  [md] is the metadata the call began with. *)
Definition result_detail (env : Env) (u : string) (md : Metadata) (r : Result) : Prop :=
  if ok r
  then
    (200 <= String.length (text r))%nat /\ (50 <= count_words (text r))%nat
    /\ ((fetch_method (meta r) = "requests"
         /\ (500 <= String.length (text r))%nat
         /\ (is_js_heavy_domain env u = true ->
             (1000 <= String.length (text r))%nat /\ (200 <= count_words (text r))%nat)
         /\ partial_content (meta r) = partial_content md
         /\ fetch_errors (meta r) = fetch_errors md
         /\ exists status,
             http_status (meta r) = Some status
             /\ status <> 403%Z /\ status <> 404%Z /\ status <> 429%Z
             /\ (status < 500)%Z)
        \/ (fetch_method (meta r) = "playwright"
            /\ fetch_errors (meta r) <> []
            /\ partial_content (meta r)
               = (if is_bloomberg_url env u && (String.length (text r) <? 1000)%nat
                  then Some true else partial_content md)))
  else partial_content (meta r) = partial_content md
       /\ exists es, fetch_errors (meta r) = es ++ [text r].

(** The calls to the outside that the two tiers can make for [u], in
    order: one or two requests with the delay between them, then at most
    one browser session, and that only with the fallback enabled. *)
Definition tier_trace (u : string) (timeout : Z) (upf : bool) (st0 st' : State) : Prop :=
  exists evs,
    trace st' = trace st0 ++ evs
    /\ (evs = [EvGet u timeout]
        \/ evs = [EvGet u timeout; EvSleep RETRY_DELAY; EvGet u timeout]
        \/ (upf = true
            /\ (evs = [EvGet u timeout; EvPlaywright u PLAYWRIGHT_TIMEOUT]
                \/ evs = [EvGet u timeout; EvSleep RETRY_DELAY; EvGet u timeout;
                          EvPlaywright u PLAYWRIGHT_TIMEOUT]))).

(** The availability flag is left alone, or set from unknown to what the
    import of playwright says. *)
Definition flag_kept (env : Env) (st0 st' : State) : Prop :=
  _playwright_available st' = _playwright_available st0
  \/ (_playwright_available st0 = None
      /\ _playwright_available st' = Some (playwright_installed env)).

(** What a call of [fetch_article] with [timeout] asks of the outside:
    requests with that timeout, the delay between two attempts, and
    browser sessions with the browser's own timeout. *)
Definition tier_event (timeout : Z) (e : Event) : Prop :=
  match e with
  | EvGet _ t => t = timeout
  | EvSleep seconds => seconds = RETRY_DELAY
  | EvPlaywright _ t => t = PLAYWRIGHT_TIMEOUT
  end.

(** A selector whose container, if there is one, has fewer than 100
    words of paragraph text: the loop over [content_selectors] goes past
    it. *)
Definition thin_container (soup : Bs4.soup) (sel : Bs4.selector) : Prop :=
  forall elem, Bs4.select_one sel soup = Some elem ->
               (count_words (paragraphs_text (Bs4.node_find_all ["p"] elem)) < 100)%nat.

(** ** The callers of the fetcher

    What the pages [pages/1_Analyze_Article.py] and
    [pages/6_Batch_Analysis.py] do with a fetched article before it is
    analysed.  An outlet is a dict of which the pages read the key
    ["domain"]; [outlet_domain] is [outlet.get("domain", "")]. *)

Section Callers.

Variable env : Env.
Context {Outlet : Type}.
Variable outlet_domain : Outlet -> string.

(** [outlet.get("domain", "").lower() in domain.lower()
     or domain.lower() in outlet.get("domain", "").lower()] *)
Definition outlet_matches (domain : string) (outlet : Outlet) : bool :=
  PyStr.contains (PyStr.lower (outlet_domain outlet)) (PyStr.lower domain)
  || PyStr.contains (PyStr.lower domain) (PyStr.lower (outlet_domain outlet)).

(** [for outlet in outlets: if ...: outlet_info = outlet; break] *)
Definition match_outlet (outlets : list Outlet) (domain : string) : option Outlet :=
  List.find (outlet_matches domain) outlets.

(** The batch page: [domain = extract_domain(url)]. *)
Definition batch_outlet_info (outlets : list Outlet) (url : string) : option Outlet :=
  match_outlet outlets (extract_domain env url).

(** The analyze page: the outlet chosen by the user, or else
    [domain = extract_domain(current_url) if current_url else ""]. *)
Definition analyze_outlet_info (selected_outlet : option Outlet) (outlets : list Outlet)
    (current_url : string) : option Outlet :=
  match selected_outlet with
  | Some outlet => Some outlet
  | None =>
      match_outlet outlets
        (if PyStr.nonempty current_url then extract_domain env current_url else "")
  end.

End Callers.

(** The batch page, [process_single_article], when the fetch has failed:
    the outlet shown and the text of the column of analysis notes. *)
Definition failed_outlet (fallback_outlet : string) (metadata : Metadata) : string :=
  if PyStr.nonempty fallback_outlet then fallback_outlet else domain metadata.

Definition fetch_failed_notes (content_or_error : string) (metadata : Metadata) : string :=
  let error_parts :=
    match http_status metadata with
    | Some status =>
        if bool_decide (status = 0%Z) then [] else ["HTTP " +:+ PyStr.of_Z status]
    | None => []
    end in
  let error_parts := error_parts ++ [content_or_error] in
  let error_parts :=
    if (1 <? length (fetch_errors metadata))%nat
    then error_parts ++ ["Attempts: " +:+ PyStr.join "; " (fetch_errors metadata)]
    else error_parts in
  "FETCH FAILED: " +:+ PyStr.join " | " error_parts.

(** The analyze page refuses a text when
    [not article_text or word_count < 50]. *)
Definition text_refused (article_text : string) : bool :=
  negb (PyStr.nonempty article_text) || (count_words article_text <? 50)%nat.

(** ** A second world for the examples

    Every site answers with the long article, whatever the URL, and the
    browser renders the same page. *)
Definition rendering_world : Sim.World :=
  {| Sim.pages := [Sim.article_page "Story" 120];
     Sim.site := fun _ => [Response 200 Sim.long_markup; Response 200 Sim.long_markup];
     Sim.browser := fun _ => PwResponse (Some 200%Z) (PwContent Sim.long_markup);
     Sim.installed := true |}.

(** A world whose sites answer 403 with the page behind the paywall. *)
Definition forbidden_world : Sim.World :=
  {| Sim.pages := [Sim.paywall_page];
     Sim.site := fun _ => [Response 403 (Sim.render_soup Sim.paywall_page);
                           Response 403 (Sim.render_soup Sim.paywall_page)];
     Sim.browser := fun _ => PwRaises Sim.timeout_error;
     Sim.installed := true |}.

(** A world whose sites answer 410 with the long article. *)
Definition gone_world : Sim.World :=
  {| Sim.pages := [Sim.article_page "Story" 120];
     Sim.site := fun _ => [Response 410 Sim.long_markup; Response 410 Sim.long_markup];
     Sim.browser := fun _ => PwRaises Sim.timeout_error;
     Sim.installed := true |}.

(** * Properties *)

(** ** Strings *)

Section StringFacts.

Lemma str_app_nil_l (s : string) : "" +:+ s = s.
Proof. reflexivity. Qed.

Lemma str_app_cons (c : ascii) (s t : string) : String c s +:+ t = String c (s +:+ t).
Proof. reflexivity. Qed.

Lemma str_app_length (s t : string) :
  String.length (s +:+ t) = (String.length s + String.length t)%nat.
Proof. induction s as [|c s IH]; [done|]. rewrite str_app_cons. simpl. by rewrite IH. Qed.

Lemma str_app_assoc (s t u : string) : s +:+ t +:+ u = (s +:+ t) +:+ u.
Proof. induction s as [|c s IH]; [done|]. rewrite !str_app_cons. by rewrite IH. Qed.

Lemma startswith_app (p s : string) : PyStr.startswith p (p +:+ s) = true.
Proof.
  induction p as [|c p IH]; [done|].
  rewrite str_app_cons. simpl. by rewrite decide_True.
Qed.

(** a prefix test only looks at the first [length p] characters *)
Lemma startswith_app_l (p x y : string) :
  (String.length p <= String.length x)%nat ->
  PyStr.startswith p (x +:+ y) = PyStr.startswith p x.
Proof.
  revert x. induction p as [|c p IH]; intros [|d x] Hlen; simpl in *; try done; try lia.
  destruct (decide (c = d)); [|done].
  apply IH. lia.
Qed.

Lemma replace_from_skip (old new : string) (k : nat) (s : string) :
  PyStr.replace_from old new k s = PyStr.replace_from old new 0 (PyStr.drop k s).
Proof.
  revert k. induction s as [|c s IH]; intros [|k]; simpl; done.
Qed.

Lemma strip_www_www (b : string) : strip_www ("www." +:+ b) = strip_www b.
Proof.
  unfold strip_www, PyStr.replace.
  change ("www." +:+ b) with (String "w" (String "w" (String "w" (String "." b)))).
  cbn [PyStr.replace_from PyStr.startswith]. rewrite !decide_True by done.
  rewrite replace_from_skip. reflexivity.
Qed.

Lemma strip_www_cons (c : ascii) (s : string) :
  PyStr.startswith "www." (String c s) = false ->
  strip_www (String c s) = String c (strip_www s).
Proof.
  intros H. unfold strip_www, PyStr.replace.
  cbn [PyStr.replace_from]. by rewrite H.
Qed.

Lemma strip_www_nil : strip_www "" = "".
Proof. reflexivity. Qed.

Lemma contains_cons (p : string) (c : ascii) (s : string) :
  PyStr.contains p (String c s) = PyStr.startswith p (String c s) || PyStr.contains p s.
Proof. reflexivity. Qed.

(** [replace] leaves alone what comes before the first occurrence,
    drops the occurrence and goes on behind it. *)
Lemma strip_www_first_occurrence (a b : string) :
  PyStr.contains "www." (a +:+ "www") = false ->
  strip_www (a +:+ "www." +:+ b) = a +:+ strip_www b.
Proof.
  induction a as [|c a IH]; intros H.
  - rewrite !str_app_nil_l. apply strip_www_www.
  - rewrite str_app_cons in H. rewrite contains_cons in H.
    apply orb_false_iff in H as [Hhead Htail].
    change (String c a +:+ "www." +:+ b) with (String c (a +:+ "www." +:+ b)).
    rewrite strip_www_cons.
    + by rewrite IH.
    + etrans; [|exact Hhead].
      change (String c (a +:+ "www." +:+ b))
        with (String c a +:+ "www" +:+ "." +:+ b).
      change (String c (a +:+ "www")) with (String c a +:+ "www").
      rewrite str_app_assoc.
      apply startswith_app_l. rewrite str_app_length. simpl. lia.
Qed.

Lemma strip_www_no_occurrence (s : string) :
  PyStr.contains "www." s = false -> strip_www s = s.
Proof.
  induction s as [|c s IH]; intros H; [done|].
  rewrite contains_cons in H. apply orb_false_iff in H as [Hhead Htail].
  rewrite strip_www_cons by done. by rewrite IH.
Qed.

Lemma startswith_nil (s : string) : PyStr.startswith "" s = true.
Proof. by destruct s. Qed.

Lemma contains_nil (s : string) : PyStr.contains "" s = true.
Proof. destruct s; [done|]. by rewrite contains_cons, startswith_nil. Qed.

Lemma startswith_www_inv (s : string) :
  PyStr.startswith "www." s = true -> exists t, s = "www." +:+ t.
Proof.
  intros H.
  destruct s as [|c1 [|c2 [|c3 [|c4 t]]]]; simpl in H; repeat case_decide; try done.
  subst. by exists t.
Qed.

(** A prefix without the letter w is left alone by [strip_www]. *)
Lemma strip_www_keeps_prefix (p s : string) :
  PyStr.free_of "w" p = true ->
  PyStr.startswith p s = true ->
  PyStr.startswith p (strip_www s) = true.
Proof.
  revert s. induction p as [|d p IH]; intros s Hw Hp; [apply startswith_nil|].
  destruct s as [|c s]; [done|].
  simpl in Hw, Hp. apply andb_true_iff in Hw as [Hd Hw].
  case_decide; [subst c|done].
  rewrite strip_www_cons.
  - simpl. rewrite decide_True by done. by apply IH.
  - simpl. apply negb_true_iff, bool_decide_eq_false in Hd.
    by rewrite decide_False by congruence.
Qed.

(** An occurrence of [p] survives [strip_www] when [p] has no w and
    does not begin with a dot: it cannot overlap a dropped "www.". *)
Lemma strip_www_keeps (p : string) :
  PyStr.free_of "w" p = true ->
  PyStr.startswith "." p = false ->
  forall s, PyStr.contains p s = true -> PyStr.contains p (strip_www s) = true.
Proof.
  intros Hw Hdot s.
  remember (String.length s) as n eqn:Hn.
  revert s Hn. induction (lt_wf n) as [n _ IH]. intros s -> H.
  destruct p as [|d p]; [apply contains_nil|].
  assert (Hd : d <> "w"%char /\ d <> "."%char).
  { simpl in Hw, Hdot. apply andb_true_iff in Hw as [Hd _].
    apply negb_true_iff, bool_decide_eq_false in Hd.
    split; [congruence|]. intros ->. by rewrite decide_True in Hdot. }
  destruct Hd as [Hd1 Hd2].
  destruct (PyStr.startswith "www." s) eqn:Hwww.
  - apply startswith_www_inv in Hwww as [t ->].
    rewrite strip_www_www.
    apply (IH (String.length t)); [rewrite str_app_length; simpl; lia|done|].
    change ("www." +:+ t) with (String "w" (String "w" (String "w" (String "." t)))) in H.
    rewrite !contains_cons in H. simpl in H.
    by rewrite !decide_False in H by congruence.
  - destruct s as [|c s]; [done|].
    rewrite strip_www_cons by done.
    rewrite contains_cons in H. rewrite contains_cons.
    apply orb_true_iff in H as [H|H]; apply orb_true_iff.
    + left. rewrite <- (strip_www_cons c s Hwww). by apply strip_www_keeps_prefix.
    + right. apply (IH (String.length s)); [simpl; lia|done|done].
Qed.

End StringFacts.

Section LowerFacts.

Lemma startswith_lower (p s : string) :
  PyStr.startswith p s = true ->
  PyStr.startswith (PyStr.lower p) (PyStr.lower s) = true.
Proof.
  revert s. induction p as [|c p IH]; intros [|d s] H; simpl in *; try done.
  case_decide; [subst d|done]. rewrite decide_True by done. by apply IH.
Qed.

(** A substring is still there, lower-cased, in the lower-cased text. *)
Lemma contains_lower (p s : string) :
  PyStr.contains p s = true ->
  PyStr.contains (PyStr.lower p) (PyStr.lower s) = true.
Proof.
  induction s as [|d s IH]; intros H.
  - simpl in *. by apply (startswith_lower p "").
  - rewrite contains_cons in H. change (PyStr.lower (String d s))
      with (String (PyStr.lower_char d) (PyStr.lower s)).
    rewrite contains_cons. apply orb_true_iff in H as [H|H]; apply orb_true_iff.
    + left. by apply (startswith_lower p (String d s)).
    + right. by apply IH.
Qed.

Lemma paywall_indicators_lower (m : string) :
  m ∈ paywall_indicators -> PyStr.lower m = m.
Proof.
  unfold paywall_indicators. rewrite !elem_of_cons, elem_of_nil.
  intros [->|[->|[->|[->|[]]]]]; reflexivity.
Qed.

End LowerFacts.

(** ** The tree *)

Section TreeFacts.

Import Bs4.

Lemma node_nested_ind (P : node -> Prop) :
  (forall k s, P (Str k s)) ->
  (forall nm attrs cs, Forall P cs -> P (Tag nm attrs cs)) ->
  forall n, P n.
Proof.
  intros Hstr Htag. fix IH 1. intros [k s|nm attrs cs]; [apply Hstr|].
  apply Htag. induction cs as [|c cs IHcs]; constructor; [apply IH|exact IHcs].
Qed.

Lemma decompose_tag (names : list string) nm attrs cs :
  decompose names (Tag nm attrs cs) = Tag nm attrs (decompose_all names cs).
Proof.
  simpl. f_equal. induction cs as [|c cs IH]; [done|].
  simpl. by rewrite IH.
Qed.

Lemma soup_descendants_cons (c : node) (d : soup) :
  soup_descendants (c :: d) = c :: descendants c ++ soup_descendants d.
Proof. reflexivity. Qed.

Lemma descendants_tag nm attrs cs :
  descendants (Tag nm attrs cs) = soup_descendants cs.
Proof. reflexivity. Qed.

(** What [decompose] leaves has no element of the removed names below
    it. *)
Lemma decompose_clean (names : list string) (n : node) :
  Forall (fun x => is_named names x = false) (descendants (decompose names n)).
Proof.
  induction n as [k s|nm attrs cs IH] using node_nested_ind; [constructor|].
  rewrite decompose_tag, descendants_tag.
  induction cs as [|c cs IHcs]; [constructor|].
  apply Forall_cons_1 in IH as [Hc Hcs]. simpl.
  destruct (is_named names c) eqn:Hnamed; [by apply IHcs|].
  rewrite soup_descendants_cons. constructor.
  - destruct c as [k s|nm' attrs' cs']; [done|].
    rewrite decompose_tag. exact Hnamed.
  - apply Forall_app. split; [exact Hc|by apply IHcs].
Qed.

Lemma decompose_all_clean (names : list string) (d : soup) :
  Forall (fun x => is_named names x = false) (soup_descendants (decompose_all names d)).
Proof.
  induction d as [|c d IH]; [constructor|]. simpl.
  destruct (is_named names c) eqn:Hnamed; [exact IH|].
  rewrite soup_descendants_cons. constructor.
  - destruct c as [k s|nm attrs cs]; [done|].
    rewrite decompose_tag. exact Hnamed.
  - apply Forall_app. split; [apply decompose_clean|exact IH].
Qed.

(** After the clean-up no removed element can be found any more. *)
Lemma find_all_decompose_all (names : list string) (nm : string) (d : soup) :
  nm ∈ names -> find_all [nm] (decompose_all names d) = [].
Proof.
  intros Hin. unfold find_all.
  pose proof (decompose_all_clean names d) as Hclean.
  induction Hclean as [|x l Hx _ IH]; [done|].
  simpl. rewrite IH.
  destruct x as [k s|nm' attrs cs]; [done|].
  simpl in *. apply bool_decide_eq_false in Hx.
  rewrite bool_decide_eq_false_2; [done|].
  rewrite list_elem_of_singleton. by intros ->.
Qed.

End TreeFacts.

(** ** The extractor *)

Ltac unfold_monad :=
  repeat (progress unfold get, sleep, browse, log, history, mbind, mret, M_bind, M_ret in * ).

Lemma get_run (env : Env) (u : string) (timeout : Z) (st : State) :
  get env u timeout st = (requests_get env (trace st) u timeout, logged (EvGet u timeout) st).
Proof. reflexivity. Qed.

Lemma sleep_run (seconds : Z) (st : State) :
  sleep seconds st = (tt, logged (EvSleep seconds) st).
Proof. reflexivity. Qed.

Lemma browse_run (env : Env) (u : string) (timeout : Z) (st : State) :
  browse env u timeout st
  = (playwright_session env (trace st) u timeout, logged (EvPlaywright u timeout) st).
Proof. reflexivity. Qed.

Lemma bind_run {A B : Type} (m : M A) (f : A -> M B) (st : State) :
  (m ≫= f) st = let '(x, st') := m st in f x st'.
Proof. reflexivity. Qed.

Lemma ret_run {A : Type} (x : A) (st : State) : (mret x : M A) st = (x, st).
Proof. reflexivity. Qed.

Section ExtractorFacts.

(** The extractor only writes the title and the author. *)
Lemma extract_keeps (soup : Bs4.soup) (m : Metadata) :
  let m' := (extract_content_from_html soup m).2 in
  url m' = url m /\ domain m' = domain m /\ fetch_errors m' = fetch_errors m
  /\ http_status m' = http_status m /\ fetch_method m' = fetch_method m
  /\ partial_content m' = partial_content m
  /\ partial_content_reason m' = partial_content_reason m.
Proof.
  unfold extract_content_from_html, find_title_and_author.
  destruct (find_content soup) as [success content]. cbn [snd].
  destruct (Bs4.find "title" soup), (first_selected headline_selectors soup),
    (first_selected author_selectors soup); repeat split.
Qed.

Lemma extract_floors (soup : Bs4.soup) (m m' : Metadata) (content : string) :
  extract_content_from_html soup m = (true, content, m') ->
  (200 <= String.length content)%nat /\ (50 <= count_words content)%nat.
Proof.
  unfold extract_content_from_html, find_content.
  generalize (find_title_and_author soup m) as m0.
  generalize (Bs4.decompose_all unwanted_elements soup) as soup'.
  intros soup' m0.
  generalize (content_loop soup' content_selectors "") as c0.
  generalize (paragraphs_text (Bs4.find_all ["p"] soup')) as c1.
  generalize (js_rendered_message (length (Bs4.find_all ["script"] soup))
                (length (Bs4.find_all ["p"] soup))) as msg.
  intros msg c1 c0.
  repeat match goal with
         | |- context [if ?b then _ else _] => destruct b eqn:?
         end; intros [= <- <-]; split; by apply Nat.ltb_ge.
Qed.

(** With many scripts, few paragraphs and little text the extractor
    stops at its first check. *)
Lemma find_content_js_rendered (soup : Bs4.soup) :
  (20 < length (Bs4.find_all ["script"] soup))%nat ->
  (length (Bs4.find_all ["p"] soup) < 3)%nat ->
  (String.length (Bs4.soup_get_text_stripped soup) < 500)%nat ->
  find_content soup =
    (false, js_rendered_message (length (Bs4.find_all ["script"] soup))
              (length (Bs4.find_all ["p"] soup))).
Proof.
  intros Hs Hp Ht. unfold find_content.
  apply Nat.ltb_lt in Hs, Hp, Ht. by rewrite Hs, Hp, Ht.
Qed.

Lemma js_rendered_message_prefix (scripts ps : nat) :
  PyStr.startswith "JavaScript-rendered page" (js_rendered_message scripts ps) = true.
Proof. reflexivity. Qed.

Lemma js_rendered_message_recognised (scripts ps : nat) :
  PyStr.contains "JavaScript-rendered" (js_rendered_message scripts ps) = true.
Proof. reflexivity. Qed.

End ExtractorFacts.

(** ** The state machine and the functions *)

Section MachineFacts.

Variable env : Env.
Variables (u : string) (timeout : Z) (upf : bool).

Lemma resume_looping (attempt : nat) (l : Locals) (st : State) :
  (attempt < MAX_RETRIES)%nat ->
  resume env u timeout upf (Looping attempt l) st =
    let '(flow, st') := http_attempt env u timeout attempt l st in
    match flow with
    | Continue l' => resume env u timeout upf (Looping (S attempt) l') st'
    | Break l' => after_loop env u upf l' st'
    | Return r => (r, st')
    end.
Proof.
  intros Hlt. unfold resume.
  replace (MAX_RETRIES - attempt)%nat with (S (MAX_RETRIES - S attempt)) by lia.
  cbn [seq http_loop]. unfold mbind, mret, M_bind, M_ret.
  destruct (http_attempt env u timeout attempt l st) as [[l'|l'|r] st']; done.
Qed.

Lemma resume_exhausted (attempt : nat) (l : Locals) (st : State) :
  (MAX_RETRIES <= attempt)%nat ->
  resume env u timeout upf (Looping attempt l) st = after_loop env u upf l st.
Proof.
  intros Hge. unfold resume.
  replace (MAX_RETRIES - attempt)%nat with 0%nat by lia. reflexivity.
Qed.

(** A transition does not change what the call will return. *)
Lemma resume_step (c c' : Config) (st st' : State) :
  tier_step env u timeout upf c st = (c', st') ->
  resume env u timeout upf c st = resume env u timeout upf c' st'.
Proof.
  destruct c as [attempt l|l|r].
  - unfold tier_step.
    destruct (attempt <? MAX_RETRIES)%nat eqn:Hlt.
    + apply Nat.ltb_lt in Hlt. rewrite resume_looping by done.
      unfold mbind, mret, M_bind, M_ret.
      destruct (http_attempt env u timeout attempt l st) as [[l'|l'|r] st''];
        intros [= <- <-]; done.
    + apply Nat.ltb_ge in Hlt. intros [= <- <-]. by apply resume_exhausted.
  - unfold tier_step, resume, mbind, mret, M_bind, M_ret.
    destruct (after_loop env u upf l st) as [r st'']. by intros [= <- <-].
  - by intros [= <- <-].
Qed.

Lemma reaches_resume (md : Metadata) (st0 : State) (c : Config) (st : State) :
  reaches env u timeout upf md st0 c st ->
  requests_then_playwright env u timeout upf md st0 = resume env u timeout upf c st.
Proof.
  unfold reaches. intros H.
  change (requests_then_playwright env u timeout upf md st0)
    with (resume env u timeout upf (Looping 0 (initial_locals md), st0).1
            (Looping 0 (initial_locals md), st0).2).
  change (resume env u timeout upf c st) with (resume env u timeout upf (c, st).1 (c, st).2).
  induction H as [x|x y z [_ Hxy] _ IH]; [done|].
  rewrite <- IH. destruct x as [cx sx], y as [cy sy]. by apply resume_step.
Qed.

Lemma reaches_start (md : Metadata) (st0 : State) :
  reaches env u timeout upf md st0 (Looping 0 (initial_locals md)) st0.
Proof. apply rtc_refl. Qed.

Lemma reaches_next (md : Metadata) (st0 : State) (c c' : Config) (st st' : State) :
  reaches env u timeout upf md st0 c st ->
  is_finished c = false ->
  tier_step env u timeout upf c st = (c', st') ->
  reaches env u timeout upf md st0 c' st'.
Proof. intros H Hf Hs. eapply rtc_r; [exact H|]. by split. Qed.

End MachineFacts.

(** ** One attempt *)

Section AttemptFacts.

Variable env : Env.
Variables (u : string) (timeout : Z).

Lemma extends_refl (l : Locals) : extends l l.
Proof. repeat split. exists []. by rewrite app_nil_r. Qed.

Lemma extends_append (l0 l : Locals) (e : string) :
  extends l0 l -> extends l0 (append_error e l).
Proof.
  intros (Hu & Hd & Hf & Hs & es & Hes). repeat split; try done.
  exists (es ++ [e]). simpl. by rewrite Hes, <- app_assoc.
Qed.

Lemma extends_status (l0 l : Locals) (s : option Z) :
  extends l0 l -> extends l0 (with_metadata (set_http_status s) l).
Proof. intros (Hu & Hd & Hf & Hs & Hes). by repeat split. Qed.

Lemma extends_extracted (l0 l : Locals) (soup : Bs4.soup) :
  extends l0 l ->
  extends l0 (with_metadata
                (fun _ => (extract_content_from_html soup (metadata l)).2) l).
Proof.
  intros (Hu & Hd & Hf & Hs & Hes).
  destruct (extract_keeps soup (metadata l)) as (Ku & Kd & Kf & _).
  unfold extends. simpl. rewrite Ku, Kd, Kf. by repeat split.
Qed.

Lemma fail_with_effect (l0 l : Locals) (msg : string) :
  extends l0 l -> attempt_effect l0 (fail_with msg l).
Proof. intros (Hu & Hd & Hf & Hs & Hes). by repeat split. Qed.

Lemma retry_or_effect (attempt : nat) (l0 l : Locals) (otherwise : M Flow) st flow st' :
  extends l0 l ->
  (forall st flow st', otherwise st = (flow, st') -> attempt_effect l0 flow) ->
  retry_or attempt l otherwise st = (flow, st') ->
  attempt_effect l0 flow.
Proof.
  intros Hc Ho. unfold retry_or.
  destruct (attempt <? MAX_RETRIES - 1)%nat.
  - unfold_monad. by intros [= <- <-].
  - apply Ho.
Qed.

Lemma on_extracted_effect (l0 l : Locals) (content : string) :
  extends l0 l -> attempt_effect l0 (on_extracted env u content l).
Proof.
  intros Hl. unfold on_extracted.
  repeat match goal with
         | |- context [if ?b then _ else _] => destruct b eqn:?
         end.
  - apply (extends_append _ _ ("Requests fetch returned insufficient content: "
             +:+ PyStr.of_nat (String.length content) +:+ " chars")) in Hl.
    destruct Hl as (Hu & Hd & Hf & Hs & Hes). repeat split; try done. by left.
  - apply (extends_append _ _ "JS-heavy domain returned thin content") in Hl.
    destruct Hl as (Hu & Hd & Hf & Hs & Hes). repeat split; try done. by left.
  - destruct Hl as (Hu & Hd & Hf & Hs & Hes). unfold handle_bloomberg_content.
    destruct (String.length content <? 1000)%nat; by repeat split.
  - destruct Hl as (Hu & Hd & Hf & Hs & Hes). by repeat split.
Qed.

Lemma on_extraction_failed_effect (attempt : nat) (l0 l : Locals) (content : string)
    st flow st' :
  extends l0 l ->
  on_extraction_failed attempt content l st = (flow, st') ->
  attempt_effect l0 flow.
Proof.
  intros Hl. unfold on_extraction_failed.
  apply (extends_append _ _ ("Content extraction failed: " +:+ content)) in Hl.
  destruct (_ || _).
  - unfold_monad. intros [= <- <-].
    destruct Hl as (Hu & Hd & Hf & Hs & Hes). repeat split; try done. by left.
  - apply retry_or_effect; [done|].
    intros st2 flow2 st2'. unfold_monad. intros [= <- <-].
    destruct Hl as (Hu & Hd & Hf & Hs & Hes). repeat split; try done. by right.
Qed.

Lemma process_response_effect (attempt : nat) (l0 l : Locals) (content : string)
    st flow st' :
  extends l0 l ->
  process_response env u attempt content l st = (flow, st') ->
  attempt_effect l0 flow.
Proof.
  intros Hl. unfold process_response.
  destruct (String.length content =? 0)%nat.
  - apply retry_or_effect; [by apply extends_append|].
    intros st2 flow2 st2'. unfold_monad. intros [= <- <-].
    by apply fail_with_effect, extends_append.
  - destruct (paywall_hit env (html_parser env content)) as [marker|].
    + unfold_monad. intros [= <- <-]. by apply fail_with_effect, extends_append.
    + pose proof (extends_extracted l0 l (html_parser env content) Hl) as Hx.
      destruct (extract_content_from_html (html_parser env content) (metadata l))
        as [[success text] m'].
      destruct success.
      * unfold_monad. intros [= <- <-]. by apply on_extracted_effect.
      * by apply on_extraction_failed_effect.
Qed.

(** The effect of one iteration of the retry loop. *)
Lemma http_attempt_effect (attempt : nat) (l : Locals) st flow st' :
  http_attempt env u timeout attempt l st = (flow, st') ->
  attempt_effect l flow.
Proof.
  unfold http_attempt. rewrite bind_run, get_run.
  generalize (logged (EvGet u timeout) st) as st1. intros st1.
  destruct (requests_get env (trace st) u timeout) as [status content| |msg|msg|e].
  - pose proof (extends_status l l (Some status) (extends_refl l)) as Hl.
    repeat match goal with
           | |- context [if ?b then _ else _] => destruct b eqn:?
           end.
    + apply retry_or_effect; [by apply extends_append|].
      intros st2 flow2 st2'. intros [= <- <-]. by apply fail_with_effect, extends_append.
    + intros [= <- <-]. by apply fail_with_effect, extends_append.
    + apply retry_or_effect; [by apply extends_append|].
      intros st2 flow2 st2'. intros [= <- <-]. by apply fail_with_effect, extends_append.
    + apply retry_or_effect; [by apply extends_append|].
      intros st2 flow2 st2'. intros [= <- <-]. by apply fail_with_effect, extends_append.
    + apply retry_or_effect; [by apply extends_append|].
      intros st2 flow2 st2'. apply process_response_effect. by apply extends_append.
    + by apply process_response_effect.
  - apply retry_or_effect; [by apply extends_append, extends_refl|].
    intros st2 flow2 st2'. intros [= <- <-]. by apply extends_append, extends_refl.
  - apply retry_or_effect; [by apply extends_append, extends_refl|].
    intros st2 flow2 st2'. intros [= <- <-]. by apply extends_append, extends_refl.
  - apply retry_or_effect; [by apply extends_append, extends_refl|].
    intros st2 flow2 st2'. intros [= <- <-]. by apply extends_append, extends_refl.
  - apply retry_or_effect; [by apply extends_append, extends_refl|].
    intros st2 flow2 st2'. intros [= <- <-]. by apply extends_append, extends_refl.
Qed.

End AttemptFacts.

(** ** The fallback *)

Section FallbackFacts.

Variable env : Env.
Variables (u : string) (timeout : Z) (upf : bool).

Lemma fetch_with_playwright_identity (t : Z) st pw st' :
  fetch_with_playwright env u t st = (pw, st') ->
  url (meta pw) = u
  /\ forall parsed, urlparse env u = inl parsed ->
                    domain (meta pw) = strip_www (netloc parsed).
Proof.
  unfold fetch_with_playwright.
  destruct (urlparse env u) as [parsed|e] eqn:Hparse.
  - destruct (negb (playwright_installed env)).
    { rewrite ret_run. intros [= <- <-]. split; [done|]. by intros ? [= <-]. }
    rewrite bind_run, browse_run.
    destruct (playwright_session env (trace st) u t) as [e|response rest].
    { rewrite ret_run. intros [= <- <-]. split; [done|]. by intros ? [= <-]. }
    cbv zeta.
    set (m1 := match response with
               | Some status => set_http_status (Some status) _
               | None => _
               end).
    assert (Hm1 : url m1 = u /\ domain m1 = strip_www (netloc parsed)).
    { subst m1. by destruct response. }
    clearbody m1. destruct Hm1 as [Hu Hd].
    destruct (match response with Some _ => _ | None => _ end).
    { rewrite ret_run. intros [= <- <-]. split; [done|]. by intros ? [= <-]. }
    destruct rest as [html|e].
    + destruct (extract_keeps (html_parser env html) m1) as (Ku & Kd & _).
      destruct (extract_content_from_html (html_parser env html) m1)
        as [[success text] m2].
      simpl in Ku, Kd.
      destruct success; rewrite ret_run; intros [= <- <-];
        (split; [by rewrite <- Hu|]); intros ? [= <-]; unfold meta; simpl; congruence.
    + rewrite ret_run. intros [= <- <-]. split; [done|]. by intros ? [= <-].
  - rewrite ret_run. intros [= <- <-]. split; [done|]. by intros ? [=].
Qed.

(** The code after the loop keeps everything accumulated. *)
Lemma after_loop_effect (l : Locals) st r st' :
  after_loop env u upf l st = (r, st') ->
  (exists es, fetch_errors (meta r) = all_errors l ++ es)
  /\ (url (metadata l) = u -> url (meta r) = u)
  /\ forall parsed, urlparse env u = inl parsed ->
       domain (metadata l) = strip_www (netloc parsed) ->
       domain (meta r) = strip_www (netloc parsed).
Proof.
  unfold after_loop. rewrite bind_run.
  destruct ((if upf && should_try_playwright l
             then check_playwright_available env else mret false) st) as [available st1].
  destruct available.
  - rewrite bind_run.
    destruct (fetch_with_playwright env u PLAYWRIGHT_TIMEOUT st1) as [[[pws pwc] pwm] st2] eqn:Hpw.
    apply fetch_with_playwright_identity in Hpw as [Hu Hd]. unfold meta in Hu, Hd; simpl in Hu, Hd.
    destruct pws.
    + unfold handle_bloomberg_content.
      destruct (is_bloomberg_url env u); [destruct (_ <? _)%nat|];
        rewrite ret_run; intros [= <- <-]; (split; [by eexists|]); split; try done;
        intros parsed Hp _; by apply Hd.
    + rewrite ret_run. intros [= <- <-]. split; [by eexists|]. by split.
  - rewrite ret_run. intros [= <- <-]. split; [|by split].
    exists []. by rewrite app_nil_r.
Qed.

End FallbackFacts.

(** ** Invariants of the state machine *)

Section InvariantFacts.

Variable env : Env.
Variables (u : string) (timeout : Z) (upf : bool).

Lemma tier_step_invariant (md : Metadata) (c c' : Config) (st st' : State) :
  tier_invariant md c ->
  tier_step env u timeout upf c st = (c', st') ->
  tier_invariant md c'.
Proof.
  destruct c as [attempt l|l|r]; unfold tier_step.
  - intros Hinv. destruct (attempt <? MAX_RETRIES)%nat.
    + rewrite bind_run.
      destruct (http_attempt env u timeout attempt l st) as [flow st1] eqn:Hattempt.
      apply http_attempt_effect in Hattempt.
      rewrite ret_run. intros [= <- <-].
      destruct Hinv as (Iu & Id & If & Is & es & Ies).
      destruct flow as [l'|l'|r]; simpl in *.
      * destruct Hattempt as (Hu & Hd & Hf & Hs & es' & Hes).
        repeat split; simpl; try congruence.
        exists (es ++ es'). by rewrite Hes, Ies.
      * destruct Hattempt as (_ & Hf & Hu & Hd & _).
        repeat split; simpl; try congruence.
      * done.
    + rewrite ret_run. intros [= <- <-].
      destruct Hinv as (Iu & Id & If & Is & es & Ies). simpl in *.
      repeat split; try done. by left.
  - intros _. rewrite bind_run. destruct (after_loop env u upf l st).
    rewrite ret_run. by intros [= <- <-].
  - intros _. rewrite ret_run. by intros [= <- <-].
Qed.

Lemma reaches_invariant (md : Metadata) (st0 : State) (c : Config) (st : State) :
  reaches env u timeout upf md st0 c st -> tier_invariant md c.
Proof.
  unfold reaches. intros H.
  change c with (c, st).1.
  revert H. generalize (c, st). clear c st.
  apply rtc_ind_r; [apply extends_refl|].
  intros [cy sy] [cz sz] _ [_ Hstep] IH. by eapply tier_step_invariant.
Qed.

End InvariantFacts.

(** ** The whole call *)

Section CallFacts.

Variable env : Env.

Lemma fetch_article_enters (depth : nat) (u : string) (timeout : Z) (upf : bool)
    (st : State) (md : Metadata) (st0 : State) :
  enters_requests_tier env depth u timeout st md st0 ->
  fetch_article env (S depth) u timeout upf st
  = Some (requests_then_playwright env u timeout upf md st0).
Proof.
  intros [parsed Hp Hmsn|parsed Hp Hmsn Horig
         |parsed original result st1 Hp Hmsn Horig Hne Hinner Hfail];
    cbn [fetch_article]; rewrite Hp, Hmsn; try done.
  - destruct (extract_original_url_from_msn env u) as [original|]; [|done].
    simpl in Horig. by rewrite Horig.
  - by rewrite Horig, Hne, Hinner, Hfail.
Qed.

(** The attempt on the original of an MSN redirect URL, when it
    succeeds, is the result of the call. *)
Lemma fetch_article_unwrapped (depth : nat) (wrapper original : string) (timeout : Z)
    (upf : bool) (st : State) (parsed : ParseResult) (r : Result) (st' : State) :
  urlparse env wrapper = inl parsed ->
  PyStr.contains "msn.com" (PyStr.lower (netloc parsed)) = true ->
  extract_original_url_from_msn env wrapper = Some original ->
  PyStr.nonempty original = true ->
  fetch_article env depth original timeout true st = Some (r, st') ->
  ok r = true ->
  fetch_article env (S depth) wrapper timeout upf st = Some (r, st').
Proof.
  intros Hp Hmsn Horig Hne Hinner Hok.
  cbn [fetch_article]. by rewrite Hp, Hmsn, Horig, Hne, Hinner, Hok.
Qed.

(** A larger bound on the nesting does not change a result. *)
Lemma fetch_article_depth_mono (depth : nat) :
  forall u timeout upf st x,
    fetch_article env depth u timeout upf st = Some x ->
    fetch_article env (S depth) u timeout upf st = Some x.
Proof.
  induction depth as [|depth IH]; intros u timeout upf st x; [done|].
  intros H. remember (S depth) as d eqn:Hd in |- *.
  cbn [fetch_article] in H |- *. subst d.
  destruct (urlparse env u) as [parsed|e]; [|done].
  destruct (PyStr.contains "msn.com" (PyStr.lower (netloc parsed))); [|done].
  destruct (extract_original_url_from_msn env u) as [original|]; [|done].
  destruct (PyStr.nonempty original); [|done].
  destruct (fetch_article env depth original timeout true st) as [[r st1]|] eqn:Hinner;
    [|done].
  by rewrite (IH _ _ _ _ _ Hinner).
Qed.

Lemma tier_identity (u : string) (timeout : Z) (upf : bool) (md : Metadata)
    (parsed : ParseResult) st0 r st' :
  urlparse env u = inl parsed ->
  url md = u -> domain md = strip_www (netloc parsed) ->
  requests_then_playwright env u timeout upf md st0 = (r, st') ->
  url (meta r) = u /\ domain (meta r) = strip_www (netloc parsed).
Proof.
  intros Hp Hu Hd. unfold requests_then_playwright. rewrite bind_run.
  change (seq 0 MAX_RETRIES) with [0; 1]%nat. cbn [http_loop].
  rewrite !bind_run.
  destruct (http_attempt env u timeout 0 (initial_locals md) st0) as [flow1 st1] eqn:H1.
  apply http_attempt_effect in H1.
  destruct flow1 as [l1|l1|r1]; cbn [attempt_effect] in H1; unfold extends in H1;
    cbn [initial_locals metadata] in H1.
  - rewrite bind_run.
    destruct (http_attempt env u timeout 1 l1 st1) as [flow2 st2] eqn:H2.
    apply http_attempt_effect in H2.
    destruct H1 as (Hu1 & Hd1 & _).
    destruct flow2 as [l2|l2|r2]; cbn [attempt_effect] in H2; rewrite ?ret_run.
    + destruct H2 as (Hu2 & Hd2 & _).
      intros Hafter. apply after_loop_effect in Hafter as (_ & Au & Ad).
      split; [apply Au; congruence|]. apply (Ad parsed Hp). congruence.
    + destruct H2 as (_ & _ & Hu2 & Hd2 & _).
      intros Hafter. apply after_loop_effect in Hafter as (_ & Au & Ad).
      split; [apply Au; congruence|]. apply (Ad parsed Hp). congruence.
    + destruct H2 as (Hu2 & Hd2 & _). intros [= <- <-]. split; congruence.
  - rewrite ret_run. destruct H1 as (_ & _ & Hu1 & Hd1 & _).
    intros Hafter. apply after_loop_effect in Hafter as (_ & Au & Ad).
    split; [apply Au; congruence|]. apply (Ad parsed Hp). congruence.
  - rewrite ret_run. destruct H1 as (Hu1 & Hd1 & _). intros [= <- <-]. split; congruence.
Qed.

(** The domain in the metadata of a result is the domain of the URL in
    that metadata. *)
Lemma fetch_article_domain (depth : nat) :
  forall u timeout upf st r st',
    fetch_article env depth u timeout upf st = Some (r, st') ->
    domain (meta r) = extract_domain env (url (meta r)).
Proof.
  induction depth as [|depth IH]; intros u timeout upf st r st'; [done|].
  cbn [fetch_article].
  destruct (urlparse env u) as [parsed|e] eqn:Hp.
  - assert (Hdirect : forall st0,
               Some (requests_then_playwright env u timeout upf
                       (set_domain (strip_www (netloc parsed)) (new_metadata u "requests"))
                       st0) = Some (r, st') ->
               domain (meta r) = extract_domain env (url (meta r))).
    { intros st0 [= H]. apply (tier_identity _ _ _ _ parsed) in H as [Hu Hd]; try done.
      unfold extract_domain. by rewrite Hu, Hp. }
    destruct (PyStr.contains "msn.com" (PyStr.lower (netloc parsed))); [|apply Hdirect].
    destruct (extract_original_url_from_msn env u) as [original|]; [|apply Hdirect].
    destruct (PyStr.nonempty original); [|apply Hdirect].
    destruct (fetch_article env depth original timeout true st) as [[r1 st1]|] eqn:Hinner;
      [|done].
    destruct (ok r1); [|apply Hdirect].
    intros [= <- <-]. by eapply IH.
  - intros [= <- <-]. unfold extract_domain. simpl. by rewrite Hp.
Qed.

End CallFacts.

Section TierFacts.

Variable env : Env.
Variables (u : string) (timeout : Z) (upf : bool).

Lemma enters_metadata (depth : nat) (st : State) (md : Metadata) (st0 : State) :
  enters_requests_tier env depth u timeout st md st0 ->
  exists parsed,
    urlparse env u = inl parsed
    /\ md = set_domain (strip_www (netloc parsed)) (new_metadata u "requests").
Proof. intros [parsed ? ?|parsed ? ? ?|parsed ? ? ? ? ? ? ? ? ?]; by exists parsed. Qed.

(** What the call returns is decided by the control point it has
    come to. *)
Lemma fetch_article_resume (depth : nat) (st : State) (md : Metadata) (st0 : State)
    (c : Config) (st1 : State) :
  enters_requests_tier env depth u timeout st md st0 ->
  reaches env u timeout upf md st0 c st1 ->
  fetch_article env (S depth) u timeout upf st
  = Some (resume env u timeout upf c st1).
Proof.
  intros Henter Hreach.
  rewrite (fetch_article_enters _ _ _ _ _ _ _ _ Henter).
  by rewrite (reaches_resume _ _ _ _ _ _ _ _ Hreach).
Qed.

(** Attempt 0 is only made at the start. *)
Lemma reaches_first (md : Metadata) (st0 : State) (l : Locals) (st1 : State) :
  reaches env u timeout upf md st0 (Looping 0 l) st1 ->
  l = initial_locals md /\ st1 = st0.
Proof.
  unfold reaches. intros H. apply rtc_inv_r in H as [[= <- <-]|H]; [done|].
  destruct H as ([c st2] & _ & _ & Hstep). exfalso. simpl in Hstep.
  destruct c as [attempt l2|l2|r]; unfold tier_step in Hstep.
  - destruct (attempt <? MAX_RETRIES)%nat.
    + rewrite bind_run in Hstep.
      destruct (http_attempt env u timeout attempt l2 st2) as [[?|?|?] ?];
        rewrite ret_run in Hstep; by injection Hstep.
    + rewrite ret_run in Hstep. by injection Hstep.
  - rewrite bind_run in Hstep. destruct (after_loop env u upf l2 st2).
    rewrite ret_run in Hstep. by injection Hstep.
  - rewrite ret_run in Hstep. by injection Hstep.
Qed.

Lemma http_attempt_404 (attempt : nat) (l : Locals) (st1 : State) (content : string) :
  requests_get env (trace st1) u timeout = Response 404 content ->
  http_attempt env u timeout attempt l st1
  = (fail_with "HTTP 404 Not Found - Article does not exist"
       (append_error "HTTP 404 Not Found - Article does not exist"
          (with_metadata (set_http_status (Some 404%Z)) l)),
     logged (EvGet u timeout) st1).
Proof. intros H. unfold http_attempt. by rewrite bind_run, get_run, H. Qed.

End TierFacts.

(** C6: a 404 ends the call at once. *)
Theorem not_found_is_terminal (env : Env) (depth : nat) (u : string) (timeout : Z)
    (upf : bool) (st : State) (md : Metadata) (st0 : State)
    (attempt : nat) (l : Locals) (st1 : State) (content : string) :
  enters_requests_tier env depth u timeout st md st0 ->
  reaches env u timeout upf md st0 (Looping attempt l) st1 ->
  (attempt < MAX_RETRIES)%nat ->
  requests_get env (trace st1) u timeout = Response 404 content ->
  exists md',
    fetch_article env (S depth) u timeout upf st
    = Some ((false, "HTTP 404 Not Found - Article does not exist", md'),
            logged (EvGet u timeout) st1)
    /\ http_status md' = Some 404%Z
    /\ fetch_errors md' = all_errors l ++ ["HTTP 404 Not Found - Article does not exist"].
Proof.
  intros Henter Hreach Hlt Hget.
  rewrite (fetch_article_resume _ _ _ _ _ _ _ _ _ _ Henter Hreach).
  rewrite resume_looping by done.
  rewrite (http_attempt_404 _ _ _ _ _ _ _ Hget).
  eexists. split; [reflexivity|]. by split.
Qed.

Section PaywallFacts.

Variable env : Env.

Lemma paywall_hit_found (soup : Bs4.soup) (marker : string) :
  marker ∈ paywall_indicators ->
  PyStr.contains marker (soup_str env soup) = true ->
  (length (Bs4.find_all ["p"] soup) < 5)%nat ->
  exists found, found ∈ paywall_indicators /\ paywall_hit env soup = Some found.
Proof.
  intros Hin Hcontains Hp. unfold paywall_hit, detect_paywall.
  destruct (List.find _ paywall_indicators) as [found|] eqn:Hfind.
  - apply List.find_some in Hfind as [Hfound _]. exists found.
    apply Nat.ltb_lt in Hp. rewrite Hp. split; [by apply list_elem_of_In|done].
  - exfalso. apply list_elem_of_In in Hin as Hin'.
    apply (List.find_none _ _ Hfind) in Hin'.
    apply contains_lower in Hcontains.
    rewrite (paywall_indicators_lower _ Hin) in Hcontains. congruence.
Qed.

Lemma length_zero_empty (s : string) : (String.length s =? 0)%nat = negb (PyStr.nonempty s).
Proof. by destruct s. Qed.

Lemma process_response_paywall (u : string) (attempt : nat) (content found : string)
    (l : Locals) (st : State) :
  PyStr.nonempty content = true ->
  paywall_hit env (html_parser env content) = Some found ->
  process_response env u attempt content l st
  = (fail_with ("Paywall detected (" +:+ found +:+ ") - Content behind subscription")
       (append_error
          ("Paywall detected (" +:+ found +:+ ") - Content behind subscription") l),
     st).
Proof.
  intros Hne Hhit. unfold process_response.
  by rewrite length_zero_empty, Hne, Hhit.
Qed.

End PaywallFacts.

(** C7, as the code has it: a response with status 200 and a body that
    is not empty, with a paywall marker in its markup and fewer than
    five paragraphs, makes the call fail at once, before the content is
    extracted, without another attempt and without the headless tier;
    on the first attempt exactly one error is recorded. *)
Theorem paywall_is_terminal (env : Env) (depth : nat) (u : string) (timeout : Z)
    (upf : bool) (st : State) (md : Metadata) (st0 : State)
    (attempt : nat) (l : Locals) (st1 : State) (content marker : string) :
  enters_requests_tier env depth u timeout st md st0 ->
  reaches env u timeout upf md st0 (Looping attempt l) st1 ->
  (attempt < MAX_RETRIES)%nat ->
  requests_get env (trace st1) u timeout = Response 200 content ->
  content <> "" ->
  marker ∈ paywall_indicators ->
  PyStr.contains marker (soup_str env (html_parser env content)) = true ->
  (length (Bs4.find_all ["p"] (html_parser env content)) < 5)%nat ->
  exists found md',
    found ∈ paywall_indicators
    /\ fetch_article env (S depth) u timeout upf st
       = Some ((false,
                "Paywall detected (" +:+ found +:+ ") - Content behind subscription",
                md'),
               logged (EvGet u timeout) st1)
    /\ fetch_errors md'
       = all_errors l
         ++ ["Paywall detected (" +:+ found +:+ ") - Content behind subscription"]
    /\ title md' = title (metadata l) /\ author md' = author (metadata l)
    /\ (attempt = 0%nat -> length (fetch_errors md') = 1%nat).
Proof.
  intros Henter Hreach Hlt Hget Hne Hin Hmarker Hp.
  destruct (paywall_hit_found env _ _ Hin Hmarker Hp) as (found & Hfound & Hhit).
  exists found. eexists. split; [done|].
  rewrite (fetch_article_resume _ _ _ _ _ _ _ _ _ _ Henter Hreach).
  rewrite resume_looping by done.
  unfold http_attempt. rewrite bind_run, get_run, Hget.
  rewrite !bool_decide_eq_false_2 by done.
  change (500 <=? 200)%Z with false. rewrite bool_decide_eq_true_2 by done.
  cbn [negb].
  rewrite (process_response_paywall env u attempt content found) by (by destruct content || done).
  split; [reflexivity|]. repeat split.
  intros ->. apply reaches_first in Hreach as [-> _]. reflexivity.
Qed.

Section FailureFacts.

Variable env : Env.
Variables (u : string) (timeout : Z) (upf : bool).

Lemma final_error_snoc (errs : list string) (msg : string) :
  final_error (errs ++ [msg]) = msg.
Proof. unfold final_error. by rewrite last_snoc. Qed.

(** Without a request for the fallback, the code after the loop fails
    with the last error and calls nothing. *)
Lemma after_loop_no_fallback (l : Locals) (st : State) :
  should_try_playwright l = false ->
  after_loop env u upf l st
  = ((false, final_error (all_errors l),
      set_fetch_errors (all_errors l) (metadata l)), st).
Proof.
  intros Hno. unfold after_loop. rewrite bind_run, Hno, andb_false_r. by rewrite !ret_run.
Qed.

Lemma retry_or_run (attempt : nat) (l : Locals) (otherwise : M Flow) (st : State) :
  retry_or attempt l otherwise st
  = if (attempt <? MAX_RETRIES - 1)%nat
    then (Continue l, logged (EvSleep RETRY_DELAY) st)
    else otherwise st.
Proof. unfold retry_or. by destruct (attempt <? MAX_RETRIES - 1)%nat. Qed.

(** One iteration on a failure of the kinds of [http_failure_message]:
    another attempt after the delay, or the end of the tier. *)
Lemma http_attempt_failure (attempt : nat) (l : Locals) (st1 : State) (msg : string) :
  http_failure_message timeout (requests_get env (trace st1) u timeout) = Some msg ->
  exists l',
    all_errors l' = all_errors l ++ [msg]
    /\ should_try_playwright l' = should_try_playwright l
    /\ http_attempt env u timeout attempt l st1
       = if (attempt <? MAX_RETRIES - 1)%nat
         then (Continue l', logged (EvSleep RETRY_DELAY) (logged (EvGet u timeout) st1))
         else (match requests_get env (trace st1) u timeout with
               | Response _ _ => fail_with msg l'
               | _ => Continue l'
               end, logged (EvGet u timeout) st1).
Proof.
  intros Hmsg. unfold http_attempt. rewrite bind_run, get_run.
  unfold http_failure_message in Hmsg.
  destruct (requests_get env (trace st1) u timeout) as [status content| |m|m|e].
  - repeat match type of Hmsg with
           | (if ?b then _ else _) = _ => destruct b eqn:?
           end; try done; injection Hmsg as <-.
    1-3: eexists; split; [|split]; [| |rewrite retry_or_run, ?ret_run;
           destruct (attempt <? MAX_RETRIES - 1)%nat; reflexivity]; done.
    apply andb_true_iff in Heqb3 as [H200 Hempty].
    apply negb_true_iff in Hempty.
    rewrite H200. cbn [negb]. unfold process_response.
    rewrite length_zero_empty, Hempty. cbn [negb].
    eexists; split; [|split]; [| |rewrite retry_or_run, ?ret_run;
           destruct (attempt <? MAX_RETRIES - 1)%nat; reflexivity]; done.
  - injection Hmsg as <-.
    eexists; split; [|split]; [| |rewrite retry_or_run, ?ret_run;
           destruct (attempt <? MAX_RETRIES - 1)%nat; reflexivity]; done.
  - injection Hmsg as <-.
    eexists; split; [|split]; [| |rewrite retry_or_run, ?ret_run;
           destruct (attempt <? MAX_RETRIES - 1)%nat; reflexivity]; done.
  - injection Hmsg as <-.
    eexists; split; [|split]; [| |rewrite retry_or_run, ?ret_run;
           destruct (attempt <? MAX_RETRIES - 1)%nat; reflexivity]; done.
  - injection Hmsg as <-.
    eexists; split; [|split]; [| |rewrite retry_or_run, ?ret_run;
           destruct (attempt <? MAX_RETRIES - 1)%nat; reflexivity]; done.
Qed.

End FailureFacts.

(** The failures of the requests tier that never reach the fallback: a
    failure by status 403, 429 or 5xx, by an empty body with status 200,
    a timeout, an SSL error, a connection error or another exception is
    retried after the delay while an attempt is left, and on the last
    attempt makes the call return Failed with that failure's message;
    the headless tier is not entered, whether it is available or not. *)
Theorem http_failure_is_not_escalated (env : Env) (depth : nat) (u : string) (timeout : Z)
    (upf : bool) (st : State) (md : Metadata) (st0 : State)
    (attempt : nat) (l : Locals) (st1 : State) (msg : string) :
  enters_requests_tier env depth u timeout st md st0 ->
  reaches env u timeout upf md st0 (Looping attempt l) st1 ->
  (attempt < MAX_RETRIES)%nat ->
  http_failure_message timeout (requests_get env (trace st1) u timeout) = Some msg ->
  if (attempt <? MAX_RETRIES - 1)%nat
  then exists l',
      reaches env u timeout upf md st0 (Looping (S attempt) l')
        (logged (EvSleep RETRY_DELAY) (logged (EvGet u timeout) st1))
      /\ all_errors l' = all_errors l ++ [msg]
  else exists md',
      fetch_article env (S depth) u timeout upf st
      = Some ((false, msg, md'), logged (EvGet u timeout) st1)
      /\ fetch_errors md' = all_errors l ++ [msg].
Proof.
  intros Henter Hreach Hlt Hmsg.
  destruct (http_attempt_failure env u timeout attempt l st1 msg Hmsg)
    as (l' & Herrs & Htry & Hattempt).
  pose proof (reaches_invariant _ _ _ _ _ _ _ _ Hreach) as (_ & _ & _ & Hno & _).
  cbn [initial_locals should_try_playwright] in Hno.
  destruct (attempt <? MAX_RETRIES - 1)%nat eqn:Hlast.
  - exists l'. split; [|done].
    eapply reaches_next; [exact Hreach|done|].
    unfold tier_step. apply Nat.ltb_lt in Hlt. by rewrite Hlt, bind_run, Hattempt, ret_run.
  - rewrite (fetch_article_resume _ _ _ _ _ _ _ _ _ _ Henter Hreach).
    rewrite resume_looping, Hattempt by done.
    destruct (requests_get env (trace st1) u timeout).
    1: { eexists. split; [reflexivity|]. simpl. done. }
    all: rewrite resume_exhausted by (apply Nat.ltb_ge in Hlast; unfold MAX_RETRIES in *; lia).
    all: rewrite after_loop_no_fallback by congruence.
    all: rewrite Herrs, final_error_snoc; eexists; split; [reflexivity|done].
Qed.

Section ThinContentFacts.

Variable env : Env.
Variables (u : string) (timeout : Z) (upf : bool).

(** No member of the JS-heavy list is an MSN or a Bloomberg URL: the
    two tests look for the same substrings, one before and one after
    "www." is dropped. *)
Lemma not_js_heavy (parsed : ParseResult) :
  urlparse env u = inl parsed ->
  is_js_heavy_domain env u = false ->
  PyStr.contains "msn.com" (PyStr.lower (netloc parsed)) = false
  /\ is_bloomberg_url env u = false.
Proof.
  intros Hp. unfold is_js_heavy_domain, is_bloomberg_url. rewrite Hp.
  unfold JS_HEAVY_DOMAINS. cbn [existsb]. rewrite !orb_false_iff.
  intros (_ & Hmsn & Hbb & _). split.
  - destruct (PyStr.contains "msn.com" (PyStr.lower (netloc parsed))) eqn:H; [|done].
    apply (strip_www_keeps "msn.com") in H; [congruence|done|done].
  - destruct (PyStr.contains "bloomberg.com" (PyStr.lower (netloc parsed))) eqn:H; [|done].
    apply (strip_www_keeps "bloomberg.com") in H; [congruence|done|done].
Qed.

Lemma not_js_heavy_enters (depth : nat) (parsed : ParseResult) (st : State) :
  urlparse env u = inl parsed ->
  is_js_heavy_domain env u = false ->
  enters_requests_tier env depth u timeout st
    (set_domain (strip_www (netloc parsed)) (new_metadata u "requests")) st.
Proof.
  intros Hp Hjs. apply enters_not_msn; [done|]. by apply not_js_heavy.
Qed.

Lemma check_playwright_available_run (st : State) :
  check_playwright_available env st
  = (playwright_ready env st,
     {| trace := trace st;
        _playwright_available := Some (playwright_ready env st) |}).
Proof.
  unfold check_playwright_available, playwright_ready.
  destruct st as [tr [b|]]; reflexivity.
Qed.

(** A failed headless fetch reports the error it recorded last. *)
Lemma fetch_with_playwright_failure (t : Z) (st : State) pw st' :
  fetch_with_playwright env u t st = (pw, st') ->
  ok pw = false ->
  final_error (fetch_errors (meta pw)) = text pw
  /\ forall errs, final_error (errs ++ fetch_errors (meta pw)) = text pw.
Proof.
  assert (Hsnoc : forall (pre : list string) (msg : string),
             final_error (pre ++ [msg]) = msg
             /\ forall errs, final_error (errs ++ pre ++ [msg]) = msg).
  { intros pre msg. split; [apply final_error_snoc|].
    intros errs. rewrite app_assoc. apply final_error_snoc. }
  unfold fetch_with_playwright, playwright_error.
  destruct (urlparse env u) as [parsed|e].
  - destruct (negb (playwright_installed env)).
    { rewrite ret_run. intros [= <- <-] _. first [by apply (Hsnoc [])|by apply Hsnoc]. }
    rewrite bind_run, browse_run.
    destruct (playwright_session env (trace st) u t) as [e|response rest].
    { rewrite ret_run. intros [= <- <-] _. first [by apply (Hsnoc [])|by apply Hsnoc]. }
    cbv zeta.
    destruct (match response with Some status => (400 <=? status)%Z | None => false end).
    { rewrite ret_run. intros [= <- <-] _. first [by apply (Hsnoc [])|by apply Hsnoc]. }
    destruct rest as [html|e].
    + destruct (extract_content_from_html _ _) as [[success content] m2].
      destruct success; rewrite ret_run; intros [= <- <-]; [done|].
      intros _. first [by apply (Hsnoc [])|by apply Hsnoc].
    + rewrite ret_run. intros [= <- <-] _. first [by apply (Hsnoc [])|by apply Hsnoc].
  - rewrite ret_run. intros [= <- <-] _. first [by apply (Hsnoc [])|by apply Hsnoc].
Qed.

(** With the fallback requested, enabled and available, the headless
    tier decides the outcome. *)
Lemma after_loop_escalates (l : Locals) (st : State) :
  should_try_playwright l = true ->
  upf = true ->
  playwright_ready env st = true ->
  exists pw st2 md',
    fetch_with_playwright env u PLAYWRIGHT_TIMEOUT
      (check_playwright_available env st).2 = (pw, st2)
    /\ after_loop env u upf l st = ((ok pw, text pw, md'), st2)
    /\ fetch_errors md' = all_errors l ++ fetch_errors (meta pw)
    /\ (ok pw = true -> fetch_method md' = "playwright").
Proof.
  intros Htry -> Hready. unfold after_loop.
  rewrite bind_run, Htry. cbn [andb].
  rewrite check_playwright_available_run, Hready. cbn [snd]. rewrite bind_run.
  destruct (fetch_with_playwright env u PLAYWRIGHT_TIMEOUT _)
    as [[[pws pwc] pwm] st2] eqn:Hpw.
  exists (pws, pwc, pwm), st2.
  destruct pws.
  - unfold handle_bloomberg_content.
    destruct (is_bloomberg_url env u); [destruct (_ <? _)%nat|];
      rewrite ret_run; eexists; (split; [reflexivity|]); (split; [reflexivity|]);
      (split; [reflexivity|]); intros _; reflexivity.
  - rewrite ret_run. eexists. split; [reflexivity|].
    apply fetch_with_playwright_failure in Hpw as [_ Hlast]; [|done].
    rewrite Hlast. split; [reflexivity|]. split; [reflexivity|done].
Qed.

(** With the fallback requested but switched off, or playwright not
    available, the code after the loop fails with the last error; the
    availability is looked up only when the fallback is switched on. *)
Lemma after_loop_unavailable (l : Locals) (st : State) :
  should_try_playwright l = true ->
  upf && playwright_ready env st = false ->
  after_loop env u upf l st
  = ((false, final_error (all_errors l), set_fetch_errors (all_errors l) (metadata l)),
     if upf then (check_playwright_available env st).2 else st).
Proof.
  intros Htry Hno. unfold after_loop. rewrite bind_run, Htry, andb_true_r.
  destruct upf; [|by rewrite !ret_run].
  cbn [andb] in Hno. rewrite check_playwright_available_run, Hno. cbn [snd].
  by rewrite ret_run.
Qed.

End ThinContentFacts.

(** C1, as the code has it: on a domain that is not JS-heavy, an
    extracted body of at least 500 characters is returned as Success by
    the requests tier; a body under 500 characters is never returned by
    it: the error is recorded and the retry loop is left at once.  With
    the fallback enabled and playwright available the headless tier is
    then run and decides the outcome; otherwise the call fails with the
    recorded error. *)
Theorem thin_content_is_escalated (env : Env) (depth : nat) (u : string) (timeout : Z)
    (upf : bool) (st : State) (parsed : ParseResult)
    (attempt : nat) (l : Locals) (st1 : State) (content body : string) (m' : Metadata) :
  urlparse env u = inl parsed ->
  is_js_heavy_domain env u = false ->
  reaches env u timeout upf
    (set_domain (strip_www (netloc parsed)) (new_metadata u "requests")) st
    (Looping attempt l) st1 ->
  (attempt < MAX_RETRIES)%nat ->
  requests_get env (trace st1) u timeout = Response 200 content ->
  content <> "" ->
  paywall_hit env (html_parser env content) = None ->
  extract_content_from_html (html_parser env content)
    (set_http_status (Some 200%Z) (metadata l)) = (true, body, m') ->
  if (String.length body <? MIN_CONTENT_CHARS_FOR_SUCCESS)%nat
  then
    let msg := "Requests fetch returned insufficient content: "
               +:+ PyStr.of_nat (String.length body) +:+ " chars" in
    let st2 := logged (EvGet u timeout) st1 in
    if upf && playwright_ready env st1
    then
      exists pw st3 md',
        fetch_with_playwright env u PLAYWRIGHT_TIMEOUT
          (check_playwright_available env st2).2 = (pw, st3)
        /\ fetch_article env (S depth) u timeout upf st = Some ((ok pw, text pw, md'), st3)
        /\ fetch_errors md' = (all_errors l ++ [msg]) ++ fetch_errors (meta pw)
        /\ (ok pw = true -> fetch_method md' = "playwright")
    else
      exists md',
        fetch_article env (S depth) u timeout upf st
        = Some ((false, msg, md'),
                if upf then (check_playwright_available env st2).2 else st2)
        /\ fetch_errors md' = all_errors l ++ [msg]
        /\ trace (if upf then (check_playwright_available env st2).2 else st2)
           = trace st1 ++ [EvGet u timeout]
  else
    fetch_article env (S depth) u timeout upf st
    = Some ((true, body, set_fetch_method "requests" m'), logged (EvGet u timeout) st1).
Proof.
  intros Hp Hjs Hreach Hlt Hget Hne Hpay Hextract.
  pose proof (not_js_heavy_enters env u timeout depth parsed st Hp Hjs) as Henter.
  rewrite (fetch_article_resume _ _ _ _ _ _ _ _ _ _ Henter Hreach).
  rewrite resume_looping by done.
  unfold http_attempt. rewrite bind_run, get_run, Hget.
  rewrite !bool_decide_eq_false_2 by done.
  change (500 <=? 200)%Z with false. rewrite bool_decide_eq_true_2 by done.
  cbn [negb]. unfold process_response.
  rewrite length_zero_empty. replace (PyStr.nonempty content) with true by (by destruct content).
  cbn [negb]. rewrite Hpay.
  change (metadata (with_metadata (set_http_status (Some 200%Z)) l))
    with (set_http_status (Some 200%Z) (metadata l)).
  rewrite Hextract, ret_run. unfold on_extracted.
  destruct (String.length body <? MIN_CONTENT_CHARS_FOR_SUCCESS)%nat.
  - cbv zeta.
    change (playwright_ready env st1)
      with (playwright_ready env (logged (EvGet u timeout) st1)).
    destruct (upf && playwright_ready env (logged (EvGet u timeout) st1)) eqn:Hfallback.
    + apply andb_true_iff in Hfallback as [Hupf Hready].
      match goal with
      | |- context [after_loop env u upf ?l' ?s] =>
          destruct (after_loop_escalates env u upf l' s)
            as (pw & st3 & md' & Hpw & Hafter & Herrs & Hmethod); [done|done|done|]
      end.
      exists pw, st3, md'. by rewrite Hafter.
    + match goal with
      | |- context [after_loop env u upf ?l' ?s] =>
          rewrite (after_loop_unavailable env u upf l' s) by done
      end.
      cbn [append_error want_playwright all_errors]. rewrite final_error_snoc.
      eexists. split; [reflexivity|]. split; [reflexivity|].
      destruct upf; [by rewrite check_playwright_available_run|done].
  - rewrite Hjs. cbn [andb].
    destruct (not_js_heavy env u parsed Hp Hjs) as [_ Hbb]. by rewrite Hbb.
Qed.

(** Where the accumulator is kept: from one control point of a call to
    the next, neither the accumulator [all_errors] nor
    [metadata["fetch_errors"]] loses or changes an entry: the old list
    is a prefix of the new one, so its length does not decrease; and a
    result that is a failure or comes from the headless tier carries
    everything accumulated.  A success of the requests tier is the one
    result that does not. *)
Theorem error_accumulator_never_shrinks (env : Env) (depth : nat) (u : string)
    (timeout : Z) (upf : bool) (st : State) (md : Metadata) (st0 : State)
    (c c' : Config) (st1 st1' : State) :
  enters_requests_tier env depth u timeout st md st0 ->
  reaches env u timeout upf md st0 c st1 ->
  steps_to env u timeout upf (c, st1) (c', st1') ->
  recorded_errors c `prefix_of` recorded_errors c'
  /\ (length (recorded_errors c) <= length (recorded_errors c'))%nat
  /\ forall errs,
      accumulated_errors c = Some errs ->
      match c' with
      | Finished r =>
          ok r = false \/ fetch_method (meta r) = "playwright" ->
          errs `prefix_of` fetch_errors (meta r)
          /\ (length errs <= length (fetch_errors (meta r)))%nat
      | _ =>
          exists errs',
            accumulated_errors c' = Some errs'
            /\ errs `prefix_of` errs' /\ (length errs <= length errs')%nat
      end.
Proof.
  intros Henter Hreach [Hrunning Hstep]. cbn [fst snd] in Hrunning, Hstep.
  apply enters_metadata in Henter as (parsed & _ & Hmd).
  assert (Hnone : fetch_errors md = []) by by subst md.
  apply reaches_invariant in Hreach.
  assert (Hlen : forall a b : list string, a `prefix_of` b -> (length a <= length b)%nat).
  { intros a b [k ->]. rewrite length_app. lia. }
  destruct c as [attempt l|l|r]; [| |done]; unfold tier_step in Hstep.
  - destruct Hreach as (_ & _ & Hrec & _). cbn [initial_locals metadata] in Hrec.
    rewrite Hnone in Hrec. cbn [recorded_errors accumulated_errors]. rewrite Hrec.
    split; [apply prefix_nil|]. split; [simpl; lia|].
    intros errs [= <-].
    destruct (attempt <? MAX_RETRIES)%nat.
    + rewrite bind_run in Hstep.
      destruct (http_attempt env u timeout attempt l st1) as [flow st2] eqn:Hattempt.
      apply http_attempt_effect in Hattempt.
      rewrite ret_run in Hstep. injection Hstep as <- <-.
      destruct flow as [l'|l'|r]; cbn [attempt_effect] in Hattempt.
      * destruct Hattempt as (_ & _ & _ & _ & es & Hes).
        exists (all_errors l'). split; [done|]. rewrite Hes.
        split; [by apply prefix_app_r|]. rewrite length_app. lia.
      * destruct Hattempt as (_ & _ & _ & _ & es & Hes).
        exists (all_errors l'). split; [done|]. rewrite Hes.
        split; [by apply prefix_app_r|]. rewrite length_app. lia.
      * destruct Hattempt as (_ & _ & Hr). intros [Hfail|Hpw].
        -- rewrite Hfail in Hr. destruct Hr as [es ->].
           split; [by apply prefix_app_r|]. rewrite length_app. lia.
        -- destruct (ok r); [destruct Hr as [_ Hr]; by rewrite Hr in Hpw|].
           destruct Hr as [es ->].
           split; [by apply prefix_app_r|]. rewrite length_app. lia.
    + rewrite ret_run in Hstep. injection Hstep as <- <-.
      exists (all_errors l). split; [done|]. split; [done|lia].
  - rewrite bind_run in Hstep.
    destruct (after_loop env u upf l st1) as [r st2] eqn:Hafter.
    rewrite ret_run in Hstep. injection Hstep as <- <-.
    apply after_loop_effect in Hafter as ([es Hes] & _).
    destruct Hreach as (_ & _ & Hrec). rewrite Hnone in Hrec.
    cbn [recorded_errors accumulated_errors]. rewrite Hes.
    assert (Hpre : fetch_errors (metadata l) `prefix_of` all_errors l ++ es).
    { destruct Hrec as [-> | ->]; [apply prefix_nil|by apply prefix_app_r]. }
    split; [done|]. split; [by apply Hlen|].
    intros errs [= <-] _. split; [by apply prefix_app_r|]. rewrite length_app. lia.
Qed.

(** C8: with more than 20 scripts, fewer than 3 paragraphs and under 500
    characters of text in the document as it came, the extractor fails
    with the JavaScript-rendered-page reason; the counts are taken
    before the clean-up, after which no script is left to count. *)
Theorem js_rendered_page_is_detected (soup : Bs4.soup) (metadata : Metadata) :
  (20 < length (Bs4.find_all ["script"] soup))%nat ->
  (length (Bs4.find_all ["p"] soup) < 3)%nat ->
  (String.length (Bs4.soup_get_text_stripped soup) < 500)%nat ->
  (extract_content_from_html soup metadata).1
  = (false, js_rendered_message (length (Bs4.find_all ["script"] soup))
              (length (Bs4.find_all ["p"] soup)))
  /\ PyStr.startswith "JavaScript-rendered page" (extract_content_from_html soup metadata).1.2
     = true
  /\ Bs4.find_all ["script"] (Bs4.decompose_all unwanted_elements soup) = [].
Proof.
  intros Hs Hp Ht. unfold extract_content_from_html.
  rewrite (find_content_js_rendered soup Hs Hp Ht). cbn [fst snd].
  split; [done|]. split; [apply js_rendered_message_prefix|].
  apply find_all_decompose_all. unfold unwanted_elements. set_solver.
Qed.

Section UnwrapFacts.

Variable env : Env.


(** A call on a URL that is not an MSN one records that URL and its
    domain. *)
Lemma fetch_article_direct_identity (depth : nat) (u : string) (timeout : Z) (upf : bool)
    (st : State) (parsed : ParseResult) r st' :
  urlparse env u = inl parsed ->
  PyStr.contains "msn.com" (PyStr.lower (netloc parsed)) = false ->
  fetch_article env depth u timeout upf st = Some (r, st') ->
  url (meta r) = u /\ domain (meta r) = strip_www (netloc parsed).
Proof.
  intros Hp Hmsn. destruct depth as [|depth]; [done|].
  rewrite (fetch_article_enters env depth u timeout upf st _ st
             (enters_not_msn env depth u timeout st parsed Hp Hmsn)).
  intros [= H].
  by apply (tier_identity env u timeout upf
              (set_domain (strip_www (netloc parsed)) (new_metadata u "requests"))
              parsed st r st' Hp eq_refl eq_refl).
Qed.

End UnwrapFacts.


(** C4, as the code has it: a fetch of an MSN wrapper that succeeds on
    the unwrapped original returns the metadata of that inner fetch, so
    [url] and [domain] are those of the URL that was fetched, not of the
    wrapper. *)
Theorem unwrapped_domain_is_of_fetched_url (env : Env) (depth : nat)
    (wrapper original : string) (parsed : ParseResult) (timeout : Z) (upf : bool)
    (st : State) (r : Result) (st' : State) :
  urlparse env wrapper = inl parsed ->
  PyStr.contains "msn.com" (PyStr.lower (netloc parsed)) = true ->
  extract_original_url_from_msn env wrapper = Some original ->
  original <> "" ->
  fetch_article env depth original timeout true st = Some (r, st') ->
  ok r = true ->
  exists r',
    fetch_article env (S depth) wrapper timeout upf st = Some (r', st')
    /\ meta r' = meta r
    /\ domain (meta r') = extract_domain env (url (meta r'))
    /\ forall parsed_original,
        urlparse env original = inl parsed_original ->
        PyStr.contains "msn.com" (PyStr.lower (netloc parsed_original)) = false ->
        url (meta r') = original
        /\ domain (meta r') = strip_www (netloc parsed_original).
Proof.
  intros Hp Hmsn Horig Hne Hinner Hok. exists r.
  split; [eapply fetch_article_unwrapped; try done; by destruct original|].
  split; [done|]. split; [by eapply fetch_article_domain|].
  intros parsed_original Hpo Hnot. by eapply fetch_article_direct_identity.
Qed.

(** C10: [extract_domain] drops every occurrence of "www." that
    [str.replace] finds in the host, wherever it stands: the host is
    kept up to the first occurrence and the rest is treated in the same
    way; a host without "www." is returned as it is, and a URL that
    cannot be parsed gives the empty string.  [fetch_article] records
    the same string as [domain]. *)
Theorem extract_domain_drops_every_www (env : Env) (u : string) (parsed : ParseResult)
    (a b : string) :
  urlparse env u = inl parsed ->
  netloc parsed = a +:+ "www." +:+ b ->
  PyStr.contains "www." (a +:+ "www") = false ->
  extract_domain env u = a +:+ strip_www b
  /\ (forall depth timeout upf st r st',
         fetch_article env depth u timeout upf st = Some (r, st') ->
         domain (meta r) = extract_domain env (url (meta r))
         /\ (url (meta r) = u -> domain (meta r) = a +:+ strip_www b))
  /\ (forall u' parsed',
         urlparse env u' = inl parsed' ->
         PyStr.contains "www." (netloc parsed') = false ->
         extract_domain env u' = netloc parsed')
  /\ (forall u' e, urlparse env u' = inr e -> extract_domain env u' = "")
  /\ strip_www "sub.www.example.com" = "sub.example.com"
  /\ strip_www "awww.example.com" = "aexample.com".
Proof.
  intros Hp Hhost Hfirst.
  assert (Hdom : extract_domain env u = a +:+ strip_www b).
  { unfold extract_domain. rewrite Hp, Hhost. by apply strip_www_first_occurrence. }
  split; [done|]. split.
  { intros depth timeout upf st r st' Hfetch.
    apply fetch_article_domain in Hfetch. split; [done|].
    intros Hu. by rewrite Hfetch, Hu. }
  split.
  { intros u' parsed' Hp' Hno. unfold extract_domain. rewrite Hp'.
    by apply strip_www_no_occurrence. }
  split; [|by split].
  intros u' e He. unfold extract_domain. by rewrite He.
Qed.

(** ** The claims on the world of the examples *)

(** C1 fails as stated: a 359-character body (60 words) from a domain
    that is not JS-heavy is not returned; the headless tier is run and,
    as the browser times out, the call fails. *)
Lemma thin_content_counterexample :
  let env := Sim.env_of Sim.demo in
  let u := "https://example.com/thin" in
  is_js_heavy_domain env u = false
  /\ requests_get env [] u 30 = Response 200 Sim.thin_markup
  /\ (extract_content_from_html (html_parser env Sim.thin_markup)
        (new_metadata u "requests")).1 = (true, Sim.lorem 60)
  /\ String.length (Sim.lorem 60) = 359%nat
  /\ count_words (Sim.lorem 60) = 60%nat
  /\ exists md st',
      fetch_article env 1 u 30 true Sim.fresh
      = Some ((false, "Playwright error: TimeoutError: Timeout 45000ms exceeded.", md), st')
      /\ trace st' = [EvGet u 30; EvPlaywright u PLAYWRIGHT_TIMEOUT]
      /\ ~ (exists md2 st2,
              fetch_article env 1 u 30 true Sim.fresh
              = Some ((true, Sim.lorem 60, md2), st2)).
Proof.
  cbv zeta. repeat split; try (vm_compute; reflexivity).
  eexists. eexists. split; [vm_compute; reflexivity|]. split; [vm_compute; reflexivity|].
  intros (md2 & st2 & H). vm_compute in H. discriminate H.
Qed.

(** C2 (what the code does at the failing input): two 403 responses
    exhaust the attempts and the call fails there, without asking for
    the headless tier, although the fallback is enabled, playwright is
    installed and the browser would have brought the page. *)
Theorem http_failure_skips_the_fallback :
  let env := Sim.env_of Sim.demo in
  let u := "https://example.com/blocked" in
  playwright_installed env = true
  /\ (forall h, playwright_session env h u PLAYWRIGHT_TIMEOUT
                = PwResponse (Some 200%Z) (PwContent Sim.long_markup))
  /\ (exists pw st', fetch_with_playwright env u PLAYWRIGHT_TIMEOUT Sim.fresh = (pw, st')
                     /\ ok pw = true)
  /\ exists md st',
      fetch_article env 1 u 30 true Sim.fresh
      = Some ((false, "HTTP 403 Forbidden - Site is blocking access", md), st')
      /\ trace st' = [EvGet u 30; EvSleep 2; EvGet u 30]
      /\ _playwright_available st' = None
      /\ forall t, EvPlaywright u t ∉ trace st'.
Proof.
  cbv zeta. split; [reflexivity|]. split; [intros h; reflexivity|].
  split; [eexists; eexists; split; [vm_compute; reflexivity|reflexivity]|].
  eexists. eexists. split; [vm_compute; reflexivity|].
  split; [reflexivity|]. split; [reflexivity|].
  intros t Hin. cbn [trace] in Hin.
  repeat (apply elem_of_cons in Hin as [Hin|Hin]; [discriminate Hin|]).
  by apply elem_of_nil in Hin.
Qed.

(** C3 (what the code does at the failing input): the first attempt is
    answered 403 and its error is recorded in [all_errors]; the second
    attempt succeeds, and the metadata returned with the text has an
    empty [fetch_errors]. *)
Theorem errors_lost_on_late_success :
  let env := Sim.env_of Sim.demo in
  let u := "https://example.com/flaky" in
  let md := set_domain "example.com" (new_metadata u "requests") in
  reaches env u 30 true md Sim.fresh
    (Looping 1
       (append_error "HTTP 403 Forbidden - Site is blocking access"
          (with_metadata (set_http_status (Some 403%Z)) (initial_locals md))))
    (logged (EvSleep 2) (logged (EvGet u 30) Sim.fresh))
  /\ exists body md' st',
      fetch_article env 1 u 30 true Sim.fresh = Some ((true, body, md'), st')
      /\ trace st' = [EvGet u 30; EvSleep 2; EvGet u 30]
      /\ fetch_errors md' = [].
Proof.
  cbv zeta. split.
  - eapply reaches_next; [apply reaches_start|reflexivity|vm_compute; reflexivity].
  - eexists. eexists. eexists. repeat split; vm_compute; reflexivity.
Qed.

(** C4 fails as stated: the wrapper is an msn.com URL, the result has
    the domain of the original URL. *)
Lemma wrapper_domain_counterexample :
  let env := Sim.env_of Sim.demo in
  extract_original_url_from_msn env Sim.wrapper_url = Some "https://example.com/story"
  /\ extract_domain env Sim.wrapper_url = "msn.com"
  /\ exists body md st',
      fetch_article env 2 Sim.wrapper_url 30 true Sim.fresh = Some ((true, body, md), st')
      /\ url md = "https://example.com/story"
      /\ domain md = "example.com"
      /\ domain md <> extract_domain env Sim.wrapper_url.
Proof.
  cbv zeta. split; [vm_compute; reflexivity|]. split; [vm_compute; reflexivity|].
  eexists. eexists. eexists. split; [vm_compute; reflexivity|].
  split; [reflexivity|]. split; [reflexivity|]. vm_compute. discriminate.
Qed.


(** C7 fails as stated: the page behind the paywall (the marker in its
    markup, two paragraphs) answered with status 403 is decided by its
    status: the request is repeated and the call fails with the message
    for 403, two errors recorded. *)
Lemma paywall_behind_403_counterexample :
  let env := Sim.env_of forbidden_world in
  let u := "https://example.com/locked" in
  let content := Sim.render_soup Sim.paywall_page in
  requests_get env [] u 30 = Response 403 content
  /\ PyStr.contains "paywall" content = true
  /\ PyStr.contains "paywall" (soup_str env (html_parser env content)) = true
  /\ length (Bs4.find_all ["p"] (html_parser env content)) = 2%nat
  /\ exists md st',
      fetch_article env 1 u 30 true Sim.fresh
      = Some ((false, "HTTP 403 Forbidden - Site is blocking access", md), st')
      /\ trace st' = [EvGet u 30; EvSleep 2; EvGet u 30]
      /\ length (fetch_errors md) = 2%nat
      /\ ~ (exists found md2 st2,
              fetch_article env 1 u 30 true Sim.fresh
              = Some ((false,
                       "Paywall detected (" +:+ found +:+ ") - Content behind subscription",
                       md2), st2)).
Proof.
  cbv zeta. split; [reflexivity|]. split; [vm_compute; reflexivity|].
  split; [vm_compute; reflexivity|]. split; [vm_compute; reflexivity|].
  eexists. eexists. split; [vm_compute; reflexivity|]. split; [reflexivity|].
  split; [reflexivity|].
  intros (found & md2 & st2 & H). vm_compute in H. discriminate H.
Qed.

(** ** The theorems at work in the world of the examples *)

(** C6 on a URL that answers 404 to the first request. *)
Lemma not_found_is_terminal_witness :
  let env := Sim.env_of Sim.demo in
  let u := "https://example.com/missing" in
  let md := set_domain "example.com" (new_metadata u "requests") in
  requests_get env [] u 30 = Response 404 "Not Found"
  /\ exists md',
      fetch_article env 1 u 30 true Sim.fresh
      = Some ((false, "HTTP 404 Not Found - Article does not exist", md'),
              logged (EvGet u 30) Sim.fresh)
      /\ http_status md' = Some 404%Z
      /\ fetch_errors md'
         = all_errors (initial_locals md) ++ ["HTTP 404 Not Found - Article does not exist"].
Proof.
  cbv zeta. split; [reflexivity|].
  eapply (not_found_is_terminal (Sim.env_of Sim.demo) 0 "https://example.com/missing" 30 true
           Sim.fresh _ Sim.fresh 0 _ Sim.fresh "Not Found").
  - apply (enters_not_msn _ _ _ _ _ {| netloc := "example.com"; query := "" |});
      vm_compute; reflexivity.
  - apply reaches_start.
  - unfold MAX_RETRIES. lia.
  - reflexivity.
Defined.

(** C7 (amended) on a page whose markup has the class "paywall" and two
    paragraphs, answered with status 200. *)
Lemma paywall_is_terminal_witness :
  let env := Sim.env_of Sim.demo in
  let u := "https://example.com/locked" in
  let content := Sim.render_soup Sim.paywall_page in
  let md := set_domain "example.com" (new_metadata u "requests") in
  requests_get env [] u 30 = Response 200 content
  /\ PyStr.contains "paywall" (soup_str env (html_parser env content)) = true
  /\ (length (Bs4.find_all ["p"] (html_parser env content)) < 5)%nat
  /\ exists found md',
      found ∈ paywall_indicators
      /\ fetch_article env 1 u 30 true Sim.fresh
         = Some ((false,
                  "Paywall detected (" +:+ found +:+ ") - Content behind subscription",
                  md'),
                 logged (EvGet u 30) Sim.fresh)
      /\ fetch_errors md'
         = all_errors (initial_locals md)
           ++ ["Paywall detected (" +:+ found +:+ ") - Content behind subscription"]
      /\ title md' = title (metadata (initial_locals md))
      /\ author md' = author (metadata (initial_locals md))
      /\ (0%nat = 0%nat -> length (fetch_errors md') = 1%nat).
Proof.
  cbv zeta.
  assert (Hget : requests_get (Sim.env_of Sim.demo) [] "https://example.com/locked" 30
                 = Response 200 (Sim.render_soup Sim.paywall_page)) by reflexivity.
  assert (Hmarker : PyStr.contains "paywall"
                      (soup_str (Sim.env_of Sim.demo)
                         (html_parser (Sim.env_of Sim.demo)
                            (Sim.render_soup Sim.paywall_page))) = true)
    by (vm_compute; reflexivity).
  assert (Hp : (length (Bs4.find_all ["p"]
                          (html_parser (Sim.env_of Sim.demo)
                             (Sim.render_soup Sim.paywall_page))) < 5)%nat)
    by (vm_compute; lia).
  refine (conj Hget (conj Hmarker (conj Hp _))).
  eapply (paywall_is_terminal (Sim.env_of Sim.demo) 0 "https://example.com/locked" 30 true
           Sim.fresh _ Sim.fresh 0 _ Sim.fresh _ "paywall").
  - apply (enters_not_msn _ _ _ _ _ {| netloc := "example.com"; query := "" |});
      vm_compute; reflexivity.
  - apply reaches_start.
  - unfold MAX_RETRIES. lia.
  - exact Hget.
  - vm_compute. discriminate.
  - unfold paywall_indicators. apply list_elem_of_here.
  - exact Hmarker.
  - exact Hp.
Defined.

(** The failures that never reach the fallback, on a URL that times out
    twice, at the last attempt, with playwright installed. *)
Lemma http_failure_is_not_escalated_witness :
  let env := Sim.env_of Sim.demo in
  let u := "https://example.com/slow" in
  let md := set_domain "example.com" (new_metadata u "requests") in
  let msg := "Timeout after 30s - Site too slow to respond" in
  let l1 := append_error msg (initial_locals md) in
  let st1 := logged (EvSleep 2) (logged (EvGet u 30) Sim.fresh) in
  playwright_installed env = true
  /\ reaches env u 30 true md Sim.fresh (Looping 1 l1) st1
  /\ http_failure_message 30 (requests_get env (trace st1) u 30) = Some msg
  /\ exists md',
      fetch_article env 1 u 30 true Sim.fresh
      = Some ((false, msg, md'), logged (EvGet u 30) st1)
      /\ fetch_errors md' = all_errors l1 ++ [msg].
Proof.
  cbv zeta.
  split; [reflexivity|].
  match goal with |- ?R /\ ?H /\ _ => assert (Hreach : R); [|assert (Hmsg : H)] end.
  - eapply reaches_next; [apply reaches_start|reflexivity|vm_compute; reflexivity].
  - vm_compute. reflexivity.
  - refine (conj Hreach (conj Hmsg _)).
    refine (http_failure_is_not_escalated (Sim.env_of Sim.demo) 0 "https://example.com/slow"
              30 true Sim.fresh _ Sim.fresh 1 _ _ _ _ Hreach _ Hmsg).
    + apply (enters_not_msn _ _ _ _ _ {| netloc := "example.com"; query := "" |});
        vm_compute; reflexivity.
    + unfold MAX_RETRIES. lia.
Defined.

(** C1 (amended) on a 359-character body: the headless tier decides. *)
Lemma thin_content_is_escalated_witness :
  let env := Sim.env_of Sim.demo in
  let u := "https://example.com/thin" in
  let md := set_domain "example.com" (new_metadata u "requests") in
  let msg := "Requests fetch returned insufficient content: "
             +:+ PyStr.of_nat (String.length (Sim.lorem 60)) +:+ " chars" in
  is_js_heavy_domain env u = false
  /\ requests_get env [] u 30 = Response 200 Sim.thin_markup
  /\ (String.length (Sim.lorem 60) <? MIN_CONTENT_CHARS_FOR_SUCCESS)%nat = true
  /\ true && playwright_ready env Sim.fresh = true
  /\ exists pw st3 md',
      fetch_with_playwright env u PLAYWRIGHT_TIMEOUT
        (check_playwright_available env (logged (EvGet u 30) Sim.fresh)).2 = (pw, st3)
      /\ fetch_article env 1 u 30 true Sim.fresh = Some ((ok pw, text pw, md'), st3)
      /\ fetch_errors md' = (all_errors (initial_locals md) ++ [msg]) ++ fetch_errors (meta pw)
      /\ (ok pw = true -> fetch_method md' = "playwright").
Proof.
  cbv zeta.
  split; [vm_compute; reflexivity|]. split; [reflexivity|]. split; [vm_compute; reflexivity|].
  split; [reflexivity|].
  pose proof (thin_content_is_escalated (Sim.env_of Sim.demo) 0 "https://example.com/thin"
                30 true Sim.fresh {| netloc := "example.com"; query := "" |}
                0 (initial_locals (set_domain "example.com"
                                     (new_metadata "https://example.com/thin" "requests")))
                Sim.fresh Sim.thin_markup (Sim.lorem 60)
                (set_title "Brief"
                   (set_http_status (Some 200%Z)
                      (set_domain "example.com"
                         (new_metadata "https://example.com/thin" "requests"))))) as H.
  assert (Hthin : (String.length (Sim.lorem 60) <? MIN_CONTENT_CHARS_FOR_SUCCESS)%nat = true)
    by (vm_compute; reflexivity).
  rewrite Hthin in H. cbv zeta in H.
  change (true && playwright_ready (Sim.env_of Sim.demo) Sim.fresh) with true in H.
  cbv iota in H. apply H.
  - vm_compute. reflexivity.
  - vm_compute. reflexivity.
  - apply reaches_start.
  - unfold MAX_RETRIES. lia.
  - reflexivity.
  - vm_compute. discriminate.
  - vm_compute. reflexivity.
  - vm_compute. reflexivity.
Defined.

(** The accumulator on the step from the first attempt, answered 403, to
    the second. *)
Lemma error_accumulator_never_shrinks_witness :
  let env := Sim.env_of Sim.demo in
  let u := "https://example.com/blocked" in
  let md := set_domain "example.com" (new_metadata u "requests") in
  let msg := "HTTP 403 Forbidden - Site is blocking access" in
  let c := Looping 0 (initial_locals md) in
  let c' := Looping 1 (append_error msg
                         (with_metadata (set_http_status (Some 403%Z)) (initial_locals md))) in
  let st1' := logged (EvSleep 2) (logged (EvGet u 30) Sim.fresh) in
  steps_to env u 30 true (c, Sim.fresh) (c', st1')
  /\ recorded_errors c `prefix_of` recorded_errors c'
  /\ (length (recorded_errors c) <= length (recorded_errors c'))%nat
  /\ forall errs,
      accumulated_errors c = Some errs ->
      exists errs',
        accumulated_errors c' = Some errs'
        /\ errs `prefix_of` errs' /\ (length errs <= length errs')%nat.
Proof.
  cbv zeta.
  match goal with |- ?S /\ _ => assert (Hstep : S) end.
  { split; [reflexivity|vm_compute; reflexivity]. }
  split; [exact Hstep|].
  refine (error_accumulator_never_shrinks (Sim.env_of Sim.demo) 0
            "https://example.com/blocked" 30 true Sim.fresh _ Sim.fresh _ _ _ _ _ _ Hstep).
  - apply (enters_not_msn _ _ _ _ _ {| netloc := "example.com"; query := "" |});
      vm_compute; reflexivity.
  - apply reaches_start.
Defined.

(** C8 on a document with 25 scripts, one paragraph and 299 characters of
    text. *)
Lemma js_rendered_page_is_detected_witness :
  let soup := Sim.script_page 25 50 in
  let metadata := new_metadata "https://example.com/app" "requests" in
  length (Bs4.find_all ["script"] soup) = 25%nat
  /\ length (Bs4.find_all ["p"] soup) = 1%nat
  /\ String.length (Bs4.soup_get_text_stripped soup) = 299%nat
  /\ (extract_content_from_html soup metadata).1
     = (false, "JavaScript-rendered page (React/Vue/etc.) - requires browser to access content (25 scripts, 1 paragraphs)")
  /\ PyStr.startswith "JavaScript-rendered page" (extract_content_from_html soup metadata).1.2
     = true
  /\ Bs4.find_all ["script"] (Bs4.decompose_all unwanted_elements soup) = [].
Proof.
  cbv zeta.
  split; [vm_compute; reflexivity|]. split; [vm_compute; reflexivity|].
  split; [vm_compute; reflexivity|].
  apply (js_rendered_page_is_detected (Sim.script_page 25 50)
           (new_metadata "https://example.com/app" "requests")).
  - vm_compute. lia.
  - vm_compute. lia.
  - vm_compute. lia.
Defined.


(** C4 (amended) on the same wrapper. *)
Lemma unwrapped_domain_is_of_fetched_url_witness :
  let env := Sim.env_of Sim.demo in
  let original := "https://example.com/story" in
  extract_original_url_from_msn env Sim.wrapper_url = Some original
  /\ exists r st',
      fetch_article env 1 original 30 true Sim.fresh = Some (r, st')
      /\ ok r = true
      /\ exists r',
          fetch_article env 2 Sim.wrapper_url 30 true Sim.fresh = Some (r', st')
          /\ meta r' = meta r
          /\ domain (meta r') = extract_domain env (url (meta r'))
          /\ forall parsed_original,
              urlparse env original = inl parsed_original ->
              PyStr.contains "msn.com" (PyStr.lower (netloc parsed_original)) = false ->
              url (meta r') = original
              /\ domain (meta r') = strip_www (netloc parsed_original).
Proof.
  cbv zeta.
  assert (Horig : extract_original_url_from_msn (Sim.env_of Sim.demo) Sim.wrapper_url
                  = Some "https://example.com/story") by (vm_compute; reflexivity).
  split; [exact Horig|].
  eexists. eexists.
  match goal with |- ?F /\ _ => assert (Hinner : F) by (vm_compute; reflexivity) end.
  split; [exact Hinner|]. split; [reflexivity|].
  refine (unwrapped_domain_is_of_fetched_url (Sim.env_of Sim.demo) 1 Sim.wrapper_url
            "https://example.com/story"
            {| netloc := "www.msn.com"; query := "url=https://example.com/story" |}
            30 true Sim.fresh _ _ _ _ Horig _ Hinner _).
  - vm_compute. reflexivity.
  - vm_compute. reflexivity.
  - discriminate.
  - reflexivity.
Defined.

(** C10 on the host sub.www.example.com, and on a URL that [urlparse]
    rejects. *)
Lemma extract_domain_drops_every_www_witness :
  let env := Sim.env_of Sim.demo in
  urlparse env "https://sub.www.example.com/a"
  = inl {| netloc := "sub.www.example.com"; query := "" |}
  /\ extract_domain env "https://sub.www.example.com/a" = "sub." +:+ strip_www "example.com"
  /\ extract_domain env "https://sub.www.example.com/a" = "sub.example.com"
  /\ extract_domain env "http://[invalid/x" = "".
Proof.
  cbv zeta.
  assert (Hp : urlparse (Sim.env_of Sim.demo) "https://sub.www.example.com/a"
               = inl {| netloc := "sub.www.example.com"; query := "" |})
    by (vm_compute; reflexivity).
  split; [exact Hp|].
  destruct (extract_domain_drops_every_www (Sim.env_of Sim.demo)
              "https://sub.www.example.com/a"
              {| netloc := "sub.www.example.com"; query := "" |} "sub." "example.com"
              Hp eq_refl eq_refl) as (Hdom & _ & _ & Hraise & _).
  split; [exact Hdom|]. split; [rewrite Hdom; reflexivity|].
  apply (Hraise _ {| exn_type := "ValueError"; exn_msg := "Invalid IPv6 URL" |}).
  vm_compute. reflexivity.
Defined.

(** * Further properties *)

(** ** One attempt, in detail *)

Section DetailFacts.

Variable env : Env.
Variables (u : string) (timeout : Z).

(** Bloomberg and MSN hosts are members of the JS-heavy list. *)
Lemma bloomberg_is_js_heavy :
  is_bloomberg_url env u = true -> is_js_heavy_domain env u = true.
Proof.
  intros Hbb. destruct (is_js_heavy_domain env u) eqn:Hjs; [done|].
  unfold is_bloomberg_url in Hbb.
  destruct (urlparse env u) as [parsed|e] eqn:Hp; [|done].
  destruct (not_js_heavy env u parsed Hp Hjs) as [_ Hno].
  unfold is_bloomberg_url in Hno. rewrite Hp in Hno. congruence.
Qed.

Lemma at_page_append (status : Z) (l0 l : Locals) (e : string) :
  at_page status l0 l -> at_page status l0 (append_error e l).
Proof. intros (He & Hp & Hs). split; [by apply extends_append|done]. Qed.

Lemma at_page_errors (status : Z) (l0 l l' : Locals) (e : string) :
  at_page status l0 l ->
  all_errors l' = all_errors l ++ [e] ->
  exists es e', all_errors l' = all_errors l0 ++ es ++ [e'].
Proof.
  intros ((_ & _ & _ & _ & es & Hes) & _) ->. exists es, e. by rewrite Hes, <- app_assoc.
Qed.

Lemma fail_with_detail (attempt : nat) (status : Z) (l0 l : Locals) (msg : string)
    (stG : State) :
  at_page status l0 l ->
  attempt_detail env u attempt status l0 stG (fail_with msg (append_error msg l)) stG.
Proof.
  intros ((_ & _ & _ & _ & es & Hes) & Hp & Hs). unfold fail_with.
  split; [done|]. split; [done|]. split; [done|].
  exists es. unfold meta, text. simpl. by rewrite Hes, <- app_assoc.
Qed.

Lemma retry_or_detail (attempt : nat) (status : Z) (l0 l : Locals) (e : string)
    (otherwise : M Flow) (stG : State) flow st' :
  at_page status l0 l ->
  (forall flow st', otherwise stG = (flow, st') ->
                    attempt_detail env u attempt status l0 stG flow st') ->
  retry_or attempt (append_error e l) otherwise stG = (flow, st') ->
  attempt_detail env u attempt status l0 stG flow st'.
Proof.
  intros Hl Ho. rewrite retry_or_run.
  destruct (attempt <? MAX_RETRIES - 1)%nat eqn:Hlast; [|apply Ho].
  intros [= <- <-]. cbn [attempt_detail]. rewrite Hlast.
  split; [by eapply at_page_errors|]. split; [|done]. by destruct Hl as (_ & Hp & _).
Qed.

Lemma on_extracted_detail (attempt : nat) (status : Z) (l0 l : Locals) (body : string)
    (stG : State) :
  at_page status l0 l ->
  page_status attempt status ->
  (50 <= count_words body)%nat ->
  attempt_detail env u attempt status l0 stG (on_extracted env u body l) stG.
Proof.
  intros Hl Hstatus Hwords. unfold on_extracted.
  destruct (String.length body <? MIN_CONTENT_CHARS_FOR_SUCCESS)%nat eqn:Hthin.
  { cbn [attempt_detail]. split; [by eapply at_page_errors|].
    destruct Hl as (_ & Hp & _). by repeat split. }
  destruct (is_js_heavy_domain env u
            && ((String.length body <? 1000)%nat || (count_words body <? 200)%nat))
    eqn:Hjs.
  { cbn [attempt_detail]. split; [by eapply at_page_errors|].
    destruct Hl as (_ & Hp & _). by repeat split. }
  apply Nat.ltb_ge in Hthin. unfold MIN_CONTENT_CHARS_FOR_SUCCESS in Hthin.
  assert (Hheavy : is_js_heavy_domain env u = true ->
                   (1000 <= String.length body)%nat /\ (200 <= count_words body)%nat).
  { intros H. rewrite H in Hjs. cbn [andb] in Hjs.
    apply orb_false_iff in Hjs as [H1 H2].
    apply Nat.ltb_ge in H1, H2. done. }
  destruct Hl as ((_ & _ & Hf & _) & Hp & Hs).
  assert (Hsame : (if is_bloomberg_url env u
                   then handle_bloomberg_content body (metadata l)
                   else (body, metadata l)) = (body, metadata l)).
  { destruct (is_bloomberg_url env u) eqn:Hbb; [|done].
    apply bloomberg_is_js_heavy, Hheavy in Hbb as [Hlen _].
    unfold handle_bloomberg_content. apply Nat.ltb_ge in Hlen. by rewrite Hlen. }
  rewrite Hsame. cbn [attempt_detail]. unfold ok, meta, text. cbn.
  split; [done|]. split; [done|]. split; [done|].
  unfold success_detail, meta, text. cbn.
  split; [exact Hstatus|]. split; [done|]. split; [done|]. split; [exact Hheavy|]. by split.
Qed.

Lemma on_extraction_failed_detail (attempt : nat) (status : Z) (l0 l : Locals)
    (reason : string) (stG : State) flow st' :
  at_page status l0 l ->
  on_extraction_failed attempt reason l stG = (flow, st') ->
  attempt_detail env u attempt status l0 stG flow st'.
Proof.
  intros Hl. unfold on_extraction_failed.
  destruct (_ || _).
  - rewrite ret_run. intros [= <- <-]. cbn [attempt_detail].
    split; [by eapply at_page_errors|]. destruct Hl as (_ & Hp & _). by repeat split.
  - apply retry_or_detail; [done|].
    intros flow2 st2. rewrite ret_run. intros [= <- <-]. cbn [attempt_detail].
    split; [by eapply at_page_errors|]. destruct Hl as (_ & Hp & _). by repeat split.
Qed.

Lemma process_response_detail (attempt : nat) (status : Z) (l0 l : Locals)
    (content : string) (stG : State) flow st' :
  at_page status l0 l ->
  page_status attempt status ->
  process_response env u attempt content l stG = (flow, st') ->
  attempt_detail env u attempt status l0 stG flow st'.
Proof.
  intros Hl Hstatus. unfold process_response.
  destruct (String.length content =? 0)%nat.
  { apply retry_or_detail; [done|].
    intros flow2 st2. rewrite ret_run. intros [= <- <-]. by apply fail_with_detail. }
  destruct (paywall_hit env (html_parser env content)) as [found|].
  { rewrite ret_run. intros [= <- <-]. by apply fail_with_detail. }
  destruct (extract_keeps (html_parser env content) (metadata l))
    as (Ku & Kd & Kf & Ks & _ & Kp & _).
  destruct (extract_content_from_html (html_parser env content) (metadata l))
    as [[success body] m'] eqn:Hextract.
  cbn [snd] in Ku, Kd, Kf, Ks, Kp.
  assert (Hl' : at_page status l0 (with_metadata (fun _ => m') l)).
  { destruct Hl as ((Hu & Hd & Hf & Ht & Hes) & Hp & Hs).
    unfold at_page, extends. cbn. rewrite Ku, Kd, Kf, Ks, Kp. done. }
  destruct success.
  - rewrite ret_run. intros [= <- <-].
    apply on_extracted_detail; [done|done|]. by apply extract_floors in Hextract as [_ ?].
  - by apply on_extraction_failed_detail.
Qed.

(** One iteration of the retry loop, in detail. *)
Lemma http_attempt_detail (attempt : nat) (l : Locals) (st : State) flow st' :
  http_attempt env u timeout attempt l st = (flow, st') ->
  match requests_get env (trace st) u timeout with
  | Response status _ =>
      attempt_detail env u attempt status l (logged (EvGet u timeout) st) flow st'
  | _ =>
      exists l', flow = Continue l'
                 /\ attempt_detail env u attempt 0 l (logged (EvGet u timeout) st) flow st'
  end.
Proof.
  unfold http_attempt. rewrite bind_run, get_run.
  generalize (logged (EvGet u timeout) st) as stG. intros stG.
  destruct (requests_get env (trace st) u timeout) as [status content| |msg|msg|e].
  - assert (Hl : at_page status l (with_metadata (set_http_status (Some status)) l)).
    { split; [apply extends_status, extends_refl|done]. }
    destruct (bool_decide (status = 403%Z)) eqn:H403.
    { apply retry_or_detail; [done|].
      intros flow2 st2. rewrite ret_run. intros [= <- <-]. by apply fail_with_detail. }
    destruct (bool_decide (status = 404%Z)) eqn:H404.
    { rewrite ret_run. intros [= <- <-]. by apply fail_with_detail. }
    destruct (bool_decide (status = 429%Z)) eqn:H429.
    { apply retry_or_detail; [done|].
      intros flow2 st2. rewrite ret_run. intros [= <- <-]. by apply fail_with_detail. }
    destruct (500 <=? status)%Z eqn:H500.
    { apply retry_or_detail; [done|].
      intros flow2 st2. rewrite ret_run. intros [= <- <-]. by apply fail_with_detail. }
    apply bool_decide_eq_false in H403, H404, H429. apply Z.leb_gt in H500.
    destruct (bool_decide (status = 200%Z)) eqn:H200; cbn [negb].
    + apply bool_decide_eq_true in H200.
      apply process_response_detail; [done|]. by repeat split.
    + rewrite retry_or_run.
      destruct (attempt <? MAX_RETRIES - 1)%nat eqn:Hlast.
      * intros [= <- <-]. cbn [attempt_detail]. rewrite Hlast.
        split; [by eapply at_page_errors|]. by split.
      * apply Nat.ltb_ge in Hlast.
        apply process_response_detail; [by apply at_page_append|].
        repeat split; try done. lia.
  - rewrite retry_or_run.
    destruct (attempt <? MAX_RETRIES - 1)%nat eqn:Hlast; rewrite ?ret_run;
      intros [= <- <-]; eexists; (split; [reflexivity|]); cbn [attempt_detail];
      rewrite Hlast; (split; [exists []; eexists; reflexivity|]); by split.
  - rewrite retry_or_run.
    destruct (attempt <? MAX_RETRIES - 1)%nat eqn:Hlast; rewrite ?ret_run;
      intros [= <- <-]; eexists; (split; [reflexivity|]); cbn [attempt_detail];
      rewrite Hlast; (split; [exists []; eexists; reflexivity|]); by split.
  - rewrite retry_or_run.
    destruct (attempt <? MAX_RETRIES - 1)%nat eqn:Hlast; rewrite ?ret_run;
      intros [= <- <-]; eexists; (split; [reflexivity|]); cbn [attempt_detail];
      rewrite Hlast; (split; [exists []; eexists; reflexivity|]); by split.
  - rewrite retry_or_run.
    destruct (attempt <? MAX_RETRIES - 1)%nat eqn:Hlast; rewrite ?ret_run;
      intros [= <- <-]; eexists; (split; [reflexivity|]); cbn [attempt_detail];
      rewrite Hlast; (split; [exists []; eexists; reflexivity|]); by split.
Qed.

End DetailFacts.

(** ** The fallback, in detail *)

Section FallbackDetail.

Variable env : Env.
Variables (u : string) (timeout : Z) (upf : bool).

Lemma fetch_with_playwright_detail (t : Z) (st : State) pw st' :
  fetch_with_playwright env u t st = (pw, st') ->
  fetch_method (meta pw) = "playwright"
  /\ partial_content (meta pw) = None
  /\ fetch_errors (meta pw) = (if ok pw then [] else [text pw])
  /\ (ok pw = true ->
      (200 <= String.length (text pw))%nat /\ (50 <= count_words (text pw))%nat)
  /\ (st' = st /\ ok pw = false \/ st' = logged (EvPlaywright u t) st).
Proof.
  unfold fetch_with_playwright, playwright_error.
  destruct (urlparse env u) as [parsed|e].
  - destruct (negb (playwright_installed env)).
    { rewrite ret_run. intros [= <- <-]. repeat split; try done. by left. }
    rewrite bind_run, browse_run.
    destruct (playwright_session env (trace st) u t) as [e|response rest].
    { rewrite ret_run. intros [= <- <-]. repeat split; try done. by right. }
    cbv zeta.
    set (m1 := match response with
               | Some status => set_http_status (Some status) _
               | None => _
               end).
    assert (Hm1 : fetch_method m1 = "playwright" /\ partial_content m1 = None
                  /\ fetch_errors m1 = []).
    { subst m1. by destruct response. }
    clearbody m1. destruct Hm1 as (Hm & Hp & Hf).
    destruct (match response with Some status => (400 <=? status)%Z | None => false end).
    { rewrite ret_run. intros [= <- <-]. unfold meta, ok, text. cbn. rewrite Hf.
      repeat split; try done. by right. }
    destruct rest as [html|e].
    + destruct (extract_keeps (html_parser env html) m1)
        as (_ & _ & Kf & _ & Km & Kp & _).
      destruct (extract_content_from_html (html_parser env html) m1)
        as [[success body] m2] eqn:Hextract.
      cbn [snd] in Kf, Km, Kp.
      destruct success; rewrite ret_run; intros [= <- <-]; unfold meta, ok, text; cbn.
      * apply extract_floors in Hextract.
        rewrite Km, Kp, Kf. repeat split; try done; try apply Hextract. by right.
      * rewrite Kf, Hf. repeat split; try done; try congruence. by right.
    + rewrite ret_run. intros [= <- <-]. unfold meta, ok, text. cbn. rewrite Hf.
      repeat split; try done. by right.
  - rewrite ret_run. intros [= <- <-]. repeat split; try done. by left.
Qed.

(** The code after the loop, in detail. *)
Lemma after_loop_detail (l : Locals) (st : State) r st' :
  after_loop env u upf l st = (r, st') ->
  (exists es e, all_errors l = es ++ [e]) ->
  (trace st' = trace st
   \/ (upf = true /\ should_try_playwright l = true
       /\ trace st' = trace st ++ [EvPlaywright u PLAYWRIGHT_TIMEOUT]))
  /\ (_playwright_available st' = _playwright_available st
      \/ (upf = true /\ _playwright_available st = None
          /\ _playwright_available st' = Some (playwright_installed env)))
  /\ if ok r
     then fetch_method (meta r) = "playwright"
          /\ (200 <= String.length (text r))%nat /\ (50 <= count_words (text r))%nat
          /\ fetch_errors (meta r) = all_errors l
          /\ partial_content (meta r)
             = (if is_bloomberg_url env u && (String.length (text r) <? 1000)%nat
                then Some true else partial_content (metadata l))
     else partial_content (meta r) = partial_content (metadata l)
          /\ exists es, fetch_errors (meta r) = es ++ [text r].
Proof.
  intros Hafter (es0 & e0 & Herrs). revert Hafter.
  unfold after_loop. rewrite bind_run.
  destruct (upf && should_try_playwright l) eqn:Hwant.
  - apply andb_true_iff in Hwant as [-> Htry].
    rewrite check_playwright_available_run.
    assert (Hflag : _playwright_available st = Some (playwright_ready env st)
                    \/ (_playwright_available st = None
                        /\ playwright_ready env st = playwright_installed env)).
    { unfold playwright_ready. destruct (_playwright_available st); [by left|by right]. }
    destruct (playwright_ready env st) eqn:Hready.
    + rewrite bind_run.
      destruct (fetch_with_playwright env u PLAYWRIGHT_TIMEOUT _)
        as [[[pws pwc] pwm] st2] eqn:Hpw.
      apply fetch_with_playwright_detail in Hpw as (Hm & Hp & Hf & Hfloor & Hst).
      unfold meta, ok, text in Hm, Hp, Hf, Hfloor, Hst.
      cbn -[Nat.ltb count_words] in Hm, Hp, Hf, Hfloor, Hst.
      assert (Htrace : trace st2 = trace st
                       \/ true = true /\ should_try_playwright l = true
                          /\ trace st2 = trace st ++ [EvPlaywright u PLAYWRIGHT_TIMEOUT]).
      { destruct Hst as [[-> _] | ->]; [by left|by right]. }
      assert (Hflag2 : _playwright_available st2 = _playwright_available st
                       \/ true = true /\ _playwright_available st = None
                          /\ _playwright_available st2 = Some (playwright_installed env)).
      { destruct Hst as [[-> _] | ->]; cbn;
          (destruct Hflag as [Hflag | [Hnone Heq]];
           [left; by rewrite Hflag|right; by rewrite <- Heq]). }
      destruct pws.
      * unfold handle_bloomberg_content.
        destruct (is_bloomberg_url env u); [destruct (_ <? _)%nat eqn:Hshort|];
          rewrite ret_run; intros [= <- <-]; unfold meta, ok, text;
          cbn -[Nat.ltb count_words]; rewrite ?Hshort, Hf, app_nil_r;
          (split; [done|]); (split; [done|]); repeat split; try done; by apply Hfloor.
      * rewrite ret_run. intros [= <- <-]. unfold meta, ok, text. cbn.
        split; [done|]. split; [done|]. split; [done|]. rewrite Hf, final_error_snoc.
        by exists (all_errors l).
    + rewrite ret_run. intros [= <- <-]. unfold meta, ok, text. cbn.
      split; [by left|]. split.
      { destruct Hflag as [Hflag | [Hnone Heq]]; [left; by rewrite Hflag|right; by rewrite <- Heq]. }
      split; [done|]. exists es0. by rewrite Herrs, final_error_snoc.
  - rewrite !ret_run. intros [= <- <-]. unfold meta, ok, text. cbn.
    split; [by left|]. split; [by left|]. split; [done|].
    exists es0. by rewrite Herrs, final_error_snoc.
Qed.

End FallbackDetail.

(** ** The two tiers, in detail *)

Section TierDetail.

Variable env : Env.
Variables (u : string) (timeout : Z) (upf : bool).

Lemma attempt_run (attempt : nat) (l : Locals) (st : State) flow st' :
  http_attempt env u timeout attempt l st = (flow, st') ->
  exists status,
    attempt_detail env u attempt status l (logged (EvGet u timeout) st) flow st'.
Proof.
  intros H. apply http_attempt_detail in H.
  destruct (requests_get env (trace st) u timeout) as [status content| | | |].
  - by exists status.
  - destruct H as (l' & _ & H). by exists 0%Z.
  - destruct H as (l' & _ & H). by exists 0%Z.
  - destruct H as (l' & _ & H). by exists 0%Z.
  - destruct H as (l' & _ & H). by exists 0%Z.
Qed.

(** A result returned from inside the loop. *)
Lemma returned_detail (attempt : nat) (status : Z) (l : Locals) (md : Metadata)
    (stG : State) r st' :
  attempt_detail env u attempt status l stG (Return r) st' ->
  partial_content (metadata l) = partial_content md ->
  fetch_errors (metadata l) = fetch_errors md ->
  st' = stG /\ result_detail env u md r.
Proof.
  intros (-> & Hs & Hp & Hr) Hmd Hfe. split; [done|]. unfold result_detail.
  destruct (ok r).
  - destruct Hr as ((H403 & H404 & H429 & H500 & _) & Hlen & Hwords & Hheavy & Hm & Hf).
    split; [lia|]. split; [done|]. left.
    split; [done|]. split; [done|]. split; [done|]. split; [congruence|].
    split; [congruence|]. by exists status.
  - destruct Hr as [es Hr]. split; [congruence|].
    exists (all_errors l ++ es). by rewrite Hr, app_assoc.
Qed.

(** A result of the code after the loop. *)
Lemma fallen_back_detail (l : Locals) (md : Metadata) (st0 stG : State)
    (evs : list Event) r st' :
  after_loop env u upf l stG = (r, st') ->
  (exists es e, all_errors l = es ++ [e]) ->
  partial_content (metadata l) = partial_content md ->
  trace stG = trace st0 ++ evs ->
  _playwright_available stG = _playwright_available st0 ->
  (trace st' = trace st0 ++ evs
   \/ (upf = true /\ trace st' = trace st0 ++ evs ++ [EvPlaywright u PLAYWRIGHT_TIMEOUT]))
  /\ (flag_kept env st0 st'
      /\ (upf = false -> _playwright_available st' = _playwright_available st0))
  /\ result_detail env u md r.
Proof.
  intros Hafter Herrs Hmd Htrace Hflag.
  apply after_loop_detail in Hafter as (Ht & Hf & Hr); [|done].
  split; [|split].
  - destruct Ht as [Ht | (Hupf & _ & Ht)]; [left|right; split; [done|]];
      rewrite Ht, Htrace; by rewrite <- ?app_assoc.
  - unfold flag_kept. rewrite <- Hflag.
    destruct Hf as [Hf | (Hupf & Hnone & Hf)]; [by split; [left|]|].
    split; [by right|]. by intros ->.
  - unfold result_detail. destruct (ok r).
    + destruct Hr as (Hm & Hlen & Hwords & Hfe & Hp).
      split; [done|]. split; [done|]. right. split; [done|]. split.
      { rewrite Hfe. destruct Herrs as (es & e & ->). by destruct es. }
      by rewrite Hp, Hmd.
    + destruct Hr as [Hp Hr]. split; [congruence|done].
Qed.

(** The two tiers together: what they call, and what they return. *)
Lemma requests_then_playwright_detail (md : Metadata) (st0 : State) r st' :
  requests_then_playwright env u timeout upf md st0 = (r, st') ->
  tier_trace u timeout upf st0 st'
  /\ (flag_kept env st0 st'
      /\ (upf = false -> _playwright_available st' = _playwright_available st0))
  /\ result_detail env u md r.
Proof.
  unfold requests_then_playwright. rewrite bind_run.
  change (seq 0 MAX_RETRIES) with [0; 1]%nat. cbn [http_loop]. rewrite !bind_run.
  destruct (http_attempt env u timeout 0 (initial_locals md) st0) as [flow1 st1] eqn:H1.
  pose proof (http_attempt_effect env u timeout _ _ _ _ _ H1) as E1.
  apply attempt_run in H1 as [status1 H1].
  destruct flow1 as [l1|l1|r1]; cbn [attempt_detail] in H1.
  - destruct H1 as ((es1 & e1 & Herrs1) & Hp1 & ->).
    change (0 <? MAX_RETRIES - 1)%nat with true. cbv iota.
    rewrite bind_run.
    set (st1 := logged (EvSleep RETRY_DELAY) (logged (EvGet u timeout) st0)).
    destruct (http_attempt env u timeout 1 l1 st1) as [flow2 st2] eqn:H2.
    apply attempt_run in H2 as [status2 H2].
    assert (Htr : trace (logged (EvGet u timeout) st1)
                  = trace st0 ++ [EvGet u timeout; EvSleep RETRY_DELAY; EvGet u timeout]).
    { subst st1. cbn. by rewrite <- !app_assoc. }
    destruct flow2 as [l2|l2|r2]; cbn [attempt_detail] in H2; rewrite ?ret_run.
    + destruct H2 as ((es2 & e2 & Herrs2) & Hp2 & ->).
      change (1 <? MAX_RETRIES - 1)%nat with false. cbv iota.
      intros Hafter.
      eapply (fallen_back_detail _ md st0) in Hafter as (Ht & Hf & Hr);
        [|by exists (all_errors l1 ++ es2), e2; rewrite Herrs2, app_assoc
         |by rewrite Hp2, Hp1|exact Htr|done].
      split; [|done].
      destruct Ht as [Ht | [Hupf Ht]]; eexists; (split; [exact Ht|]); auto.
    + destruct H2 as ((es2 & e2 & Herrs2) & Hp2 & _ & ->).
      intros Hafter.
      eapply (fallen_back_detail _ md st0) in Hafter as (Ht & Hf & Hr);
        [|by exists (all_errors l1 ++ es2), e2; rewrite Herrs2, app_assoc
         |by rewrite Hp2, Hp1|exact Htr|done].
      split; [|done].
      destruct Ht as [Ht | [Hupf Ht]]; eexists; (split; [exact Ht|]); auto.
    + intros [= <- <-].
      eapply returned_detail in H2 as [-> Hr]; [|exact Hp1|].
      2: { cbn [attempt_effect] in E1. by destruct E1 as (_ & _ & E1 & _). }
      split; [eexists; split; [exact Htr|]; auto|]. split; [by split; [left|]|done].
  - rewrite ret_run. destruct H1 as ((es1 & e1 & Herrs1) & Hp1 & _ & ->).
    intros Hafter.
    eapply (fallen_back_detail _ md st0 _ [EvGet u timeout]) in Hafter as (Ht & Hf & Hr);
      [|by exists es1, e1|done|done|done].
    split; [|done].
    destruct Ht as [Ht | [Hupf Ht]]; eexists; (split; [exact Ht|]); auto.
  - rewrite ret_run. intros [= <- <-].
    eapply returned_detail in H1 as [-> Hr]; [|done|done].
    split; [exists [EvGet u timeout]; split; [done|]; auto|]. split; [by split; [left|]|done].
Qed.

End TierDetail.

(** ** The whole call, in detail *)

Section CallDetail.

Variable env : Env.

Lemma result_detail_partial (u : string) (md md' : Metadata) (r : Result) :
  partial_content md = partial_content md' ->
  fetch_errors md = fetch_errors md' ->
  result_detail env u md r -> result_detail env u md' r.
Proof. unfold result_detail. by intros -> ->. Qed.

Lemma flag_kept_refl (st : State) : flag_kept env st st.
Proof. by left. Qed.

Lemma flag_kept_trans (st0 st1 st2 : State) :
  flag_kept env st0 st1 -> flag_kept env st1 st2 -> flag_kept env st0 st2.
Proof.
  unfold flag_kept. intros [H1 | [H1 H1']] [H2 | [H2 H2']].
  - left. congruence.
  - right. split; congruence.
  - right. split; congruence.
  - congruence.
Qed.

Lemma tier_trace_events (u : string) (timeout : Z) (upf : bool) (st0 st' : State) :
  tier_trace u timeout upf st0 st' ->
  exists evs, trace st' = trace st0 ++ evs /\ Forall (tier_event timeout) evs.
Proof.
  intros (evs & Ht & Hshape). exists evs. split; [done|].
  destruct Hshape as [-> | [-> | (_ & [-> | ->])]]; repeat constructor.
Qed.

(** Every result of [fetch_article] is a result of the two tiers for
    the URL in its metadata, or the failure to parse that URL. *)
Lemma fetch_article_detail (depth : nat) :
  forall u timeout upf st r st',
    fetch_article env depth u timeout upf st = Some (r, st') ->
    result_detail env (url (meta r)) (new_metadata u "requests") r.
Proof.
  induction depth as [|depth IH]; intros u timeout upf st r st'; [done|].
  cbn [fetch_article].
  destruct (urlparse env u) as [parsed|e] eqn:Hp.
  - assert (Hdirect : forall st0,
               Some (requests_then_playwright env u timeout upf
                       (set_domain (strip_www (netloc parsed)) (new_metadata u "requests"))
                       st0) = Some (r, st') ->
               result_detail env (url (meta r)) (new_metadata u "requests") r).
    { intros st0 [= H].
      pose proof H as Hid. apply (tier_identity _ _ _ _ _ parsed) in Hid as [Hu _]; try done.
      apply requests_then_playwright_detail in H as (_ & _ & H).
      rewrite Hu. by eapply result_detail_partial; [| |exact H]. }
    destruct (PyStr.contains "msn.com" (PyStr.lower (netloc parsed))); [|apply Hdirect].
    destruct (extract_original_url_from_msn env u) as [original|]; [|apply Hdirect].
    destruct (PyStr.nonempty original); [|apply Hdirect].
    destruct (fetch_article env depth original timeout true st) as [[r1 st1]|] eqn:Hinner;
      [|done].
    destruct (ok r1); [|apply Hdirect].
    intros [= <- <-]. apply IH in Hinner.
    by eapply result_detail_partial; [| |exact Hinner].
  - intros [= <- <-]. unfold result_detail, ok, meta, text. cbn.
    split; [done|]. by exists [].
Qed.

(** What a call leaves behind: the calls it made, after those made
    before it, and the availability flag. *)
Lemma fetch_article_states (depth : nat) :
  forall u timeout upf st r st',
    fetch_article env depth u timeout upf st = Some (r, st') ->
    flag_kept env st st'
    /\ exists evs, trace st' = trace st ++ evs /\ Forall (tier_event timeout) evs.
Proof.
  induction depth as [|depth IH]; intros u timeout upf st r st'; [done|].
  cbn [fetch_article].
  destruct (urlparse env u) as [parsed|e] eqn:Hp.
  - assert (Hdirect : forall st0,
               flag_kept env st st0 ->
               (exists evs, trace st0 = trace st ++ evs /\ Forall (tier_event timeout) evs) ->
               Some (requests_then_playwright env u timeout upf
                       (set_domain (strip_www (netloc parsed)) (new_metadata u "requests"))
                       st0) = Some (r, st') ->
               flag_kept env st st'
               /\ exists evs, trace st' = trace st ++ evs /\ Forall (tier_event timeout) evs).
    { intros st0 Hf0 (evs0 & Ht0 & He0) [= H].
      apply requests_then_playwright_detail in H as (Ht & [Hf _] & _).
      apply tier_trace_events in Ht as (evs & Ht & He).
      split; [by eapply flag_kept_trans|].
      exists (evs0 ++ evs). split; [by rewrite Ht, Ht0, app_assoc|by apply Forall_app]. }
    assert (Hhere : exists evs, trace st = trace st ++ evs /\ Forall (tier_event timeout) evs).
    { exists []. by rewrite app_nil_r. }
    destruct (PyStr.contains "msn.com" (PyStr.lower (netloc parsed)));
      [|by apply Hdirect; [apply flag_kept_refl|]].
    destruct (extract_original_url_from_msn env u) as [original|];
      [|by apply Hdirect; [apply flag_kept_refl|]].
    destruct (PyStr.nonempty original); [|by apply Hdirect; [apply flag_kept_refl|]].
    destruct (fetch_article env depth original timeout true st) as [[r1 st1]|] eqn:Hinner;
      [|done].
    apply IH in Hinner as [Hf1 Ht1].
    destruct (ok r1); [|by apply Hdirect].
    by intros [= <- <-].
  - intros [= <- <-]. split; [apply flag_kept_refl|]. exists []. by rewrite app_nil_r.
Qed.

End CallDetail.

(** ** Properties of every call *)

(** X1: a successful fetch comes from one of the two tiers and has at
    least 200 characters and 50 words; from the requests tier it has at
    least 500 characters, and at least 1000 characters and 200 words
    when the URL of the result is on a JS-heavy domain. *)
Theorem successful_fetch_meets_floors (env : Env) (depth : nat) (u : string) (timeout : Z)
    (upf : bool) (st : State) (r : Result) (st' : State) :
  fetch_article env depth u timeout upf st = Some (r, st') ->
  ok r = true ->
  (200 <= String.length (text r))%nat
  /\ (50 <= count_words (text r))%nat
  /\ (fetch_method (meta r) = "requests" \/ fetch_method (meta r) = "playwright")
  /\ (fetch_method (meta r) = "requests" ->
      (500 <= String.length (text r))%nat
      /\ (is_js_heavy_domain env (url (meta r)) = true ->
          (1000 <= String.length (text r))%nat /\ (200 <= count_words (text r))%nat)).
Proof.
  intros H Hok. apply fetch_article_detail in H. unfold result_detail in H.
  rewrite Hok in H. destruct H as (Hlen & Hwords & Htier).
  split; [done|]. split; [done|].
  destruct Htier as [(Hm & H500 & Hheavy & _) | (Hm & _)].
  - split; [by left|]. by intros _.
  - split; [by right|]. rewrite Hm. discriminate.
Qed.

(** X2: the mark for partial content is set on a result exactly when the
    result is a success of the headless tier for a Bloomberg URL with
    fewer than 1000 characters; the requests tier never sets it, nor does
    a failure. *)
Theorem partial_content_only_from_playwright (env : Env) (depth : nat) (u : string)
    (timeout : Z) (upf : bool) (st : State) (r : Result) (st' : State) :
  fetch_article env depth u timeout upf st = Some (r, st') ->
  partial_content (meta r)
  = (if ok r && String.eqb (fetch_method (meta r)) "playwright"
        && is_bloomberg_url env (url (meta r))
        && (String.length (text r) <? 1000)%nat
     then Some true else None).
Proof.
  intros H. apply fetch_article_detail in H. unfold result_detail in H.
  destruct (ok r).
  - destruct H as (_ & _ & [(Hm & _ & _ & Hp & _) | (Hm & _ & Hp)]).
    + by rewrite Hp, Hm.
    + by rewrite Hp, Hm.
  - by destruct H as [-> _].
Qed.

(** X3: the message of a failed fetch is the last entry of the error
    list in its metadata, so that list is never empty on failure and the
    default "Unknown error" is never what a failure reports for an empty
    list. *)
Theorem failed_fetch_reports_last_error (env : Env) (depth : nat) (u : string)
    (timeout : Z) (upf : bool) (st : State) (r : Result) (st' : State) :
  fetch_article env depth u timeout upf st = Some (r, st') ->
  ok r = false ->
  last (fetch_errors (meta r)) = Some (text r)
  /\ fetch_errors (meta r) <> [].
Proof.
  intros H Hok. apply fetch_article_detail in H. unfold result_detail in H.
  rewrite Hok in H. destruct H as (_ & es & ->).
  split; [by rewrite last_snoc|]. by destruct es.
Qed.

(** X4: once a call is at its retry loop it makes one request, or two
    with the retry delay between them, and after that at most one
    browser session; without the fallback it starts no browser session
    and does not look whether playwright is installed. *)
Theorem tiers_call_sequence (env : Env) (depth : nat) (u : string) (timeout : Z)
    (upf : bool) (st : State) (md : Metadata) (st0 : State) (r : Result) (st' : State) :
  enters_requests_tier env depth u timeout st md st0 ->
  fetch_article env (S depth) u timeout upf st = Some (r, st') ->
  tier_trace u timeout upf st0 st'
  /\ (upf = false ->
      _playwright_available st' = _playwright_available st0
      /\ (trace st' = trace st0 ++ [EvGet u timeout]
          \/ trace st' = trace st0 ++ [EvGet u timeout; EvSleep RETRY_DELAY; EvGet u timeout])).
Proof.
  intros Henter H. rewrite (fetch_article_enters env _ _ _ _ _ _ _ Henter) in H.
  injection H as H. apply requests_then_playwright_detail in H as (Ht & [_ Hf] & _).
  split; [done|]. intros ->. split; [by apply Hf|].
  destruct Ht as (evs & Ht & [-> | [-> | (Hupf & _)]]); [by left|by right|done].
Qed.

(** X5: a call leaves the availability flag as it found it, or sets it
    from unknown to what the import of playwright gives; a flag that is
    known is never changed, whatever the nesting of calls. *)
Theorem availability_is_probed_once (env : Env) (depth : nat) (u : string) (timeout : Z)
    (upf : bool) (st : State) (r : Result) (st' : State) :
  fetch_article env depth u timeout upf st = Some (r, st') ->
  flag_kept env st st'
  /\ (forall b, _playwright_available st = Some b -> _playwright_available st' = Some b).
Proof.
  intros H. apply fetch_article_states in H as [Hf _]. split; [done|].
  intros b Hb. destruct Hf as [Hf | [Hnone _]]; congruence.
Qed.

(** X6: a call only adds to the trace, and what it adds are requests
    with the timeout it was given, pauses of the retry delay and browser
    sessions with the browser's own timeout: the timeout of the call is
    handed on to the fetch of an unwrapped original and never to the
    headless tier. *)
Theorem calls_carry_fixed_parameters (env : Env) (depth : nat) (u : string) (timeout : Z)
    (upf : bool) (st : State) (r : Result) (st' : State) :
  fetch_article env depth u timeout upf st = Some (r, st') ->
  exists evs, trace st' = trace st ++ evs /\ Forall (tier_event timeout) evs.
Proof. intros H. by apply fetch_article_states in H as [_ H]. Qed.

(** X7: a result of the headless tier has the method "playwright" and
    the URL and domain of the call, no mark for partial content, and an
    error list that is empty on success and holds the returned message on
    failure; a success has at least 200 characters and 50 words; the
    browser is started at most once, and not at all when playwright is
    not installed or the URL does not parse. *)
Theorem headless_result_shape (env : Env) (u : string) (t : Z) (st : State)
    (pw : Result) (st' : State) :
  fetch_with_playwright env u t st = (pw, st') ->
  fetch_method (meta pw) = "playwright"
  /\ url (meta pw) = u
  /\ domain (meta pw) = extract_domain env u
  /\ partial_content (meta pw) = None
  /\ fetch_errors (meta pw) = (if ok pw then [] else [text pw])
  /\ (ok pw = true ->
      (200 <= String.length (text pw))%nat /\ (50 <= count_words (text pw))%nat)
  /\ (st' = st /\ ok pw = false \/ st' = logged (EvPlaywright u t) st)
  /\ (playwright_installed env = false -> st' = st /\ ok pw = false)
  /\ (forall e, urlparse env u = inr e -> st' = st /\ ok pw = false)
  /\ (st' = logged (EvPlaywright u t) st ->
      playwright_installed env = true /\ exists parsed, urlparse env u = inl parsed).
Proof.
  intros H.
  pose proof (fetch_with_playwright_identity env u t st pw st' H) as [Hu Hd].
  pose proof (fetch_with_playwright_detail env u t st pw st' H) as (Hm & Hp & Hf & Hfl & Hst).
  split; [done|]. split; [done|]. split.
  { unfold extract_domain. destruct (urlparse env u) as [parsed|e] eqn:Hparse.
    - by apply Hd.
    - revert H. unfold fetch_with_playwright. rewrite Hparse, ret_run.
      by intros [= <- <-]. }
  split; [done|]. split; [done|]. split; [done|]. split; [done|].
  assert (Hnot : playwright_installed env = false -> st' = st /\ ok pw = false).
  { intros Hnot. revert H. unfold fetch_with_playwright.
    destruct (urlparse env u) as [parsed|e]; rewrite ?Hnot; cbn [negb];
      rewrite ret_run; by intros [= <- <-]. }
  assert (Hbad : forall e, urlparse env u = inr e -> st' = st /\ ok pw = false).
  { intros e He. revert H. unfold fetch_with_playwright. rewrite He, ret_run.
    by intros [= <- <-]. }
  split; [exact Hnot|]. split; [exact Hbad|].
  intros Hstarted.
  assert (Hneq : st' <> st).
  { rewrite Hstarted. intros Heq. apply (f_equal (fun s => length (trace s))) in Heq.
    cbn in Heq. rewrite length_app in Heq. cbn in Heq. lia. }
  split.
  - destruct (playwright_installed env); [done|]. by destruct Hnot.
  - destruct (urlparse env u) as [parsed|e]; [by exists parsed|]. by destruct (Hbad e).
Qed.

(** ** More on strings *)

Section MoreStringFacts.

Lemma free_of_app (c : ascii) (a b : string) :
  PyStr.free_of c (a +:+ b) = PyStr.free_of c a && PyStr.free_of c b.
Proof.
  induction a as [|d a IH]; [done|].
  rewrite str_app_cons. cbn [PyStr.free_of]. by rewrite IH, andb_assoc.
Qed.

Lemma startswith_free_of (c : ascii) (p : string) :
  forall s, PyStr.startswith p s = true -> PyStr.free_of c s = true ->
            PyStr.free_of c p = true.
Proof.
  induction p as [|a p IH]; intros [|b s]; cbn [PyStr.startswith PyStr.free_of]; try done.
  destruct (decide (a = b)) as [->|]; [|done].
  intros Hs [Hb Hfree]%andb_true_iff. rewrite Hb. by apply (IH s).
Qed.

(** A pattern with a character that the text does not have is not in
    the text. *)
Lemma contains_free_of (c : ascii) (p s : string) :
  PyStr.free_of c s = true -> PyStr.free_of c p = false -> PyStr.contains p s = false.
Proof.
  intros Hs Hp. induction s as [|b s IH].
  - destruct p; [done|reflexivity].
  - cbn [PyStr.contains]. apply orb_false_iff. split.
    + destruct (PyStr.startswith p (String b s)) eqn:Hstart; [|done].
      apply (startswith_free_of c) in Hstart; congruence.
    + apply IH. cbn [PyStr.free_of] in Hs. by apply andb_true_iff in Hs as [_ Hs].
Qed.

Lemma string_of_uint_free (c : ascii) (d : Decimal.uint) :
  PyStr.free_of c "0123456789" = true ->
  PyStr.free_of c (NilEmpty.string_of_uint d) = true.
Proof.
  cbn [PyStr.free_of]. rewrite !andb_true_iff.
  intros (H0 & H1 & H2 & H3 & H4 & H5 & H6 & H7 & H8 & H9 & _).
  induction d as [|d IH|d IH|d IH|d IH|d IH|d IH|d IH|d IH|d IH|d IH];
    cbn [NilEmpty.string_of_uint PyStr.free_of]; [done|..]; by rewrite IH, ?andb_true_r.
Qed.

(** [str(n)] is made of digits. *)
Lemma of_nat_free (c : ascii) (n : nat) :
  PyStr.free_of c "0123456789" = true -> PyStr.free_of c (PyStr.of_nat n) = true.
Proof.
  intros Hc. unfold PyStr.of_nat, NilZero.string_of_uint.
  pose proof (string_of_uint_free c (Nat.to_uint n) Hc) as H.
  destruct (Nat.to_uint n); try exact H.
  cbn [PyStr.free_of] in Hc |- *. apply andb_true_iff in Hc as [-> _]. done.
Qed.

End MoreStringFacts.

(** ** The extractor, in detail *)

Section ExtractorDetail.

(** A message built from fixed text and a number, with neither a J nor
    a q in the fixed text, is not taken for the verdict on a
    JavaScript-rendered page. *)
Lemma plain_message_not_recognised (a b : string) (n : nat) :
  PyStr.free_of "J" (a +:+ b) = true ->
  PyStr.free_of "q" (a +:+ b) = true ->
  PyStr.contains "JavaScript-rendered" (a +:+ PyStr.of_nat n +:+ b)
  || PyStr.contains "requires browser" (a +:+ PyStr.of_nat n +:+ b) = false.
Proof.
  rewrite !free_of_app. intros [HJa HJb]%andb_true_iff [Hqa Hqb]%andb_true_iff.
  apply orb_false_iff. split.
  - apply (contains_free_of "J"); [|done].
    by rewrite !free_of_app, HJa, HJb, of_nat_free.
  - apply (contains_free_of "q"); [|done].
    by rewrite !free_of_app, Hqa, Hqb, of_nat_free.
Qed.

Lemma content_loop_spec (soup : Bs4.soup) (sels : list Bs4.selector) :
  forall c0,
    (exists before sel after elem,
        sels = before ++ sel :: after
        /\ Forall (thin_container soup) before
        /\ Bs4.select_one sel soup = Some elem
        /\ content_loop soup sels c0 = paragraphs_text (Bs4.node_find_all ["p"] elem)
        /\ (100 <= count_words (content_loop soup sels c0))%nat)
    \/ (Forall (thin_container soup) sels
        /\ (content_loop soup sels c0 = c0
            \/ (count_words (content_loop soup sels c0) < 100)%nat)).
Proof.
  induction sels as [|sel rest IH]; intros c0.
  - right. split; [constructor|by left].
  - cbn [content_loop].
    destruct (Bs4.select_one sel soup) as [elem|] eqn:Hsel.
    + destruct (100 <=? count_words (paragraphs_text (Bs4.node_find_all ["p"] elem)))%nat
        eqn:Hwords.
      * left. exists [], sel, rest, elem. apply Nat.leb_le in Hwords.
        split; [done|]. split; [constructor|]. by split.
      * apply Nat.leb_gt in Hwords.
        assert (Hthin : thin_container soup sel).
        { intros elem'. rewrite Hsel. by intros [= <-]. }
        destruct (IH (paragraphs_text (Bs4.node_find_all ["p"] elem)))
          as [(before & sel' & after & elem' & -> & Hb & Hs & Hc & Hw) | [Hall Hc]].
        -- left. exists (sel :: before), sel', after, elem'.
           split; [done|]. split; [by constructor|]. by split.
        -- right. split; [by constructor|]. right.
           destruct Hc as [-> | Hc]; done.
    + assert (Hthin : thin_container soup sel).
      { intros elem'. by rewrite Hsel. }
      destruct (IH c0)
        as [(before & sel' & after & elem' & -> & Hb & Hs & Hc & Hw) | [Hall Hc]].
      * left. exists (sel :: before), sel', after, elem'.
        split; [done|]. split; [by constructor|]. by split.
      * right. split; [by constructor|done].
Qed.

End ExtractorDetail.

Section CleanupFacts.

Import Bs4.

Lemma decompose_id (names : list string) (n : node) :
  Forall (fun x => is_named names x = false) (descendants n) ->
  decompose names n = n.
Proof.
  induction n as [k s|nm attrs cs IH] using node_nested_ind; [done|].
  rewrite decompose_tag, descendants_tag. intros Hclean. f_equal.
  induction cs as [|c cs IHcs]; [done|].
  apply Forall_cons_1 in IH as [Hc Hcs].
  rewrite soup_descendants_cons in Hclean.
  apply Forall_cons_1 in Hclean as [Hnamed Hrest].
  apply Forall_app in Hrest as [Hdc Hdcs].
  cbn [decompose_all]. rewrite Hnamed. f_equal; [by apply Hc|by apply IHcs].
Qed.

(** A document without any of the named elements is left as it is. *)
Lemma decompose_all_id (names : list string) (d : soup) :
  Forall (fun x => is_named names x = false) (soup_descendants d) ->
  decompose_all names d = d.
Proof.
  induction d as [|c d IH]; [done|].
  rewrite soup_descendants_cons. intros Hclean.
  apply Forall_cons_1 in Hclean as [Hnamed Hrest].
  apply Forall_app in Hrest as [Hdc Hdcs].
  cbn [decompose_all]. rewrite Hnamed. f_equal; [by apply decompose_id|by apply IH].
Qed.

Lemma find_all_nil (names : list string) (d : soup) :
  find_all names d = [] <-> Forall (fun x => is_named names x = false) (soup_descendants d).
Proof.
  unfold find_all. generalize (soup_descendants d) as l. intros l.
  induction l as [|x l IH]; [by split; [constructor|]|].
  cbn [List.filter]. destruct (is_named names x) eqn:Hx.
  - split; [done|]. intros [H _]%Forall_cons_1. congruence.
  - rewrite IH. split; [by constructor|]. by intros [_ H]%Forall_cons_1.
Qed.

End CleanupFacts.

(** ** Properties of the extractor *)

(** X8: when the extractor fails, its message is one of four; the test
    by which the fetcher decides to break out of the retry loop and ask
    for the browser (the message has "JavaScript-rendered" or "requires
    browser" in it) holds exactly when the failure is the verdict on a
    page with more than 20 scripts, fewer than 3 paragraphs and under 500
    characters of text, whatever the numbers in the other messages. *)
Theorem browser_is_asked_for_js_pages_only (soup : Bs4.soup) (m : Metadata)
    (msg : string) (m' : Metadata) :
  extract_content_from_html soup m = (false, msg, m') ->
  let scripts := length (Bs4.find_all ["script"] soup) in
  let ps := length (Bs4.find_all ["p"] soup) in
  (PyStr.contains "JavaScript-rendered" msg || PyStr.contains "requires browser" msg
   = (20 <? scripts)%nat && (ps <? 3)%nat
     && (String.length (Bs4.soup_get_text_stripped soup) <? 500)%nat)
  /\ (msg = js_rendered_message scripts ps
      \/ exists n : nat,
          (msg = "Page has no meaningful content (only " +:+ PyStr.of_nat n
                 +:+ " chars of text)" /\ (n < 100)%nat)
          \/ (msg = "Content too short (" +:+ PyStr.of_nat n +:+ " chars, need 200+)"
              /\ (n < 200)%nat)
          \/ (msg = "Content too short (" +:+ PyStr.of_nat n +:+ " words, need 50+)"
              /\ (n < 50)%nat)).
Proof.
  cbv zeta. unfold extract_content_from_html, find_content.
  generalize (find_title_and_author soup m) as m0.
  generalize (Bs4.decompose_all unwanted_elements soup) as soup'.
  intros soup' m0.
  generalize (content_loop soup' content_selectors "") as c0.
  generalize (paragraphs_text (Bs4.find_all ["p"] soup')) as c1.
  intros c1 c0.
  pose proof (js_rendered_message_recognised (length (Bs4.find_all ["script"] soup))
                (length (Bs4.find_all ["p"] soup))) as Hjs.
  revert Hjs.
  generalize (js_rendered_message (length (Bs4.find_all ["script"] soup))
                (length (Bs4.find_all ["p"] soup))) as jsmsg.
  intros jsmsg Hjs.
  destruct ((20 <? length (Bs4.find_all ["script"] soup))%nat
            && (length (Bs4.find_all ["p"] soup) <? 3)%nat
            && (String.length (Bs4.soup_get_text_stripped soup) <? 500)%nat).
  { intros [= <- <-]. split; [by rewrite Hjs|by left]. }
  destruct (String.length (Bs4.soup_get_text_stripped soup') <? 100)%nat eqn:H100.
  { intros [= <- <-]. split; [by apply plain_message_not_recognised|].
    right. eexists. left. split; [done|]. by apply Nat.ltb_lt. }
  set (content := if (count_words c0 <? 100)%nat then c1 else c0).
  destruct (String.length content <? 200)%nat eqn:H200.
  { intros [= <- <-]. split; [by apply plain_message_not_recognised|].
    right. eexists. right. left. split; [done|]. by apply Nat.ltb_lt. }
  destruct (count_words content <? 50)%nat eqn:H50; [|done].
  intros [= <- <-]. split; [by apply plain_message_not_recognised|].
  right. eexists. right. right. split; [done|]. by apply Nat.ltb_lt.
Qed.

(** X9: the text of a successful extraction is taken from the tree as
    the clean-up leaves it: it is the paragraph text of the container of
    the first selector of the list whose container has at least 100
    words, every selector before it having no container or one with
    fewer than 100 words; or, when no selector has such a container, the
    text of all the paragraphs of the page. *)
Theorem extracted_content_origin (soup : Bs4.soup) (m : Metadata) (content : string)
    (m' : Metadata) :
  extract_content_from_html soup m = (true, content, m') ->
  let clean := Bs4.decompose_all unwanted_elements soup in
  (exists before sel after elem,
      content_selectors = before ++ sel :: after
      /\ Forall (thin_container clean) before
      /\ Bs4.select_one sel clean = Some elem
      /\ content = paragraphs_text (Bs4.node_find_all ["p"] elem)
      /\ (100 <= count_words content)%nat)
  \/ (Forall (thin_container clean) content_selectors
      /\ content = paragraphs_text (Bs4.find_all ["p"] clean)).
Proof.
  cbv zeta. unfold extract_content_from_html, find_content.
  generalize (find_title_and_author soup m) as m0.
  generalize (Bs4.decompose_all unwanted_elements soup) as soup'.
  intros soup' m0.
  pose proof (content_loop_spec soup' content_selectors "") as Hloop.
  revert Hloop.
  generalize (content_loop soup' content_selectors "") as c0.
  generalize content_selectors as sels.
  generalize (paragraphs_text (Bs4.find_all ["p"] soup')) as c1.
  generalize (js_rendered_message (length (Bs4.find_all ["script"] soup))
                (length (Bs4.find_all ["p"] soup))) as jsmsg.
  intros jsmsg c1 sels c0 Hloop.
  destruct (_ && _); [done|].
  destruct (_ <? 100)%nat; [done|].
  destruct (count_words c0 <? 100)%nat eqn:Hwords.
  - destruct (_ <? 200)%nat; [done|]. destruct (_ <? 50)%nat; [done|].
    intros [= <- <-]. apply Nat.ltb_lt in Hwords.
    destruct Hloop as [(before & sel & after & elem & _ & _ & _ & _ & Hw) | [Hall _]];
      [lia|by right].
  - destruct (_ <? 200)%nat; [done|]. destruct (_ <? 50)%nat; [done|].
    intros [= <- <-]. apply Nat.ltb_ge in Hwords.
    destruct Hloop as [(before & sel & after & elem & Hsels & Hb & Hs & Hc & Hw)
                      | [_ [Hc | Hc]]].
    + left. by exists before, sel, after, elem.
    + rewrite Hc in Hwords. vm_compute in Hwords. lia.
    + lia.
Qed.

(** X10: after the clean-up no element of the nine removed kinds is left
    anywhere in the tree; cleaning up a second time changes nothing, and
    a page without such elements is not changed at all. *)
Theorem cleanup_is_thorough_and_stable (soup : Bs4.soup) :
  let clean := Bs4.decompose_all unwanted_elements soup in
  (forall nm, nm ∈ unwanted_elements -> Bs4.find_all [nm] clean = [])
  /\ Bs4.find_all unwanted_elements clean = []
  /\ Bs4.decompose_all unwanted_elements clean = clean
  /\ (Bs4.find_all unwanted_elements soup = [] -> clean = soup).
Proof.
  cbv zeta. generalize unwanted_elements as names. intros names.
  split; [intros nm Hnm; by apply find_all_decompose_all|].
  split; [apply find_all_nil, decompose_all_clean|].
  split; [apply decompose_all_id, decompose_all_clean|].
  intros Hnone. by apply decompose_all_id, find_all_nil.
Qed.

(** ** Properties of the requests tier *)

(** X11: the error list of a successful fetch tells the tier: it is empty
    when the text comes from the requests tier, whatever failed before,
    and it is not empty when the text comes from the headless tier,
    which is only entered after an error has been recorded. *)
Theorem errors_on_success_tell_the_tier (env : Env) (depth : nat) (u : string)
    (timeout : Z) (upf : bool) (st : State) (r : Result) (st' : State) :
  fetch_article env depth u timeout upf st = Some (r, st') ->
  ok r = true ->
  (fetch_method (meta r) = "requests" -> fetch_errors (meta r) = [])
  /\ (fetch_method (meta r) = "playwright" -> fetch_errors (meta r) <> [])
  /\ (fetch_errors (meta r) = [] <-> fetch_method (meta r) = "requests").
Proof.
  intros H Hok. apply fetch_article_detail in H. unfold result_detail in H.
  rewrite Hok in H. destruct H as (_ & _ & [(Hm & _ & _ & _ & Hf & _) | (Hm & Hf & _)]).
  - cbn in Hf. rewrite Hm. split; [done|]. split; [discriminate|done].
  - rewrite Hm. split; [discriminate|]. split; [done|]. split; [done|discriminate].
Qed.

(** X12: a host that has one of the listed JS-heavy domains in it, in
    any letter case and with or without "www.", is JS-heavy; so every
    URL that [is_bloomberg_url] accepts and every msn.com URL is. *)
Theorem listed_hosts_are_js_heavy (env : Env) (u : string) (parsed : ParseResult) :
  urlparse env u = inl parsed ->
  (forall d, d ∈ JS_HEAVY_DOMAINS ->
             PyStr.contains d (PyStr.lower (netloc parsed)) = true ->
             is_js_heavy_domain env u = true)
  /\ (is_bloomberg_url env u = true -> is_js_heavy_domain env u = true)
  /\ (PyStr.contains "msn.com" (PyStr.lower (netloc parsed)) = true ->
      is_js_heavy_domain env u = true).
Proof.
  intros Hp.
  assert (Hlisted : forall d, d ∈ JS_HEAVY_DOMAINS ->
                      PyStr.contains d (PyStr.lower (netloc parsed)) = true ->
                      is_js_heavy_domain env u = true).
  { intros d Hd Hin. unfold is_js_heavy_domain. rewrite Hp.
    apply existsb_exists. exists d. split; [by apply list_elem_of_In|].
    apply strip_www_keeps; [| |done];
      unfold JS_HEAVY_DOMAINS in Hd; repeat (apply elem_of_cons in Hd as [-> | Hd]; [done|]);
      by apply elem_of_nil in Hd. }
  split; [exact Hlisted|]. split.
  - unfold is_bloomberg_url. rewrite Hp. apply Hlisted.
    unfold JS_HEAVY_DOMAINS. set_solver.
  - apply Hlisted. unfold JS_HEAVY_DOMAINS. set_solver.
Qed.

(** X13: an iteration of the retry loop returns only on a response, never
    on an exception, and without pausing; the result carries the status
    of that response; a success has a status that is none of 403, 404,
    429 and below 500, and it is 200 unless the attempt is the last one;
    a failure reports its message as the last of the errors. *)
Theorem returning_attempt_has_response (env : Env) (u : string) (timeout : Z)
    (attempt : nat) (l : Locals) (st : State) (r : Result) (st' : State) :
  http_attempt env u timeout attempt l st = (Return r, st') ->
  st' = logged (EvGet u timeout) st
  /\ exists status content,
      requests_get env (trace st) u timeout = Response status content
      /\ http_status (meta r) = Some status
      /\ (ok r = true ->
          status <> 403%Z /\ status <> 404%Z /\ status <> 429%Z /\ (status < 500)%Z
          /\ ((attempt < MAX_RETRIES - 1)%nat -> status = 200%Z))
      /\ (ok r = false ->
          exists es, fetch_errors (meta r) = all_errors l ++ es ++ [text r]).
Proof.
  intros H. apply http_attempt_detail in H.
  destruct (requests_get env (trace st) u timeout) as [status content| | | |];
    try (by destruct H as (l' & Hl' & _)).
  cbn [attempt_detail] in H. destruct H as (-> & Hs & _ & Hr).
  split; [done|]. exists status, content. split; [done|]. split; [done|].
  destruct (ok r).
  - split; [|done]. intros _. by destruct Hr as (Hpage & _).
  - split; [done|]. by intros _.
Qed.

(** X14: a response with an unexpected status (not 200, 403, 404 or 429,
    and below 500) is an error: on an attempt that is not the last it is
    recorded and the request is repeated after the delay, whatever the
    page; on the last attempt the error is recorded and the response is
    then processed like a 200, so that a page with enough text is
    returned as a success that carries the unexpected status and none
    of the errors. *)
Theorem unexpected_status_is_accepted_on_last_attempt (env : Env) (u : string)
    (timeout : Z) (attempt : nat) (l : Locals) (st : State) (status : Z)
    (content : string) :
  requests_get env (trace st) u timeout = Response status content ->
  status <> 200%Z -> status <> 403%Z -> status <> 404%Z -> status <> 429%Z ->
  (status < 500)%Z ->
  let l1 := append_error ("HTTP " +:+ PyStr.of_Z status +:+ " - Unexpected status")
              (with_metadata (set_http_status (Some status)) l) in
  ((attempt < MAX_RETRIES - 1)%nat ->
   http_attempt env u timeout attempt l st
   = (Continue l1, logged (EvSleep RETRY_DELAY) (logged (EvGet u timeout) st)))
  /\ (~ (attempt < MAX_RETRIES - 1)%nat ->
      http_attempt env u timeout attempt l st
      = process_response env u attempt content l1 (logged (EvGet u timeout) st))
  /\ (~ (attempt < MAX_RETRIES - 1)%nat ->
      forall body md',
        content <> "" ->
        paywall_hit env (html_parser env content) = None ->
        extract_content_from_html (html_parser env content)
          (set_http_status (Some status) (metadata l)) = (true, body, md') ->
        (MIN_CONTENT_CHARS_FOR_SUCCESS <= String.length body)%nat ->
        is_js_heavy_domain env u = false ->
        http_attempt env u timeout attempt l st
        = (Return (true, body, set_fetch_method "requests" md'),
           logged (EvGet u timeout) st)
        /\ http_status (set_fetch_method "requests" md') = Some status
        /\ fetch_errors (set_fetch_method "requests" md') = fetch_errors (metadata l)).
Proof.
  intros Hget H200 H403 H404 H429 H500. cbv zeta.
  assert (Hattempt :
            http_attempt env u timeout attempt l st
            = if (attempt <? MAX_RETRIES - 1)%nat
              then (Continue
                      (append_error ("HTTP " +:+ PyStr.of_Z status +:+ " - Unexpected status")
                         (with_metadata (set_http_status (Some status)) l)),
                    logged (EvSleep RETRY_DELAY) (logged (EvGet u timeout) st))
              else process_response env u attempt content
                     (append_error ("HTTP " +:+ PyStr.of_Z status +:+ " - Unexpected status")
                        (with_metadata (set_http_status (Some status)) l))
                     (logged (EvGet u timeout) st)).
  { unfold http_attempt. rewrite bind_run, get_run, Hget.
    rewrite !bool_decide_eq_false_2 by done.
    apply Z.leb_gt in H500. rewrite H500. cbn [negb].
    by rewrite retry_or_run. }
  split; [|split].
  - intros Hearly%Nat.ltb_lt. by rewrite Hattempt, Hearly.
  - intros Hlast%Nat.ltb_nlt. by rewrite Hattempt, Hlast.
  - intros Hlast%Nat.ltb_nlt body md' Hcontent Hpaywall Hextract Hlen Hjs.
    split.
    + rewrite Hattempt, Hlast. unfold process_response.
      assert (Hnz : (String.length content =? 0)%nat = false).
      { destruct content; [done|reflexivity]. }
      rewrite Hnz, Hpaywall.
      change (metadata (append_error _ (with_metadata (set_http_status (Some status)) l)))
        with (set_http_status (Some status) (metadata l)).
      rewrite Hextract, ret_run. f_equal.
      unfold on_extracted. apply Nat.ltb_ge in Hlen.
      cbn [with_metadata append_error metadata].
      rewrite Hlen, Hjs. cbn [andb].
      destruct (is_bloomberg_url env u) eqn:Hbb; [|done].
      apply bloomberg_is_js_heavy in Hbb. congruence.
    + pose proof (extract_keeps (html_parser env content)
                    (set_http_status (Some status) (metadata l))) as Hk.
      rewrite Hextract in Hk. cbn [snd] in Hk.
      destruct Hk as (_ & _ & Hf & Hs & _). split; [exact Hs|exact Hf].
Qed.

(** ** Properties of the callers *)

Section ByLineFacts.

Lemma lstrip_suffix (s : string) : exists p, s = p +:+ PyStr.lstrip s.
Proof.
  induction s as [|c s [p IH]]; [by exists ""|].
  cbn [PyStr.lstrip]. destruct (PyStr.is_space c); [|by exists ""].
  exists (String c p). by rewrite str_app_cons, <- IH.
Qed.

Lemma drop_suffix (n : nat) : forall s, exists p, s = p +:+ PyStr.drop n s.
Proof.
  induction n as [|n IH]; intros s; [by exists ""|].
  destruct s as [|c s]; [by exists ""|].
  cbn [PyStr.drop]. destruct (IH s) as [p Hp].
  exists (String c p). by rewrite str_app_cons, <- Hp.
Qed.

Lemma lstrip_drop_suffix (n : nat) (s : string) :
  exists p, s = p +:+ PyStr.lstrip (PyStr.drop n s).
Proof.
  destruct (drop_suffix n s) as [p Hp].
  destruct (lstrip_suffix (PyStr.drop n s)) as [q Hq].
  exists (p +:+ q). by rewrite <- str_app_assoc, <- Hq.
Qed.

End ByLineFacts.

(** X15: the text of a successful fetch is never refused by the analyze
    page for being empty or having fewer than 50 words, as counted by
    [count_words]. *)
Theorem fetched_text_passes_the_page_gate (env : Env) (depth : nat) (u : string)
    (timeout : Z) (upf : bool) (st : State) (r : Result) (st' : State) :
  fetch_article env depth u timeout upf st = Some (r, st') ->
  ok r = true ->
  text_refused (text r) = false.
Proof.
  intros H Hok. apply fetch_article_detail in H. unfold result_detail in H.
  rewrite Hok in H. destruct H as (Hlen & Hwords & _).
  unfold text_refused. apply orb_false_iff. split.
  - destruct (text r); [simpl in Hlen; lia|done].
  - by apply Nat.ltb_ge.
Qed.

(** X16: matching by domain takes the first outlet of the list, whatever
    its domain, when the domain of the article is empty: on the analyze
    page when no URL was given (pasted text) or the URL has no host or
    does not parse, on the batch page when the URL has no host or does
    not parse; and an outlet that has no domain is matched by every
    article that reaches it. *)
Theorem empty_domain_matches_first_outlet (env : Env) (Outlet : Type)
    (outlet_domain : Outlet -> string) (outlet : Outlet) (rest : list Outlet) :
  (forall current_url,
      current_url = "" \/ extract_domain env current_url = "" ->
      analyze_outlet_info env outlet_domain None (outlet :: rest) current_url = Some outlet)
  /\ (forall u,
         extract_domain env u = "" ->
         batch_outlet_info env outlet_domain (outlet :: rest) u = Some outlet)
  /\ (outlet_domain outlet = "" ->
      forall domain, match_outlet outlet_domain (outlet :: rest) domain = Some outlet).
Proof.
  assert (Hempty : match_outlet outlet_domain (outlet :: rest) "" = Some outlet).
  { unfold match_outlet, outlet_matches. cbn [List.find PyStr.lower].
    by rewrite contains_nil, orb_true_r. }
  split; [|split].
  - intros current_url [-> | Hd]; unfold analyze_outlet_info; [done|].
    rewrite Hd. by destruct (PyStr.nonempty current_url).
  - intros u Hd. unfold batch_outlet_info. by rewrite Hd.
  - intros Hnone domain. unfold match_outlet, outlet_matches. cbn [List.find].
    rewrite Hnone. cbn [PyStr.lower]. by rewrite contains_nil.
Qed.

(** X18: cleaning an author line only cuts from its front; and a line
    that begins with the letters b and y, in either case, loses them and
    the white space after them whether or not a word ends there, so the
    name Byron loses its first two letters. *)
Theorem byline_prefix_needs_no_word_boundary (author_text : string) :
  (exists cut, author_text = cut +:+ strip_byline_prefix author_text)
  /\ (PyStr.startswith "by" (PyStr.lower author_text) = true ->
      strip_byline_prefix author_text = PyStr.lstrip (PyStr.drop 2 author_text))
  /\ (forall rest, strip_byline_prefix ("By" +:+ rest) = PyStr.lstrip rest).
Proof.
  split; [|split].
  - unfold strip_byline_prefix.
    destruct (PyStr.startswith "by" _); [apply lstrip_drop_suffix|].
    destruct (PyStr.startswith "written by" _); [apply lstrip_drop_suffix|].
    destruct (PyStr.startswith "author:" _); [apply lstrip_drop_suffix|].
    by exists "".
  - intros H. unfold strip_byline_prefix. by rewrite H.
  - intros rest. reflexivity.
Qed.

Section NotesFacts.

Lemma join_snoc (sep : string) (l : list string) (x : string) :
  PyStr.join sep (l ++ [x])
  = match l with [] => x | _ => PyStr.join sep l +:+ sep +:+ x end.
Proof.
  induction l as [|a l IH]; [done|].
  destruct l as [|b l]; [done|].
  change (PyStr.join sep ((a :: b :: l) ++ [x]))
    with (a +:+ sep +:+ PyStr.join sep ((b :: l) ++ [x])).
  rewrite IH.
  change (PyStr.join sep (a :: b :: l)) with (a +:+ sep +:+ PyStr.join sep (b :: l)).
  by rewrite <- !str_app_assoc.
Qed.

Lemma join_snoc_nonempty (sep : string) (l : list string) (x : string) :
  l <> [] -> PyStr.join sep (l ++ [x]) = PyStr.join sep l +:+ sep +:+ x.
Proof. rewrite join_snoc. by destruct l. Qed.

Lemma join_ends (sep : string) (l : list string) (x : string) :
  exists front, PyStr.join sep (l ++ [x]) = front +:+ x.
Proof.
  rewrite join_snoc. destruct l as [|a l]; [by exists ""|].
  exists (PyStr.join sep (a :: l) +:+ sep). by rewrite <- str_app_assoc.
Qed.

End NotesFacts.

(** X19: asking whether playwright is available never touches the trace
    and leaves the flag set to the answer; asked again, it gives the same
    answer and changes nothing; an answer that is cached is returned
    without looking at the installation. *)
Theorem availability_check_is_cached (env : Env) (st : State) :
  let b := (check_playwright_available env st).1 in
  let st1 := (check_playwright_available env st).2 in
  check_playwright_available env st1 = (b, st1)
  /\ trace st1 = trace st
  /\ _playwright_available st1 = Some b
  /\ (forall cached, _playwright_available st = Some cached -> b = cached /\ st1 = st)
  /\ (_playwright_available st = None -> b = playwright_installed env).
Proof.
  cbv zeta. unfold check_playwright_available.
  destruct st as [tr [cached|]]; cbn.
  - split; [done|]. split; [done|]. split; [done|]. split; [|done].
    by intros ? [= <-].
  - split; [done|]. split; [done|]. split; [done|]. by split.
Qed.

(** X20: on the batch page the notes for a fetch that failed end with the
    message of the failure, whether or not the attempts are listed after
    it: when more than one error was recorded the message is given twice,
    since it is also the last of the attempts. *)
Theorem failed_fetch_notes_end_with_the_error (env : Env) (depth : nat) (u : string)
    (timeout : Z) (upf : bool) (st : State) (r : Result) (st' : State) :
  fetch_article env depth u timeout upf st = Some (r, st') ->
  ok r = false ->
  (exists front, fetch_failed_notes (text r) (meta r) = front +:+ text r)
  /\ ((1 < length (fetch_errors (meta r)))%nat ->
      exists front earlier,
        fetch_errors (meta r) = earlier ++ [text r]
        /\ fetch_failed_notes (text r) (meta r)
           = front +:+ text r +:+ " | Attempts: "
             +:+ PyStr.join "; " earlier +:+ "; " +:+ text r).
Proof.
  intros H Hok. apply fetch_article_detail in H. unfold result_detail in H.
  rewrite Hok in H. destruct H as (_ & es & Hes).
  unfold fetch_failed_notes. rewrite Hes.
  generalize (match http_status (meta r) with
              | Some status =>
                  if bool_decide (status = 0%Z) then [] else ["HTTP " +:+ PyStr.of_Z status]
              | None => []
              end) as parts.
  intros parts. cbv zeta.
  destruct (join_ends " | " parts (text r)) as [f1 Hf1].
  assert (Hne : parts ++ [text r] <> []) by (by destruct parts).
  destruct (1 <? length (es ++ [text r]))%nat eqn:Hmany.
  - rewrite (join_snoc_nonempty _ _ _ Hne), Hf1. split.
    + destruct (join_ends "; " es (text r)) as [f2 Hf2]. rewrite Hf2.
      exists ("FETCH FAILED: " +:+ (f1 +:+ text r) +:+ " | " +:+ "Attempts: " +:+ f2).
      by rewrite <- !str_app_assoc.
    + intros _. exists ("FETCH FAILED: " +:+ f1), es. split; [done|].
      rewrite (join_snoc_nonempty "; " es).
      * by rewrite <- !str_app_assoc.
      * intros ->. done.
  - split.
    + exists ("FETCH FAILED: " +:+ f1). by rewrite Hf1, <- str_app_assoc.
    + apply Nat.ltb_ge in Hmany. lia.
Qed.

(** ** The further properties at work in the worlds of the examples *)

(** X1 on the story that the requests tier fetches at once. *)
Lemma successful_fetch_meets_floors_witness :
  let env := Sim.env_of Sim.demo in
  exists r st',
    fetch_article env 1 "https://example.com/story" 30 true Sim.fresh = Some (r, st')
    /\ ok r = true
    /\ (200 <= String.length (text r))%nat
    /\ (50 <= count_words (text r))%nat
    /\ (fetch_method (meta r) = "requests" \/ fetch_method (meta r) = "playwright")
    /\ (fetch_method (meta r) = "requests" ->
        (500 <= String.length (text r))%nat
        /\ (is_js_heavy_domain env (url (meta r)) = true ->
            (1000 <= String.length (text r))%nat /\ (200 <= count_words (text r))%nat)).
Proof.
  cbv zeta. eexists. eexists.
  match goal with |- ?F /\ _ => assert (H : F) by (vm_compute; reflexivity) end.
  split; [exact H|]. split; [reflexivity|].
  exact (successful_fetch_meets_floors _ _ _ _ _ _ _ _ H eq_refl).
Defined.

(** X2 on a Bloomberg page of 719 characters that the browser renders. *)
Lemma partial_content_only_from_playwright_witness :
  let env := Sim.env_of rendering_world in
  exists r st',
    fetch_article env 1 "https://www.bloomberg.com/news/story" 30 true Sim.fresh
    = Some (r, st')
    /\ partial_content (meta r)
       = (if ok r && String.eqb (fetch_method (meta r)) "playwright"
             && is_bloomberg_url env (url (meta r))
             && (String.length (text r) <? 1000)%nat
          then Some true else None)
    /\ partial_content (meta r) = Some true.
Proof.
  cbv zeta. eexists. eexists.
  match goal with |- ?F /\ _ => assert (H : F) by (vm_compute; reflexivity) end.
  split; [exact H|]. split; [|reflexivity].
  exact (partial_content_only_from_playwright _ _ _ _ _ _ _ _ H).
Defined.

(** X3 on a URL that answers 403 twice. *)
Lemma failed_fetch_reports_last_error_witness :
  let env := Sim.env_of Sim.demo in
  exists r st',
    fetch_article env 1 "https://example.com/blocked" 30 true Sim.fresh = Some (r, st')
    /\ ok r = false
    /\ last (fetch_errors (meta r)) = Some (text r)
    /\ fetch_errors (meta r) <> [].
Proof.
  cbv zeta. eexists. eexists.
  match goal with |- ?F /\ _ => assert (H : F) by (vm_compute; reflexivity) end.
  split; [exact H|]. split; [reflexivity|].
  exact (failed_fetch_reports_last_error _ _ _ _ _ _ _ _ H eq_refl).
Defined.

(** X4 on the thin page, with the fallback switched off. *)
Lemma tiers_call_sequence_witness :
  let env := Sim.env_of Sim.demo in
  let u := "https://example.com/thin" in
  exists r st',
    fetch_article env 1 u 30 false Sim.fresh = Some (r, st')
    /\ tier_trace u 30 false Sim.fresh st'
    /\ (false = false ->
        _playwright_available st' = _playwright_available Sim.fresh
        /\ (trace st' = trace Sim.fresh ++ [EvGet u 30]
            \/ trace st' = trace Sim.fresh ++ [EvGet u 30; EvSleep RETRY_DELAY; EvGet u 30])).
Proof.
  cbv zeta. eexists. eexists.
  match goal with |- ?F /\ _ => assert (H : F) by (vm_compute; reflexivity) end.
  split; [exact H|].
  refine (tiers_call_sequence (Sim.env_of Sim.demo) 0 "https://example.com/thin" 30 false
            Sim.fresh _ Sim.fresh _ _ _ H).
  apply (enters_not_msn _ _ _ _ _ {| netloc := "example.com"; query := "" |});
    vm_compute; reflexivity.
Defined.

(** X5 on the thin page when the flag says that playwright is missing,
    although it is installed. *)
Lemma availability_is_probed_once_witness :
  let env := Sim.env_of Sim.demo in
  let st := {| trace := []; _playwright_available := Some false |} in
  playwright_installed env = true
  /\ exists r st',
      fetch_article env 1 "https://example.com/thin" 30 true st = Some (r, st')
      /\ flag_kept env st st'
      /\ (forall b, _playwright_available st = Some b -> _playwright_available st' = Some b).
Proof.
  cbv zeta. split; [reflexivity|]. eexists. eexists.
  match goal with |- ?F /\ _ => assert (H : F) by (vm_compute; reflexivity) end.
  split; [exact H|].
  exact (availability_is_probed_once _ _ _ _ _ _ _ _ H).
Defined.

(** X6 on the MSN wrapper of the story. *)
Lemma calls_carry_fixed_parameters_witness :
  let env := Sim.env_of Sim.demo in
  exists r st',
    fetch_article env 2 Sim.wrapper_url 30 false Sim.fresh = Some (r, st')
    /\ exists evs, trace st' = trace Sim.fresh ++ evs /\ Forall (tier_event 30) evs.
Proof.
  cbv zeta. eexists. eexists.
  match goal with |- ?F /\ _ => assert (H : F) by (vm_compute; reflexivity) end.
  split; [exact H|].
  exact (calls_carry_fixed_parameters _ _ _ _ _ _ _ _ H).
Defined.

(** X7 on a page that the browser renders. *)
Lemma headless_result_shape_witness :
  let env := Sim.env_of Sim.demo in
  let u := "https://example.com/blocked" in
  exists pw st',
    fetch_with_playwright env u 30000 Sim.fresh = (pw, st')
    /\ ok pw = true
    /\ fetch_method (meta pw) = "playwright"
    /\ url (meta pw) = u
    /\ domain (meta pw) = extract_domain env u
    /\ partial_content (meta pw) = None
    /\ fetch_errors (meta pw) = (if ok pw then [] else [text pw])
    /\ (ok pw = true ->
        (200 <= String.length (text pw))%nat /\ (50 <= count_words (text pw))%nat)
    /\ (st' = Sim.fresh /\ ok pw = false \/ st' = logged (EvPlaywright u 30000) Sim.fresh)
    /\ (playwright_installed env = false -> st' = Sim.fresh /\ ok pw = false)
    /\ (forall e, urlparse env u = inr e -> st' = Sim.fresh /\ ok pw = false)
    /\ (st' = logged (EvPlaywright u 30000) Sim.fresh ->
        playwright_installed env = true /\ exists parsed, urlparse env u = inl parsed).
Proof.
  cbv zeta. eexists. eexists.
  match goal with |- ?F /\ _ => assert (H : F) by (vm_compute; reflexivity) end.
  split; [exact H|]. split; [reflexivity|].
  exact (headless_result_shape _ _ _ _ _ _ H).
Defined.

(** X8 on a page of ten words: too short, and no case for the browser. *)
Lemma browser_is_asked_for_js_pages_only_witness :
  let soup := Sim.article_page "Brief" 10 in
  let m := new_metadata "https://example.com/brief" "requests" in
  exists msg m',
    extract_content_from_html soup m = (false, msg, m')
    /\ msg = "Page has no meaningful content (only 65 chars of text)"
    /\ PyStr.contains "JavaScript-rendered" msg || PyStr.contains "requires browser" msg
       = false.
Proof.
  cbv zeta. eexists. eexists.
  match goal with |- ?F /\ _ => assert (H : F) by (vm_compute; reflexivity) end.
  split; [exact H|]. split; [reflexivity|].
  destruct (browser_is_asked_for_js_pages_only _ _ _ _ H) as [Htest _].
  rewrite Htest. reflexivity.
Defined.

(** X9 on a page whose [article] element has 120 words, next to a
    paragraph outside it. *)
Lemma extracted_content_origin_witness :
  let soup :=
    [Bs4.Tag "html" []
       [Bs4.Tag "body" []
          [Bs4.Tag "p" [] [Sim.text_node "Related stories"];
           Bs4.Tag "article" [] [Bs4.Tag "p" [] [Sim.text_node (Sim.lorem 120)]]]]] in
  let m := new_metadata "https://example.com/story" "requests" in
  let clean := Bs4.decompose_all unwanted_elements soup in
  exists content m',
    extract_content_from_html soup m = (true, content, m')
    /\ content = Sim.lorem 120
    /\ ((exists before sel after elem,
            content_selectors = before ++ sel :: after
            /\ Forall (thin_container clean) before
            /\ Bs4.select_one sel clean = Some elem
            /\ content = paragraphs_text (Bs4.node_find_all ["p"] elem)
            /\ (100 <= count_words content)%nat)
        \/ (Forall (thin_container clean) content_selectors
            /\ content = paragraphs_text (Bs4.find_all ["p"] clean))).
Proof.
  cbv zeta. eexists. eexists.
  match goal with |- ?F /\ _ => assert (H : F) by (vm_compute; reflexivity) end.
  split; [exact H|]. split; [vm_compute; reflexivity|].
  exact (extracted_content_origin _ _ _ _ H).
Defined.

(** X11 on a URL that answers 403 and then 200: the error of the first
    attempt is not in the result. *)
Lemma errors_on_success_tell_the_tier_witness :
  let env := Sim.env_of Sim.demo in
  exists r st',
    fetch_article env 1 "https://example.com/flaky" 30 true Sim.fresh = Some (r, st')
    /\ ok r = true
    /\ (fetch_method (meta r) = "requests" -> fetch_errors (meta r) = [])
    /\ (fetch_method (meta r) = "playwright" -> fetch_errors (meta r) <> [])
    /\ (fetch_errors (meta r) = [] <-> fetch_method (meta r) = "requests").
Proof.
  cbv zeta. eexists. eexists.
  match goal with |- ?F /\ _ => assert (H : F) by (vm_compute; reflexivity) end.
  split; [exact H|]. split; [reflexivity|].
  exact (errors_on_success_tell_the_tier _ _ _ _ _ _ _ _ H eq_refl).
Defined.

(** X12 on a Bloomberg host written with capitals and "WWW.". *)
Lemma listed_hosts_are_js_heavy_witness :
  let env := Sim.env_of Sim.demo in
  let u := "https://WWW.Bloomberg.com/news" in
  urlparse env u = inl {| netloc := "WWW.Bloomberg.com"; query := "" |}
  /\ is_bloomberg_url env u = true
  /\ is_js_heavy_domain env u = true.
Proof.
  cbv zeta.
  assert (Hp : urlparse (Sim.env_of Sim.demo) "https://WWW.Bloomberg.com/news"
               = inl {| netloc := "WWW.Bloomberg.com"; query := "" |})
    by (vm_compute; reflexivity).
  split; [exact Hp|]. split; [vm_compute; reflexivity|].
  destruct (listed_hosts_are_js_heavy _ _ _ Hp) as (_ & Hbb & _).
  apply Hbb. vm_compute. reflexivity.
Defined.

(** X13 on the first attempt for the story. *)
Lemma returning_attempt_has_response_witness :
  let env := Sim.env_of Sim.demo in
  let u := "https://example.com/story" in
  let l := initial_locals (set_domain "example.com" (new_metadata u "requests")) in
  exists r st',
    http_attempt env u 30 0 l Sim.fresh = (Return r, st')
    /\ st' = logged (EvGet u 30) Sim.fresh
    /\ exists status content,
        requests_get env (trace Sim.fresh) u 30 = Response status content
        /\ http_status (meta r) = Some status
        /\ (ok r = true ->
            status <> 403%Z /\ status <> 404%Z /\ status <> 429%Z /\ (status < 500)%Z
            /\ ((0 < MAX_RETRIES - 1)%nat -> status = 200%Z))
        /\ (ok r = false ->
            exists es, fetch_errors (meta r) = all_errors l ++ es ++ [text r]).
Proof.
  cbv zeta. eexists. eexists.
  match goal with |- ?F /\ _ => assert (H : F) by (vm_compute; reflexivity) end.
  split; [exact H|].
  exact (returning_attempt_has_response _ _ _ _ _ _ _ _ H).
Defined.

(** X14 on a site that answers 410 with a page of 120 words: the first
    attempt is repeated, the last one returns the page. *)
Lemma unexpected_status_is_accepted_on_last_attempt_witness :
  let env := Sim.env_of gone_world in
  let u := "https://example.com/old" in
  let md := set_domain "example.com" (new_metadata u "requests") in
  let md' := set_title "Story" (set_http_status (Some 410%Z) md) in
  let l := initial_locals md in
  let l1 := append_error "HTTP 410 - Unexpected status"
              (with_metadata (set_http_status (Some 410%Z)) l) in
  requests_get env [] u 30 = Response 410 Sim.long_markup
  /\ http_attempt env u 30 0 l Sim.fresh
     = (Continue l1, logged (EvSleep RETRY_DELAY) (logged (EvGet u 30) Sim.fresh))
  /\ http_attempt env u 30 1 l Sim.fresh
     = (Return (true, Sim.lorem 120, set_fetch_method "requests" md'),
        logged (EvGet u 30) Sim.fresh)
  /\ http_status (set_fetch_method "requests" md') = Some 410%Z
  /\ fetch_errors (set_fetch_method "requests" md') = [].
Proof.
  cbv zeta. split; [reflexivity|].
  pose proof (unexpected_status_is_accepted_on_last_attempt (Sim.env_of gone_world)
                "https://example.com/old" 30 0
                (initial_locals (set_domain "example.com"
                                   (new_metadata "https://example.com/old" "requests")))
                Sim.fresh 410 Sim.long_markup eq_refl) as H0.
  pose proof (unexpected_status_is_accepted_on_last_attempt (Sim.env_of gone_world)
                "https://example.com/old" 30 1
                (initial_locals (set_domain "example.com"
                                   (new_metadata "https://example.com/old" "requests")))
                Sim.fresh 410 Sim.long_markup eq_refl) as H1.
  cbv zeta in H0, H1.
  destruct H0 as (Hearly & _); [discriminate..|reflexivity|].
  destruct H1 as (_ & _ & Hlast); [discriminate..|reflexivity|].
  split.
  { apply Hearly. unfold MAX_RETRIES. lia. }
  apply (Hlast ltac:(unfold MAX_RETRIES; lia) (Sim.lorem 120)).
  - vm_compute. discriminate.
  - vm_compute. reflexivity.
  - vm_compute. reflexivity.
  - vm_compute. lia.
  - vm_compute. reflexivity.
Defined.

(** X15 on the story. *)
Lemma fetched_text_passes_the_page_gate_witness :
  let env := Sim.env_of Sim.demo in
  exists r st',
    fetch_article env 1 "https://example.com/story" 30 true Sim.fresh = Some (r, st')
    /\ ok r = true
    /\ text_refused (text r) = false.
Proof.
  cbv zeta. eexists. eexists.
  match goal with |- ?F /\ _ => assert (H : F) by (vm_compute; reflexivity) end.
  split; [exact H|]. split; [reflexivity|].
  exact (fetched_text_passes_the_page_gate _ _ _ _ _ _ _ _ H eq_refl).
Defined.

(** X20 on a URL that answers 403 twice. *)
Lemma failed_fetch_notes_end_with_the_error_witness :
  let env := Sim.env_of Sim.demo in
  let msg := "HTTP 403 Forbidden - Site is blocking access" in
  exists r st',
    fetch_article env 1 "https://example.com/blocked" 30 true Sim.fresh = Some (r, st')
    /\ ok r = false
    /\ fetch_failed_notes (text r) (meta r)
       = "FETCH FAILED: HTTP 403 | " +:+ msg +:+ " | Attempts: " +:+ msg +:+ "; " +:+ msg
    /\ (exists front, fetch_failed_notes (text r) (meta r) = front +:+ text r)
    /\ ((1 < length (fetch_errors (meta r)))%nat ->
        exists front earlier,
          fetch_errors (meta r) = earlier ++ [text r]
          /\ fetch_failed_notes (text r) (meta r)
             = front +:+ text r +:+ " | Attempts: "
               +:+ PyStr.join "; " earlier +:+ "; " +:+ text r).
Proof.
  cbv zeta. eexists. eexists.
  match goal with |- ?F /\ _ => assert (H : F) by (vm_compute; reflexivity) end.
  split; [exact H|]. split; [reflexivity|]. split; [vm_compute; reflexivity|].
  exact (failed_fetch_notes_end_with_the_error _ _ _ _ _ _ _ _ H eq_refl).
Defined.
